(** * go-backend-valos-id: user service, repository and request pipeline

    A shallow embedding of the Go sources

      - core/user/handler/user.go        (HTTP handlers of the user endpoints)
      - core/user/repository             (UserRepository over the sqlc queries)
      - db/queries/users.sql             (the SQL the query layer is generated from)
      - core/middleware/middleware.go    (CORS, ErrorHandler, RequestID)
      - core/server                      (setupRouter: the router and the
                                          middleware chain; the route log)

    Go values are modelled as follows: [int] and [int32] are [Z] with the
    conversion's wrap-around written out, [string] is [string], [error] is
    an inductive type with one constructor per dynamic error type the code
    inspects, a nil-able [error] is [option error], [time.Time] is [Z].
    Code that reads or writes the database threads the database state
    explicitly. *)

From Stdlib Require Import ZArith List String Ascii Bool Lia.
From Stdlib Require Import Sorting.Permutation Sorting.Sorted.
From Stdlib Require OrdersEx DecimalString.
From stdpp Require Import base option list strings gmap.

Local Open Scope string_scope.
Local Open Scope list_scope.
Local Open Scope Z_scope.

(* ===================================================================== *)
(** ** Go primitives *)
(* ===================================================================== *)

(** [int] is 64 bits wide on the platforms the service targets. *)
Definition minInt : Z := - 2 ^ 63.
Definition maxInt : Z := 2 ^ 63 - 1.
Definition minInt32 : Z := - 2 ^ 31.
Definition maxInt32 : Z := 2 ^ 31 - 1.

(** The conversion [int32(x)] keeps the low 32 bits, read as two's complement. *)
Definition int32 (x : Z) : Z := (x + 2 ^ 31) mod 2 ^ 32 - 2 ^ 31.

Module time.
(** [time.Time], counted from the zero value [time.Time{}]. *)
Definition Time := Z.
Definition zero : Time := 0.
End time.

Module pgtype.
(** pgtype.Timestamptz: a nullable timestamp column. *)
Record Timestamptz := mkTimestamptz {
    Time : time.Time;
    Valid : bool
  }.
End pgtype.

(** *pgconn.PgError: the fields the code reads or sets; every other field
    keeps its zero value. *)
Record PgError := mkPgError {
  Code : string;
  Message : string;
  ConstraintName : string
}.

(** Go [error] values, by dynamic type. *)
Inductive error :=
| EPg (pe : PgError)                 (* *pgconn.PgError *)
| ErrNoRows                          (* the sentinel sql.ErrNoRows *)
| NumError (Func Num Err : string)   (* *strconv.NumError *)
| errorString (msg : string).        (* errors.New, fmt.Errorf, any other error *)

(** [strconv.Quote], for text without characters to escape. *)
Definition quote (s : string) : string :=
  String (ascii_of_nat 34) (s +:+ String (ascii_of_nat 34) EmptyString).

(** [err.Error()] *)
Definition Error (e : error) : string :=
  match e with
  | EPg pe => ": " +:+ Message pe +:+ " (SQLSTATE " +:+ Code pe +:+ ")"
  | ErrNoRows => "sql: no rows in result set"
  | NumError f n e =>
      "strconv." +:+ f +:+ ": parsing " +:+ quote n +:+ ": " +:+ e
  | errorString msg => msg
  end.

(** [(T, error)] results. *)
Inductive result (A : Type) :=
| Ok (a : A)
| Err (e : error).
Arguments Ok {A} a.
Arguments Err {A} e.

#[global] Instance PgError_eq_dec : EqDecision PgError.
Proof. solve_decision. Defined.
#[global] Instance error_eq_dec : EqDecision error.
Proof. solve_decision. Defined.

Module strconv.

(** The value of a decimal digit. *)
Definition digit (c : ascii) : option Z :=
  let n := Z.of_N (N_of_ascii c) in
  if (48 <=? n) && (n <=? 57) then Some (n - 48) else None.

Fixpoint digits (acc : Z) (s : string) : option Z :=
  match s with
  | EmptyString => Some acc
  | String c s' =>
      match digit c with
      | Some d => digits (acc * 10 + d) s'
      | None => None
      end
  end.

(** A decimal integer: an optional sign followed by one or more digits. *)
Definition decimal (s : string) : option Z :=
  match s with
  | EmptyString => None
  | String c r =>
      if Ascii.eqb c "+"%char then
        match r with EmptyString => None | _ => digits 0 r end
      else if Ascii.eqb c "-"%char then
        match r with EmptyString => None | _ => Z.opp <$> digits 0 r end
      else digits 0 s
  end.

(** [strconv.Atoi]: base 10, no underscores, the value must fit [int]. *)
Definition Atoi (s : string) : result Z :=
  match decimal s with
  | None => Err (NumError "Atoi" s "invalid syntax")
  | Some n =>
      if (minInt <=? n) && (n <=? maxInt) then Ok n
      else Err (NumError "Atoi" s "value out of range")
  end.

End strconv.

(* ===================================================================== *)
(** ** Data model *)
(* ===================================================================== *)

Module model.

(** Modelled from the spec: the package core/user/model is not among the
    sources. model.User has the fields the repository and the handlers
    read and write: identifier, username, email, password credential,
    created-at and updated-at. *)
Record User := mkUser {
    ID : Z;                 (* int32 *)
    Username : string;
    Email : string;
    Password : string;
    CreatedAt : time.Time;
    UpdatedAt : time.Time
  }.

(** model.UserResponse: a user without its password. *)
Record UserResponse := mkUserResponse {
    rID : Z;
    rUsername : string;
    rEmail : string;
    rCreatedAt : time.Time;
    rUpdatedAt : time.Time
  }.

(** model.UserCreateRequest, the JSON body of POST /api/v1/users. *)
Record UserCreateRequest := mkUserCreateRequest {
    reqUsername : string;
    reqEmail : string;
    reqPassword : string
  }.

End model.

(** The package sqlc generates from db/queries/users.sql
    (core/internal/repository): the row and parameter types the
    repository builds and reads, and one method per named query. *)
Module repository.

Record User := mkUser {
    ID : Z;                 (* int32 *)
    Username : string;
    Email : string;
    Password : string;
    CreatedAt : pgtype.Timestamptz;
    UpdatedAt : pgtype.Timestamptz
  }.

Record CreateUserParams := mkCreateUserParams {
    cUsername : string;
    cEmail : string;
    cPassword : string;
    cCreatedAt : pgtype.Timestamptz;
    cUpdatedAt : pgtype.Timestamptz
  }.

Record UpdateUserParams := mkUpdateUserParams {
    uID : Z;
    uUsername : string;
    uEmail : string;
    uUpdatedAt : pgtype.Timestamptz
  }.

Record UpdatePasswordParams := mkUpdatePasswordParams {
    pID : Z;
    pPassword : string;
    pUpdatedAt : pgtype.Timestamptz
  }.

Record GetUsersWithPaginationParams := mkGetUsersWithPaginationParams {
    Limit : Z;              (* int32 *)
    Offset : Z              (* int32 *)
  }.

(** The row of the two listing queries, which do not select the password
    (sqlc names it GetAllUsersRow and GetUsersWithPaginationRow). *)
Record ListRow := mkListRow {
    lID : Z;
    lUsername : string;
    lEmail : string;
    lCreatedAt : pgtype.Timestamptz;
    lUpdatedAt : pgtype.Timestamptz
  }.

(** Modelled from the spec: the generated package is not among the
    sources. [Queries] has one method per named query of users.sql, run
    against a database state of type [DB]; a [:one] or [:many] query
    returns a result, an [:exec] query returns a nil-able error. *)
Record Queries (DB : Type) := mkQueries {
    CreateUser : CreateUserParams -> DB -> result User * DB;
    GetUserByID : Z -> DB -> result User * DB;
    GetUserByEmail : string -> DB -> result User * DB;
    GetAllUsers : DB -> result (list ListRow) * DB;
    UpdateUser : UpdateUserParams -> DB -> option error * DB;
    UpdatePassword : UpdatePasswordParams -> DB -> option error * DB;
    DeleteUser : Z -> DB -> option error * DB;
    UserExists : string -> DB -> result bool * DB;
    GetUsersWithPagination :
      GetUsersWithPaginationParams -> DB -> result (list ListRow) * DB;
    CountUsers : DB -> result Z * DB
  }.
Arguments CreateUser {DB} _ _ _.
Arguments GetUserByID {DB} _ _ _.
Arguments GetUserByEmail {DB} _ _ _.
Arguments GetAllUsers {DB} _ _.
Arguments UpdateUser {DB} _ _ _.
Arguments UpdatePassword {DB} _ _ _.
Arguments DeleteUser {DB} _ _ _.
Arguments UserExists {DB} _ _ _.
Arguments GetUsersWithPagination {DB} _ _ _.
Arguments CountUsers {DB} _ _.

End repository.

(* ===================================================================== *)
(** ** UserRepository (core/user/repository) *)
(* ===================================================================== *)

Module UserRepository.

(** The repository methods, for the record of calls below. *)
Inductive Call :=
  | CallCreateUser (user : model.User)
  | CallGetUserByID (id : Z)
  | CallGetUserByEmail (email : string)
  | CallGetAllUsers
  | CallUpdateUser (user : model.User)
  | CallUpdatePassword (userID : Z) (hashedPassword : string)
  | CallDeleteUser (id : Z)
  | CallUserExists (email : string)
  | CallGetUsersWithPagination (limit offset : Z)
  | CallCountUsers.

(** What a repository method runs against: the database behind the pool,
    and a ghost record of the repository methods called so far. *)
Record World (DB : Type) := mkWorld {
    db : DB;
    calls : list Call
  }.
Arguments mkWorld {DB} _ _.
Arguments db {DB} _.
Arguments calls {DB} _.

Section WithQueries.
Context {DB : Type} (queries : repository.Queries DB).

(** Run one query of a repository method and record the call. *)
Definition run {A : Type} (c : Call) (query : DB -> A * DB)
    (w : World DB) : A * World DB :=
  let '(a, d) := query (db w) in
  (a, mkWorld d (calls w ++ [c])).

(** The pointer argument [user] is returned with the fields the method
    assigns. [now] is the value of [time.Now()]. *)
Definition CreateUser (user : model.User) (now : time.Time)
    (w : World DB) : (model.User * option error) * World DB :=
  let timestamptz := pgtype.mkTimestamptz now true in
  let params := repository.mkCreateUserParams
                  (model.Username user) (model.Email user)
                  (model.Password user) timestamptz timestamptz in
  let '(res, w) := run (CallCreateUser user)
                       (repository.CreateUser queries params) w in
  match res with
  | Err err =>
      match err with
      | EPg pgErr =>
          if String.eqb (Code pgErr) "23505" then
            if String.eqb (ConstraintName pgErr) "users_email_unique"
               || String.eqb (ConstraintName pgErr) "users_email_key"
            then (user, Some (EPg (mkPgError "23505"
                    "user with this email already exists" "")), w)
            else
            if String.eqb (ConstraintName pgErr) "users_username_unique"
               || String.eqb (ConstraintName pgErr) "users_username_key"
            then (user, Some (EPg (mkPgError "23505"
                    "user with this username already exists" "")), w)
            else (user, Some err, w)
          else (user, Some err, w)
      | _ => (user, Some err, w)
      end
  | Ok result =>
      (model.mkUser (repository.ID result) (model.Username user)
         (model.Email user) (model.Password user) now now, None, w)
  end.

Definition sqlcUserToModelUser (sqlcUser : repository.User) : model.User :=
  let createdAt :=
    if pgtype.Valid (repository.CreatedAt sqlcUser)
    then pgtype.Time (repository.CreatedAt sqlcUser) else time.zero in
  let updatedAt :=
    if pgtype.Valid (repository.UpdatedAt sqlcUser)
    then pgtype.Time (repository.UpdatedAt sqlcUser) else time.zero in
  model.mkUser (repository.ID sqlcUser) (repository.Username sqlcUser)
    (repository.Email sqlcUser) (repository.Password sqlcUser)
    createdAt updatedAt.

Definition GetUserByID (id : Z) (w : World DB)
    : result model.User * World DB :=
  let '(res, w) := run (CallGetUserByID id)
                       (repository.GetUserByID queries id) w in
  match res with
  | Err err =>
      if decide (err = ErrNoRows) then (Err ErrNoRows, w)
      else (Err err, w)
  | Ok result => (Ok (sqlcUserToModelUser result), w)
  end.

Definition GetUserByEmail (email : string) (w : World DB)
    : result model.User * World DB :=
  let '(res, w) := run (CallGetUserByEmail email)
                       (repository.GetUserByEmail queries email) w in
  match res with
  | Err err =>
      if decide (err = ErrNoRows) then (Err ErrNoRows, w)
      else (Err err, w)
  | Ok result => (Ok (sqlcUserToModelUser result), w)
  end.

(** The loop body of GetAllUsers and GetUsersWithPagination: the
    password field keeps its zero value. *)
Definition listRowToModelUser (result : repository.ListRow) : model.User :=
  let createdAt :=
    if pgtype.Valid (repository.lCreatedAt result)
    then pgtype.Time (repository.lCreatedAt result) else time.zero in
  let updatedAt :=
    if pgtype.Valid (repository.lUpdatedAt result)
    then pgtype.Time (repository.lUpdatedAt result) else time.zero in
  model.mkUser (repository.lID result) (repository.lUsername result)
    (repository.lEmail result) "" createdAt updatedAt.

Definition GetAllUsers (w : World DB)
    : result (list model.User) * World DB :=
  let '(res, w) := run CallGetAllUsers
                       (repository.GetAllUsers queries) w in
  match res with
  | Err err => (Err err, w)
  | Ok results => (Ok (map listRowToModelUser results), w)
  end.

Definition UpdateUser (user : model.User) (now : time.Time)
    (w : World DB) : (model.User * option error) * World DB :=
  let timestamptz := pgtype.mkTimestamptz now true in
  let params := repository.mkUpdateUserParams
                  (model.ID user) (model.Username user)
                  (model.Email user) timestamptz in
  let '(res, w) := run (CallUpdateUser user)
                       (repository.UpdateUser queries params) w in
  match res with
  | Some err =>
      match err with
      | EPg pgErr =>
          if String.eqb (Code pgErr) "23505" then
            if String.eqb (ConstraintName pgErr) "users_email_unique"
               || String.eqb (ConstraintName pgErr) "users_email_key"
            then (user, Some (EPg (mkPgError "23505"
                    "user with this email already exists" "")), w)
            else
            if String.eqb (ConstraintName pgErr) "users_username_unique"
               || String.eqb (ConstraintName pgErr) "users_username_key"
            then (user, Some (EPg (mkPgError "23505"
                    "user with this username already exists" "")), w)
            else (user, Some err, w)
          else (user, Some err, w)
      | _ => (user, Some err, w)
      end
  | None =>
      (model.mkUser (model.ID user) (model.Username user)
         (model.Email user) (model.Password user)
         (model.CreatedAt user) now, None, w)
  end.

Definition UpdatePassword (userID : Z) (hashedPassword : string)
    (now : time.Time) (w : World DB) : option error * World DB :=
  let timestamptz := pgtype.mkTimestamptz now true in
  let params := repository.mkUpdatePasswordParams
                  userID hashedPassword timestamptz in
  let '(res, w) := run (CallUpdatePassword userID hashedPassword)
                       (repository.UpdatePassword queries params) w in
  match res with
  | Some err => (Some err, w)
  | None => (None, w)
  end.

Definition DeleteUser (id : Z) (w : World DB) : option error * World DB :=
  let '(res, w) := run (CallDeleteUser id)
                       (repository.DeleteUser queries id) w in
  match res with
  | Some err => (Some err, w)
  | None => (None, w)
  end.

Definition UserExists (email : string) (w : World DB)
    : result bool * World DB :=
  let '(res, w) := run (CallUserExists email)
                       (repository.UserExists queries email) w in
  match res with
  | Err err => (Err err, w)
  | Ok exists_ => (Ok exists_, w)
  end.

Definition GetUsersWithPagination (limit offset : Z) (w : World DB)
    : result (list model.User) * World DB :=
  let params := repository.mkGetUsersWithPaginationParams limit offset in
  let '(res, w) := run (CallGetUsersWithPagination limit offset)
                       (repository.GetUsersWithPagination queries params) w in
  match res with
  | Err err => (Err err, w)
  | Ok results => (Ok (map listRowToModelUser results), w)
  end.

Definition CountUsers (w : World DB) : result Z * World DB :=
  let '(res, w) := run CallCountUsers
                       (repository.CountUsers queries) w in
  match res with
  | Err err => (Err err, w)
  | Ok count => (Ok count, w)
  end.

End WithQueries.

End UserRepository.

(* ===================================================================== *)
(** ** The users table behind the queries (db/queries/users.sql) *)
(* ===================================================================== *)

(** The statements of users.sql, run against the [users] table. *)
Module pg.

(** Modelled from the spec: the migration that creates the [users] table
    is not among the sources. The table is the one the README declares and
    the spec's data model describes: [id SERIAL PRIMARY KEY], [username]
    and [email] [NOT NULL UNIQUE], nullable timestamps. A violated unique
    constraint is reported with SQLSTATE 23505 and the name PostgreSQL
    gives the constraint ([users_username_key], [users_email_key]: two of
    the names the repository looks for); a failed statement leaves the
    rows as they were. Values are taken to fit their columns: the length
    limits of the column types are not modelled. *)
Record DB := mkDB {
    rows : list repository.User;   (* in insertion order *)
    users_id_seq : Z               (* the next value of the id sequence *)
  }.

Definition sqlstate (code constraint message : string) : error :=
  EPg (mkPgError code message constraint).

Definition unique_violation (constraint : string) : error :=
  sqlstate "23505" constraint
    "duplicate key value violates unique constraint".

(** ORDER BY created_at DESC: NULL sorts first, rows with equal keys stay
    in table order. [before a b] holds when [a] may precede [b]. *)
Definition before (a b : pgtype.Timestamptz) : bool :=
  match pgtype.Valid a, pgtype.Valid b with
  | false, _ => true
  | true, false => false
  | true, true => pgtype.Time b <=? pgtype.Time a
  end.

Fixpoint insert_desc (x : repository.User) (l : list repository.User)
    : list repository.User :=
  match l with
  | [] => [x]
  | y :: l' =>
      if before (repository.CreatedAt x) (repository.CreatedAt y)
      then x :: y :: l'
      else y :: insert_desc x l'
  end.

Definition order_by_created_at_desc (l : list repository.User)
    : list repository.User :=
  foldr insert_desc [] l.

(** SELECT id, username, email, created_at, updated_at *)
Definition select_list (r : repository.User) : repository.ListRow :=
  repository.mkListRow (repository.ID r) (repository.Username r)
    (repository.Email r) (repository.CreatedAt r) (repository.UpdatedAt r).

Definition has_id (id : Z) (r : repository.User) : bool :=
  repository.ID r =? id.
Definition has_username (s : string) (r : repository.User) : bool :=
  String.eqb (repository.Username r) s.
Definition has_email (s : string) (r : repository.User) : bool :=
  String.eqb (repository.Email r) s.

Section Statements.
(** The error a [:one] query returns when no row matches; the generated
    code that produces it is not part of the sources. *)
Variable no_rows : error.

(** INSERT INTO users (...) VALUES ($1, $2, $3, $4, $5) RETURNING ...
    The sequence value is consumed whether or not the insert succeeds. *)
Definition CreateUser (p : repository.CreateUserParams) (d : DB)
    : result repository.User * DB :=
  let id := users_id_seq d in
  if maxInt32 <? id then
    (Err (sqlstate "2200H" ""
            "nextval: reached maximum value of sequence"), d)
  else
    let d' := mkDB (rows d) (id + 1) in
    if existsb (has_id id) (rows d) then
      (Err (unique_violation "users_pkey"), d')
    else if existsb (has_username (repository.cUsername p)) (rows d) then
      (Err (unique_violation "users_username_key"), d')
    else if existsb (has_email (repository.cEmail p)) (rows d) then
      (Err (unique_violation "users_email_key"), d')
    else
      let row := repository.mkUser id (repository.cUsername p)
                   (repository.cEmail p) (repository.cPassword p)
                   (repository.cCreatedAt p) (repository.cUpdatedAt p) in
      (Ok row, mkDB (rows d ++ [row]) (id + 1)).

(** SELECT ... FROM users WHERE id = $1 *)
Definition GetUserByID (id : Z) (d : DB) : result repository.User * DB :=
  match find (has_id id) (rows d) with
  | Some r => (Ok r, d)
  | None => (Err no_rows, d)
  end.

(** SELECT ... FROM users WHERE email = $1 *)
Definition GetUserByEmail (email : string) (d : DB)
    : result repository.User * DB :=
  match find (has_email email) (rows d) with
  | Some r => (Ok r, d)
  | None => (Err no_rows, d)
  end.

(** SELECT ... FROM users ORDER BY created_at DESC *)
Definition GetAllUsers (d : DB) : result (list repository.ListRow) * DB :=
  (Ok (map select_list (order_by_created_at_desc (rows d))), d).

(** SET username = $2, email = $3, updated_at = $4 on a row WHERE id = $1 *)
Definition set_user (p : repository.UpdateUserParams)
    (r : repository.User) : repository.User :=
  if has_id (repository.uID p) r then
    repository.mkUser (repository.ID r) (repository.uUsername p)
      (repository.uEmail p) (repository.Password r)
      (repository.CreatedAt r) (repository.uUpdatedAt p)
  else r.

(** UPDATE users SET username = $2, email = $3, updated_at = $4
    WHERE id = $1. Updating no row is not an error; the new username and
    email must not be those of another row. *)
Definition UpdateUser (p : repository.UpdateUserParams) (d : DB)
    : option error * DB :=
  let others := List.filter (fun r => negb (has_id (repository.uID p) r))
                       (rows d) in
  if negb (existsb (has_id (repository.uID p)) (rows d)) then (None, d)
  else if existsb (has_username (repository.uUsername p)) others then
    (Some (unique_violation "users_username_key"), d)
  else if existsb (has_email (repository.uEmail p)) others then
    (Some (unique_violation "users_email_key"), d)
  else (None, mkDB (map (set_user p) (rows d)) (users_id_seq d)).

(** SET password = $2, updated_at = $3 on a row WHERE id = $1 *)
Definition set_password (p : repository.UpdatePasswordParams)
    (r : repository.User) : repository.User :=
  if has_id (repository.pID p) r then
    repository.mkUser (repository.ID r) (repository.Username r)
      (repository.Email r) (repository.pPassword p)
      (repository.CreatedAt r) (repository.pUpdatedAt p)
  else r.

(** UPDATE users SET password = $2, updated_at = $3 WHERE id = $1 *)
Definition UpdatePassword (p : repository.UpdatePasswordParams) (d : DB)
    : option error * DB :=
  (None, mkDB (map (set_password p) (rows d)) (users_id_seq d)).

(** DELETE FROM users WHERE id = $1. Deleting no row is not an error. *)
Definition DeleteUser (id : Z) (d : DB) : option error * DB :=
  (None, mkDB (List.filter (fun r => negb (has_id id r)) (rows d))
              (users_id_seq d)).

(** SELECT EXISTS(SELECT 1 FROM users WHERE email = $1) *)
Definition UserExists (email : string) (d : DB) : result bool * DB :=
  (Ok (existsb (has_email email) (rows d)), d).

(** SELECT ... FROM users ORDER BY created_at DESC LIMIT $1 OFFSET $2;
    a negative LIMIT or OFFSET is an error. *)
Definition GetUsersWithPagination
    (p : repository.GetUsersWithPaginationParams) (d : DB)
    : result (list repository.ListRow) * DB :=
  if repository.Limit p <? 0 then
    (Err (sqlstate "2201W" "" "LIMIT must not be negative"), d)
  else if repository.Offset p <? 0 then
    (Err (sqlstate "2201X" "" "OFFSET must not be negative"), d)
  else
    (Ok (map select_list
           (firstn (Z.to_nat (repository.Limit p))
              (skipn (Z.to_nat (repository.Offset p))
                 (order_by_created_at_desc (rows d))))), d).

(** SELECT COUNT( * ) FROM users *)
Definition CountUsers (d : DB) : result Z * DB :=
  (Ok (Z.of_nat (length (rows d))), d).

Definition queries : repository.Queries DB :=
  repository.mkQueries DB CreateUser GetUserByID GetUserByEmail
    GetAllUsers UpdateUser UpdatePassword DeleteUser UserExists
    GetUsersWithPagination CountUsers.

End Statements.

End pg.

(* ===================================================================== *)
(** ** gin: the request context and the handler chain *)
(* ===================================================================== *)

(** The part of github.com/gin-gonic/gin the sources rely on. A handler
    receives the context and returns it updated; [W] is the state the
    handlers' closures reach (the repository's world). *)
Module gin.

(** The values the handlers put into a response body ([gin.H] and what
    it holds). *)
#[warnings="-register-all"] Inductive json :=
  | JString (s : string)
  | JInt (n : Z)
  | JBool (b : bool)
  | JUser (u : model.UserResponse)
  | JUsers (us : list model.UserResponse)
  | H (fields : list (string * json)).

Record Request := mkRequest {
    Method : string;
    URLPath : string;
    ReqHeader : gmap string string;   (* canonical header names *)
    Params : gmap string string;      (* path parameters *)
    URLQuery : gmap string string;    (* query parameters *)
    Body : string
  }.

(** The response as it goes out: nothing changes the status line or the
    headers once they are written. *)
Record ResponseWriter := mkResponseWriter {
    status : Z;
    written : bool;
    header : gmap string string;
    body : list json
  }.

Record Context (W : Type) := mkContext {
    request : Request;
    Keys : gmap string string;
    Writer : ResponseWriter;
    Errors : list error;
    index : Z;
    world : W
  }.
Arguments mkContext {W} _ _ _ _ _ _.
Arguments request {W} _.
Arguments Keys {W} _.
Arguments Writer {W} _.
Arguments Errors {W} _.
Arguments index {W} _.
Arguments world {W} _.

Definition abortIndex : Z := 63.

Section WithWorld.
Context {W : Type}.

Definition set_Writer (wr : ResponseWriter) (c : Context W) : Context W :=
  mkContext (request c) (Keys c) wr (Errors c) (index c) (world c).
Definition set_index (i : Z) (c : Context W) : Context W :=
  mkContext (request c) (Keys c) (Writer c) (Errors c) i (world c).
Definition set_world (w : W) (c : Context W) : Context W :=
  mkContext (request c) (Keys c) (Writer c) (Errors c) (index c) w.

(** [c.reset()]: the context a request starts with. *)
Definition reset (req : Request) (w : W) : Context W :=
  mkContext req ∅ (mkResponseWriter 200 false ∅ []) [] (-1) w.

Definition GetHeader (key : string) (c : Context W) : string :=
  default "" (ReqHeader (request c) !! key).
Definition Param (key : string) (c : Context W) : string :=
  default "" (Params (request c) !! key).
Definition Query (key : string) (c : Context W) : string :=
  default "" (URLQuery (request c) !! key).

(** [c.Set(key, value)] *)
Definition Set_ (key value : string) (c : Context W) : Context W :=
  mkContext (request c) (<[key := value]> (Keys c)) (Writer c)
    (Errors c) (index c) (world c).

(** [c.Header(key, value)]: an empty value removes the header. *)
Definition Header (key value : string) (c : Context W) : Context W :=
  let wr := Writer c in
  if written wr then c
  else if String.eqb value "" then
    set_Writer (mkResponseWriter (status wr) false
                  (delete key (header wr)) (body wr)) c
  else
    set_Writer (mkResponseWriter (status wr) false
                  (<[key := value]> (header wr)) (body wr)) c.

(** [c.Status(code)] *)
Definition Status (code : Z) (c : Context W) : Context W :=
  let wr := Writer c in
  if (0 <? code) && negb (status wr =? code) then
    if written wr then c
    else set_Writer (mkResponseWriter code false (header wr) (body wr)) c
  else c.

(** [c.Writer.WriteHeaderNow()] *)
Definition WriteHeaderNow (c : Context W) : Context W :=
  let wr := Writer c in
  if written wr then c
  else set_Writer (mkResponseWriter (status wr) true (header wr) (body wr)) c.

(** [c.Writer.Write(data)] *)
Definition Write (data : json) (c : Context W) : Context W :=
  let c := WriteHeaderNow c in
  let wr := Writer c in
  set_Writer (mkResponseWriter (status wr) (written wr) (header wr)
                (body wr ++ [data])) c.

Definition Abort (c : Context W) : Context W := set_index abortIndex c.

Definition AbortWithStatus (code : Z) (c : Context W) : Context W :=
  Abort (WriteHeaderNow (Status code c)).

Definition bodyAllowedForStatus (code : Z) : bool :=
  if (100 <=? code) && (code <=? 199) then false
  else if code =? 204 then false
  else if code =? 304 then false
  else true.

(** The content type is set unless the response already has one. *)
Definition writeContentType (value : string) (c : Context W) : Context W :=
  match header (Writer c) !! "Content-Type" with
  | Some _ => c
  | None => Header "Content-Type" value c
  end.

(** [c.JSON(code, obj)] *)
Definition JSON (code : Z) (obj : json) (c : Context W) : Context W :=
  let c := Status code c in
  if bodyAllowedForStatus code then
    Write obj (writeContentType "application/json; charset=utf-8" c)
  else
    WriteHeaderNow (writeContentType "application/json; charset=utf-8" c).

(** A handler, given what [c.Next()] does at its place in the chain. *)
Definition HandlerFunc : Type :=
  (Context W -> Context W) -> Context W -> Context W.

Definition incr (c : Context W) : Context W := set_index (index c + 1) c.

(** The loop of [c.Next()] over [handlers[c.index:] = hs], where [n] is
    [len(c.handlers)]: run the handler at [c.index], step the index,
    go on while the index is in range. *)
Fixpoint loop (n : Z) (hs : list HandlerFunc) (c : Context W) : Context W :=
  match hs with
  | [] => c
  | h :: rest =>
      let next := fun c' =>
        let c' := incr c' in
        if index c' <? n then loop n rest c' else c' in
      let c1 := incr (h next c) in
      if index c1 <? n then loop n rest c1 else c1
  end.

(** [c.Next()] on a context whose handlers are [hs] and whose index is
    just before them. *)
Definition Next (hs : list HandlerFunc) (c : Context W) : Context W :=
  let c := incr c in
  if index c <? Z.of_nat (length hs) then loop (Z.of_nat (length hs)) hs c
  else c.

(** What the router finds for a request, [root.getValue] on the tree of
    the request's method: the handlers of the route that matches the
    path, if one does, and otherwise [tsr], set when the path with its
    trailing slash removed, or with one added, has handlers. [rURL] is
    the URL [redirectTrailingSlash] then redirects to, the request's own
    with that slash removed or added, in the form in which
    [http.Redirect] writes it into the response. *)
Record nodeValue := mkNodeValue {
    handlers : option HandlerFunc;
    tsr : bool;
    rURL : string
  }.

(** [w.Header().Set(key, value)] *)
Definition HeaderSet (key value : string) (c : Context W) : Context W :=
  let wr := Writer c in
  if written wr then c
  else set_Writer (mkResponseWriter (status wr) false
                     (<[key := value]> (header wr)) (body wr)) c.

(** [http.StatusText], for the two codes a redirect uses. *)
Definition StatusText (code : Z) : string :=
  if code =? 301 then "Moved Permanently"
  else if code =? 307 then "Temporary Redirect"
  else "".

(** [http.Redirect(c.Writer, req, url, code)], for a [url] it neither
    cleans nor escapes: the Location header; for GET and HEAD, unless the
    response has a content type, the HTML content type; the status; and
    for GET a short HTML body. *)
Definition Redirect (url : string) (code : Z) (c : Context W) : Context W :=
  let hadCT := match header (Writer c) !! "Content-Type" with
               | Some _ => true
               | None => false
               end in
  let method := Method (request c) in
  let c := HeaderSet "Location" url c in
  let c := if negb hadCT
              && (String.eqb method "GET" || String.eqb method "HEAD")
           then HeaderSet "Content-Type" "text/html; charset=utf-8" c
           else c in
  let c := Status code c in
  if negb hadCT && String.eqb method "GET" then
    Write (JString ("<a href=" +:+ quote url +:+ ">" +:+ StatusText code
                    +:+ "</a>." +:+ String (ascii_of_nat 10)
                                     (String (ascii_of_nat 10) EmptyString))) c
  else c.

(** [redirectRequest]: 301 for GET, 307 for every other method. *)
Definition redirectRequest (url : string) (c : Context W) : Context W :=
  let code := if String.eqb (Method (request c)) "GET" then 301 else 307 in
  WriteHeaderNow (Redirect url code c).

Definition redirectTrailingSlash (value : nodeValue) (c : Context W)
    : Context W :=
  redirectRequest (rURL value) c.

Definition default404Body : json := JString "404 page not found".

(** [serveError(c, code, defaultMessage)] with [c.handlers = handlers]:
    the status is preset, the handlers run, and the default message is
    written unless a handler has written or changed the status. *)
Definition serveError (code : Z) (defaultMessage : json)
    (handlers : list HandlerFunc) (c : Context W) : Context W :=
  let wr := Writer c in
  let c := set_Writer (mkResponseWriter code (written wr)
                         (header wr) (body wr)) c in
  let c := Next handlers c in
  if written (Writer c) then c
  else if status (Writer c) =? code then
    Write defaultMessage (Header "Content-Type" "text/plain" c)
  else WriteHeaderNow c.

(** [engine.handleHTTPRequest] for the engine [gin.New()] builds, with
    [RedirectTrailingSlash] set and [RedirectFixedPath] and
    [HandleMethodNotAllowed] clear. [trees] are the methods that have a
    tree of routes, [middlewares] the handlers installed with [Use],
    [value] what the router finds in the tree of the request's method.
    With handlers, their chain runs behind the middlewares and the header
    is flushed. With none and [tsr] set, the request is redirected before
    any handler runs, unless its method is CONNECT or its path is "/".
    Otherwise, and when the method has no tree, [serveError] answers 404
    through the middlewares ([engine.allNoRoute]). *)
Definition handleHTTPRequest (trees : list string)
    (middlewares : list HandlerFunc) (value : nodeValue)
    (c : Context W) : Context W :=
  let httpMethod := Method (request c) in
  let rPath := URLPath (request c) in
  if existsb (String.eqb httpMethod) trees then
    match handlers value with
    | Some h => WriteHeaderNow (Next (middlewares ++ [h]) c)
    | None =>
        if negb (String.eqb httpMethod "CONNECT")
           && negb (String.eqb rPath "/")
           && tsr value
        then redirectTrailingSlash value c
        else serveError 404 default404Body middlewares c
    end
  else serveError 404 default404Body middlewares c.

(** [gin.Logger()] and [gin.Recovery()]: logging is not modelled, and
    no handler of the service panics. *)
Definition Logger : HandlerFunc := fun next c => next c.
Definition Recovery : HandlerFunc := fun next c => next c.

End WithWorld.

Arguments nodeValue W : clear implicits.
Arguments mkNodeValue {W} _ _ _.
Arguments handlers {W} _.
Arguments tsr {W} _.
Arguments rURL {W} _.

End gin.

(* ===================================================================== *)
(** ** UserHandler (core/user/handler/user.go) *)
(* ===================================================================== *)

Module UserHandler.

Import gin.

(** The body of the PUT request, after binding. *)
Record UserUpdateRequest := mkUserUpdateRequest {
    updUsername : string;
    updEmail : string
  }.

(** What the handlers take from outside the sources: JSON binding with
    its validation ([c.ShouldBindJSON]), [utils.HashPassword], and the
    clock read by the repository. *)
Record Env := mkEnv {
    bindCreate : string -> result model.UserCreateRequest;
    bindUpdate : string -> result UserUpdateRequest;
    HashPassword : string -> result string;
    now : time.Time
  }.

Definition Err1 (msg : string) : json := H [("error", JString msg)].

Definition parseUserID (idStr : string) : result Z :=
  match strconv.Atoi idStr with
  | Err _ => Err (errorString "invalid user ID")
  | Ok id =>
      if id <=? 0 then Err (errorString "user ID must be positive")
      else Ok (int32 id)
  end.

Definition parseIntQuery (value : string) (defaultValue min max : Z)
    : result Z :=
  if String.eqb value "" then Ok defaultValue
  else
    match strconv.Atoi value with
    | Err _ => Err (errorString "invalid integer value")
    | Ok result =>
        let result := if result <? min then min else result in
        let result := if max <? result then max else result in
        Ok result
    end.

Definition toUserResponse (user : model.User) : model.UserResponse :=
  model.mkUserResponse (model.ID user) (model.Username user)
    (model.Email user) (model.CreatedAt user) (model.UpdatedAt user).

Section WithRepo.
Context {DB : Type} (userRepo : repository.Queries DB) (env : Env).

Abbreviation Ctx := (Context (UserRepository.World DB)).

Definition CreateUser (c : Ctx) : Ctx :=
  match bindCreate env (Body (request c)) with
  | Err err =>
      JSON 400 (H [("error", JString "Invalid request data");
                   ("details", JString (Error err))]) c
  | Ok req =>
      let '(res, w) :=
        UserRepository.UserExists userRepo (model.reqEmail req) (world c) in
      let c := set_world w c in
      match res with
      | Err _ => JSON 500 (Err1 "Failed to check if user exists") c
      | Ok true => JSON 409 (Err1 "User with this email already exists") c
      | Ok false =>
          match HashPassword env (model.reqPassword req) with
          | Err _ => JSON 500 (Err1 "Failed to hash password") c
          | Ok hashedPassword =>
              let user := model.mkUser 0 (model.reqUsername req)
                            (model.reqEmail req) hashedPassword
                            time.zero time.zero in
              let '(user, err, w) :=
                UserRepository.CreateUser userRepo user (now env) (world c) in
              let c := set_world w c in
              match err with
              | Some err =>
                  match err with
                  | EPg pgErr =>
                      if String.eqb (Code pgErr) "23505" then
                        if String.eqb (ConstraintName pgErr) "users_email_unique"
                           || String.eqb (ConstraintName pgErr) "users_email_key"
                        then JSON 409 (Err1 "User with this email already exists") c
                        else
                        if String.eqb (ConstraintName pgErr) "users_username_unique"
                           || String.eqb (ConstraintName pgErr) "users_username_key"
                        then JSON 409 (Err1 "User with this username already exists") c
                        else JSON 500 (Err1 "Failed to create user") c
                      else JSON 500 (Err1 "Failed to create user") c
                  | _ => JSON 500 (Err1 "Failed to create user") c
                  end
              | None =>
                  JSON 201 (H [("message", JString "User created successfully");
                               ("user", JUser (toUserResponse user))]) c
              end
          end
      end
  end.

Definition GetAllUsers (c : Ctx) : Ctx :=
  let '(res, w) := UserRepository.GetAllUsers userRepo (world c) in
  let c := set_world w c in
  match res with
  | Err _ => JSON 500 (Err1 "Failed to retrieve users") c
  | Ok users =>
      let userResponses := map toUserResponse users in
      JSON 200 (H [("users", JUsers userResponses);
                   ("count", JInt (Z.of_nat (length userResponses)))]) c
  end.

Definition GetUserByID (c : Ctx) : Ctx :=
  match parseUserID (Param "id" c) with
  | Err err => JSON 400 (Err1 (Error err)) c
  | Ok userID =>
      let '(res, w) := UserRepository.GetUserByID userRepo userID (world c) in
      let c := set_world w c in
      match res with
      | Err err =>
          if decide (err = ErrNoRows) then JSON 404 (Err1 "User not found") c
          else JSON 500 (Err1 "Failed to retrieve user") c
      | Ok user => JSON 200 (H [("user", JUser (toUserResponse user))]) c
      end
  end.

Definition UpdateUser (c : Ctx) : Ctx :=
  match parseUserID (Param "id" c) with
  | Err err => JSON 400 (Err1 (Error err)) c
  | Ok userID =>
      let '(res, w) := UserRepository.GetUserByID userRepo userID (world c) in
      let c := set_world w c in
      match res with
      | Err err =>
          if decide (err = ErrNoRows) then JSON 404 (Err1 "User not found") c
          else JSON 500 (Err1 "Failed to retrieve user") c
      | Ok _ =>
          match bindUpdate env (Body (request c)) with
          | Err err =>
              JSON 400 (H [("error", JString "Invalid request data");
                           ("details", JString (Error err))]) c
          | Ok req =>
              let user := model.mkUser userID (updUsername req)
                            (updEmail req) "" time.zero time.zero in
              let '(user, err, w) :=
                UserRepository.UpdateUser userRepo user (now env) (world c) in
              let c := set_world w c in
              match err with
              | Some err =>
                  match err with
                  | EPg pgErr =>
                      if String.eqb (Code pgErr) "23505" then
                        if String.eqb (ConstraintName pgErr) "users_email_unique"
                           || String.eqb (ConstraintName pgErr) "users_email_key"
                        then JSON 409 (Err1 "User with this email already exists") c
                        else
                        if String.eqb (ConstraintName pgErr) "users_username_unique"
                           || String.eqb (ConstraintName pgErr) "users_username_key"
                        then JSON 409 (Err1 "User with this username already exists") c
                        else JSON 500 (Err1 "Failed to update user") c
                      else JSON 500 (Err1 "Failed to update user") c
                  | _ => JSON 500 (Err1 "Failed to update user") c
                  end
              | None =>
                  JSON 200 (H [("message", JString "User updated successfully");
                               ("user", JUser (toUserResponse user))]) c
              end
          end
      end
  end.

Definition DeleteUser (c : Ctx) : Ctx :=
  match parseUserID (Param "id" c) with
  | Err err => JSON 400 (Err1 (Error err)) c
  | Ok userID =>
      let '(err, w) := UserRepository.DeleteUser userRepo userID (world c) in
      let c := set_world w c in
      match err with
      | Some _ =>
          let '(res, w) :=
            UserRepository.GetUserByID userRepo userID (world c) in
          let c := set_world w c in
          match res with
          | Err checkErr =>
              if decide (checkErr = ErrNoRows)
              then JSON 404 (Err1 "User not found") c
              else JSON 500 (Err1 "Failed to delete user") c
          | Ok _ => JSON 500 (Err1 "Failed to delete user") c
          end
      | None => JSON 200 (H [("message", JString "User deleted successfully")]) c
      end
  end.

Definition GetUsersWithPagination (c : Ctx) : Ctx :=
  match parseIntQuery (Query "limit" c) 10 1 100 with
  | Err _ => JSON 400 (Err1 "Invalid limit parameter") c
  | Ok limit =>
      match parseIntQuery (Query "offset" c) 0 0 1000000 with
      | Err _ => JSON 400 (Err1 "Invalid offset parameter") c
      | Ok offset =>
          let '(res, w) :=
            UserRepository.GetUsersWithPagination userRepo
              (int32 limit) (int32 offset) (world c) in
          let c := set_world w c in
          match res with
          | Err _ => JSON 500 (Err1 "Failed to retrieve users") c
          | Ok users =>
              let '(res, w) := UserRepository.CountUsers userRepo (world c) in
              let c := set_world w c in
              match res with
              | Err _ => JSON 500 (Err1 "Failed to count users") c
              | Ok total =>
                  let userResponses := map toUserResponse users in
                  JSON 200
                    (H [("users", JUsers userResponses);
                        ("pagination",
                         H [("limit", JInt limit);
                            ("offset", JInt offset);
                            ("total", JInt total)])]) c
              end
          end
      end
  end.

End WithRepo.

End UserHandler.

(* ===================================================================== *)
(** ** HealthHandler (core/handlers/health.go) *)
(* ===================================================================== *)

Module HealthHandler.

Import gin.

Section WithPool.
Context {DB : Type}.
(** [h.pool.Ping(ctx)] *)
Variable pool_Ping : DB -> option error.

Abbreviation Ctx := (Context (UserRepository.World DB)).

Definition Ping (c : Ctx) : Ctx :=
  JSON 200 (H [("message", JString "pong")]) c.

Definition HealthCheck (c : Ctx) : Ctx :=
  match pool_Ping (UserRepository.db (world c)) with
  | Some err =>
      JSON 503 (H [("status", JString "unhealthy");
                   ("database", H [("status", JString "disconnected");
                                   ("error", JString (Error err))])]) c
  | None =>
      JSON 200 (H [("status", JString "healthy");
                   ("database", H [("status", JString "connected")])]) c
  end.

Definition Readiness (c : Ctx) : Ctx :=
  match pool_Ping (UserRepository.db (world c)) with
  | Some _ =>
      JSON 503 (H [("ready", JBool false);
                   ("error", JString "database not ready")]) c
  | None => JSON 200 (H [("ready", JBool true)]) c
  end.

Definition Liveness (c : Ctx) : Ctx :=
  JSON 200 (H [("alive", JBool true)]) c.

End WithPool.

End HealthHandler.

(* ===================================================================== *)
(** ** middleware (core/middleware/middleware.go) *)
(* ===================================================================== *)

Module hex.

Definition hextable : string := "0123456789abcdef".

Definition hexdigit (n : N) : ascii :=
  default "0"%char (String.get (N.to_nat n) hextable).

(** [hex.EncodeToString]: two lower-case digits per byte, high nibble first. *)
Definition EncodeToString (src : list Byte.byte) : string :=
  foldr (fun b s =>
           String (hexdigit (N.shiftr (Byte.to_N b) 4))
             (String (hexdigit (N.land (Byte.to_N b) 15)) s))
        EmptyString src.

End hex.

Module middleware.

Import gin.

(** [crypto/rand.Read]: whether it fails, and the bytes it delivers. *)
Record Rand := mkRand {
  rand_fails : bool;
  rand_byte : nat -> Byte.byte
}.

Definition charset : string :=
  "abcdefghijklmnopqrstuvwxyzABCDEFGHIJKLMNOPQRSTUVWXYZ0123456789".

Definition randomString (rnd : Rand) (length : nat) : string :=
  if rand_fails rnd then
    string_of_list_ascii
      (map (fun i => default "a"%char
                       (String.get (i mod String.length charset) charset))
           (seq 0 length))
  else
    let b := map (rand_byte rnd) (seq 0 length) in
    substring 0 length (hex.EncodeToString b).

Definition generateRequestID (rnd : Rand) : string :=
  "req-" +:+ randomString rnd 8.

Section WithWorld.
Context {W : Type}.

Definition CORS : @HandlerFunc W := fun next c =>
  let c := Header "Access-Control-Allow-Origin" "*" c in
  let c := Header "Access-Control-Allow-Methods"
             "GET, POST, PUT, DELETE, OPTIONS" c in
  let c := Header "Access-Control-Allow-Headers"
             "Origin, Content-Type, Content-Length, Accept-Encoding, X-CSRF-Token, Authorization" c in
  if String.eqb (Method (request c)) "OPTIONS" then AbortWithStatus 204 c
  else next c.

Definition ErrorHandler : @HandlerFunc W := fun next c =>
  let c := next c in
  if 0 <? Z.of_nat (length (Errors c)) then
    JSON 500 (H [("error", JString "Internal server error")]) c
  else c.

Definition RequestID (rnd : Rand) : @HandlerFunc W := fun next c =>
  let requestID := GetHeader "X-Request-ID" c in
  let requestID :=
    if String.eqb requestID "" then generateRequestID rnd else requestID in
  let c := Set_ "RequestID" requestID c in
  let c := Header "X-Request-ID" requestID c in
  next c.

End WithWorld.

End middleware.

(* ===================================================================== *)
(** ** Server (core/server): the router *)
(* ===================================================================== *)

(** [sort.SliceStable]: the elements in ascending order of [less], those
    that [less] does not tell apart in their original order. For a [less]
    that is a strict weak order this determines the result; it is computed
    here by insertion from the right, each element going in front of the
    first one that is not less than it. *)
Module sort.

Section WithLess.
Context {A : Type} (less : A -> A -> bool).

Fixpoint insert (x : A) (l : list A) : list A :=
  match l with
  | [] => [x]
  | y :: l' => if less y x then y :: insert x l' else x :: y :: l'
  end.

Definition SliceStable (l : list A) : list A := foldr insert [] l.

End WithLess.

End sort.

Module Server.

Import gin.

(** gin.RouteInfo: the fields [logRegisteredRoutes] reads. *)
Record RouteInfo := mkRouteInfo {
  RouteMethod : string;
  RoutePath : string
}.

Definition methodOrder : gmap string Z :=
  list_to_map [("DELETE", 0); ("GET", 1); ("POST", 2); ("PUT", 3);
               ("PATCH", 4); ("HEAD", 5); ("OPTIONS", 6)].

(** [methodOrder[m]]: a key the map does not have reads as 0. *)
Definition methodOrderOf (m : string) : Z := default 0 (methodOrder !! m).

(** The comparison [logRegisteredRoutes] hands to [sort.SliceStable]; [<]
    on strings is the byte-wise lexicographic order. *)
Definition less (a b : RouteInfo) : bool :=
  if negb (String.eqb (RoutePath a) (RoutePath b))
  then String.ltb (RoutePath a) (RoutePath b)
  else
    let orderI := methodOrderOf (RouteMethod a) in
    let orderJ := methodOrderOf (RouteMethod b) in
    if negb (orderI =? orderJ) then orderI <? orderJ
    else String.ltb (RouteMethod a) (RouteMethod b).

(** [strings.Repeat] *)
Fixpoint Repeat (s : string) (count : nat) : string :=
  match count with
  | O => EmptyString
  | S n => s +:+ Repeat s n
  end.

(** [fmt.Sprintf("%-8s %s", method, path)]: the method padded with spaces
    on the right to eight characters. *)
Definition routeLine (r : RouteInfo) : string :=
  RouteMethod r
  +:+ Repeat " " (8 - String.length (RouteMethod r))
  +:+ " " +:+ RoutePath r.

(** [logRegisteredRoutes], given [engine.Routes()]: the lines it logs,
    without the time stamps [log] puts in front. *)
Definition logRegisteredRoutes (routes : list RouteInfo) : list string :=
  let rule := Repeat "─" 30 in
  let routes := sort.SliceStable less routes in
  ["🚀 Registered Routes:"; rule]
  ++ map routeLine routes
  ++ [rule;
      "Total routes registered: "
      +:+ DecimalString.NilEmpty.string_of_uint
            (Nat.to_uint (List.length routes))].

(** The handlers bound by [setupRoutes]. *)
Inductive Endpoint :=
| Ping | HealthCheck | Readiness | Liveness
| CreateUser | GetAllUsers | GetUsersWithPagination
| GetUserByID | UpdateUser | DeleteUser.

(** The route table: method, path, handler. *)
Definition setupRoutes : list (string * string * Endpoint) :=
  [ ("GET", "/ping", Ping);
    ("GET", "/health", HealthCheck);
    ("GET", "/ready", Readiness);
    ("GET", "/live", Liveness);
    ("POST", "/api/v1/users", CreateUser);
    ("GET", "/api/v1/users", GetAllUsers);
    ("GET", "/api/v1/users/paginate", GetUsersWithPagination);
    ("GET", "/api/v1/users/:id", GetUserByID);
    ("PUT", "/api/v1/users/:id", UpdateUser);
    ("DELETE", "/api/v1/users/:id", DeleteUser) ].

Section WithDeps.
Context {DB : Type} (userRepo : repository.Queries DB)
        (pool_Ping : DB -> option error) (env : UserHandler.Env).

Abbreviation Ctx := (Context (UserRepository.World DB)).

(** A routed handler is the last of its chain and never calls [c.Next()]. *)
Definition handler (e : Endpoint) : @HandlerFunc (UserRepository.World DB) :=
  fun _ c =>
    match e with
    | Ping => HealthHandler.Ping c
    | HealthCheck => HealthHandler.HealthCheck pool_Ping c
    | Readiness => HealthHandler.Readiness pool_Ping c
    | Liveness => HealthHandler.Liveness c
    | CreateUser => UserHandler.CreateUser userRepo env c
    | GetAllUsers => UserHandler.GetAllUsers userRepo c
    | GetUsersWithPagination => UserHandler.GetUsersWithPagination userRepo c
    | GetUserByID => UserHandler.GetUserByID userRepo c
    | UpdateUser => UserHandler.UpdateUser userRepo env c
    | DeleteUser => UserHandler.DeleteUser userRepo c
    end.

End WithDeps.

(** The chain [setupRouter] installs with [router.Use], in order. *)
Definition middlewares {W : Type} (rnd : middleware.Rand)
    : list (@HandlerFunc W) :=
  [ middleware.RequestID rnd; Logger; Recovery;
    middleware.ErrorHandler; middleware.CORS ].

(** The methods that have a tree of routes: those of the routes
    [setupRoutes] registers. *)
Definition trees : list string := map (fun r => fst (fst r)) setupRoutes.

(** One request through the engine; [value] is what the router finds for
    the request's path in the tree of its method. *)
Definition ServeHTTP {W : Type} (rnd : middleware.Rand)
    (value : nodeValue W) (req : Request) (w : W) : Context W :=
  handleHTTPRequest trees (middlewares rnd) value (reset req w).

End Server.

(* ===================================================================== *)
(** ** Sample data: a store, requests and collaborators to run the code on *)
(* ===================================================================== *)

Module Sample.

Definition at_ (t : Z) : pgtype.Timestamptz := pgtype.mkTimestamptz t true.

Definition john : repository.User :=
  repository.mkUser 1 "johndoe" "john@example.com" "$2a$hash1" (at_ 100) (at_ 100).
Definition bob : repository.User :=
  repository.mkUser 2 "bob" "bob@example.com" "$2a$hash2" (at_ 200) (at_ 250).

(** The error the samples take the query layer to report for a missing
    row: the driver's own sentinel, a value other than sql.ErrNoRows. *)
Definition no_rows : error := errorString "no rows in result set".

Definition queries : repository.Queries pg.DB := pg.queries no_rows.

Definition empty : UserRepository.World pg.DB :=
  UserRepository.mkWorld (pg.mkDB [] 1) [].
Definition two_users : UserRepository.World pg.DB :=
  UserRepository.mkWorld (pg.mkDB [john; bob] 3) [].

(** Binding: the body is taken as [username,email,password], separated by
    commas; anything else fails to bind. *)
Definition fields (s : string) : list string :=
  let step c acc :=
    match acc with
    | [] => [String c EmptyString]
    | w :: ws => if Ascii.eqb c ","%char then EmptyString :: w :: ws
                 else String c w :: ws
    end in
  foldr step [EmptyString] (list_ascii_of_string s).

Definition bindCreate (s : string) : result model.UserCreateRequest :=
  match fields s with
  | [u; e; p] => Ok (model.mkUserCreateRequest u e p)
  | _ => Err (errorString "invalid request")
  end.

Definition bindUpdate (s : string) : result UserHandler.UserUpdateRequest :=
  match fields s with
  | [u; e] => Ok (UserHandler.mkUserUpdateRequest u e)
  | _ => Err (errorString "invalid request")
  end.

Definition env : UserHandler.Env :=
  UserHandler.mkEnv bindCreate bindUpdate (fun p => Ok ("$2a$" +:+ p)) 1000.

Definition rnd : middleware.Rand :=
  middleware.mkRand false (fun i => default Byte.x00 (Byte.of_nat (17 * i + 3))).

Definition request (method path : string) (id : string)
    (query : list (string * string)) (body : string) : gin.Request :=
  gin.mkRequest method path ∅ {[ "id" := id ]} (list_to_map query) body.

(** A request that brings its own correlation id, and one that does not. *)
Definition traced : gin.Request :=
  gin.mkRequest "GET" "/api/v1/users/1" {[ "X-Request-ID" := "trace-0001" ]}
    {[ "id" := "1" ]} ∅ "".
Definition untraced : gin.Request :=
  request "GET" "/api/v1/users/1" "1" [] "".

(** A store of ten users, created at distinct and at equal instants. *)
Definition user_n (n : nat) (t : Z) : repository.User :=
  repository.mkUser (Z.of_nat n) (String (ascii_of_nat (96 + n)) "")
    (String (ascii_of_nat (96 + n)) "@example.com") "$2a$hash" (at_ t) (at_ t).
Definition ten_users : UserRepository.World pg.DB :=
  UserRepository.mkWorld
    (pg.mkDB [user_n 1 10; user_n 2 30; user_n 3 20; user_n 4 30; user_n 5 50;
              user_n 6 60; user_n 7 70; user_n 8 80; user_n 9 90; user_n 10 5] 11)
    [].

(** What the router may find: the handlers of a route, nothing, or nothing
    but the path with the other trailing slash, at [url]. *)
Definition found {W : Type} (h : @gin.HandlerFunc W) : gin.nodeValue W :=
  gin.mkNodeValue (Some h) false "".
Definition no_route {W : Type} : gin.nodeValue W :=
  gin.mkNodeValue None false "".
Definition slash {W : Type} (url : string) : gin.nodeValue W :=
  gin.mkNodeValue None true url.

(** The routes of [setupRoutes] as [engine.Routes()] reports them, here in
    the order of registration. *)
Definition registered : list Server.RouteInfo :=
  map (fun r => Server.mkRouteInfo (fst (fst r)) (snd (fst r)))
      Server.setupRoutes.

(** A driver whose every statement fails: the backend is unreachable. *)
Definition unreachable : error :=
  EPg (mkPgError "08006" "connection failure" "").
Definition down : repository.Queries unit :=
  repository.mkQueries unit
    (fun _ d => (Err unreachable, d)) (fun _ d => (Err unreachable, d))
    (fun _ d => (Err unreachable, d)) (fun d => (Err unreachable, d))
    (fun _ d => (Some unreachable, d)) (fun _ d => (Some unreachable, d))
    (fun _ d => (Some unreachable, d)) (fun _ d => (Err unreachable, d))
    (fun _ d => (Err unreachable, d)) (fun d => (Err unreachable, d)).

End Sample.

(* ===================================================================== *)
(** ** Predicates used in the statements *)
(* ===================================================================== *)

(** [c'] differs from [c] in the response only: the handlers' state, the
    keys, the recorded errors, the chain index and the request agree. *)
Definition same_frame {W : Type} (c c' : gin.Context W) : Prop :=
  gin.world c' = gin.world c /\ gin.Keys c' = gin.Keys c
  /\ gin.Errors c' = gin.Errors c /\ gin.index c' = gin.index c
  /\ gin.request c' = gin.request c.

(** The error of a result, if any. *)
Definition err_of {A : Type} (r : result A) : option error :=
  match r with Ok _ => None | Err e => Some e end.

(** The error a repository method returns to its caller, method by method. *)
Definition returned_error {DB : Type} (queries : repository.Queries DB)
    (now : time.Time) (call : UserRepository.Call)
    (w : UserRepository.World DB) : option error :=
  match call with
  | UserRepository.CallCreateUser user =>
      snd (fst (UserRepository.CreateUser queries user now w))
  | UserRepository.CallGetUserByID id =>
      err_of (fst (UserRepository.GetUserByID queries id w))
  | UserRepository.CallGetUserByEmail email =>
      err_of (fst (UserRepository.GetUserByEmail queries email w))
  | UserRepository.CallGetAllUsers =>
      err_of (fst (UserRepository.GetAllUsers queries w))
  | UserRepository.CallUpdateUser user =>
      snd (fst (UserRepository.UpdateUser queries user now w))
  | UserRepository.CallUpdatePassword userID hashedPassword =>
      fst (UserRepository.UpdatePassword queries userID hashedPassword now w)
  | UserRepository.CallDeleteUser id =>
      fst (UserRepository.DeleteUser queries id w)
  | UserRepository.CallUserExists email =>
      err_of (fst (UserRepository.UserExists queries email w))
  | UserRepository.CallGetUsersWithPagination limit offset =>
      err_of (fst (UserRepository.GetUsersWithPagination queries limit offset w))
  | UserRepository.CallCountUsers =>
      err_of (fst (UserRepository.CountUsers queries w))
  end.

(** The error of the query that method runs, as the driver reports it. *)
Definition storage_error {DB : Type} (queries : repository.Queries DB)
    (now : time.Time) (call : UserRepository.Call) (d : DB) : option error :=
  let ts := pgtype.mkTimestamptz now true in
  match call with
  | UserRepository.CallCreateUser user =>
      err_of (fst (repository.CreateUser queries
                     (repository.mkCreateUserParams (model.Username user)
                        (model.Email user) (model.Password user) ts ts) d))
  | UserRepository.CallGetUserByID id =>
      err_of (fst (repository.GetUserByID queries id d))
  | UserRepository.CallGetUserByEmail email =>
      err_of (fst (repository.GetUserByEmail queries email d))
  | UserRepository.CallGetAllUsers =>
      err_of (fst (repository.GetAllUsers queries d))
  | UserRepository.CallUpdateUser user =>
      fst (repository.UpdateUser queries
             (repository.mkUpdateUserParams (model.ID user)
                (model.Username user) (model.Email user) ts) d)
  | UserRepository.CallUpdatePassword userID hashedPassword =>
      fst (repository.UpdatePassword queries
             (repository.mkUpdatePasswordParams userID hashedPassword ts) d)
  | UserRepository.CallDeleteUser id =>
      fst (repository.DeleteUser queries id d)
  | UserRepository.CallUserExists email =>
      err_of (fst (repository.UserExists queries email d))
  | UserRepository.CallGetUsersWithPagination limit offset =>
      err_of (fst (repository.GetUsersWithPagination queries
                     (repository.mkGetUsersWithPaginationParams limit offset) d))
  | UserRepository.CallCountUsers =>
      err_of (fst (repository.CountUsers queries d))
  end.

(** Whether an error value has the driver's own error type,
    *pgconn.PgError. *)
Definition driver_error_type (e : error) : bool :=
  match e with EPg _ => true | _ => false end.

(** The error the two writing methods put in place of a unique violation
    on [field]. *)
Definition already_exists (field : string) : error :=
  EPg (mkPgError "23505" ("user with this " +:+ field +:+ " already exists") "").

(** A store as the service leaves it: ids are distinct, positive and
    below the sequence, and every row has a creation time. *)
Definition store_ok (d : pg.DB) : Prop :=
  NoDup (map repository.ID (pg.rows d))
  /\ 1 <= pg.users_id_seq d
  /\ Forall (fun r => 1 <= repository.ID r < pg.users_id_seq d
                      /\ pgtype.Valid (repository.CreatedAt r) = true)
            (pg.rows d).

(** Descending by creation time, position by position. *)
Definition newest_first (page : list model.User) : Prop :=
  forall (i j : nat) (a b : model.User),
    (i <= j)%nat -> page !! i = Some a -> page !! j = Some b ->
    model.CreatedAt b <= model.CreatedAt a.

(** The order of ORDER BY created_at DESC on rows. *)
Definition comes_before (a b : repository.User) : Prop :=
  pg.before (repository.CreatedAt a) (repository.CreatedAt b) = true.

(** The listing every page is a window of: all users, newest first. *)
Definition listing (w : UserRepository.World pg.DB) : list model.User :=
  map UserRepository.listRowToModelUser
    (map pg.select_list
       (pg.order_by_created_at_desc (pg.rows (UserRepository.db w)))).




(** The context carries the correlation id [rid], as key and as response
    header. *)
Definition carries_id {W : Type} (rid : string) (c : gin.Context W) : Prop :=
  gin.Keys c !! "RequestID" = Some rid
  /\ gin.header (gin.Writer c) !! "X-Request-ID" = Some rid.

(** A stage that keeps the correlation id, provided the rest of the chain
    does. *)
Definition keeps_id {W : Type} (rid : string) (h : @gin.HandlerFunc W) : Prop :=
  forall next, (forall c, carries_id rid c -> carries_id rid (next c)) ->
    forall c, carries_id rid c -> carries_id rid (h next c).

(** The correlation id of a request: the inbound header when it is
    present and not empty, a generated id otherwise. *)
Definition correlation_id (rnd : middleware.Rand) (req : gin.Request) : string :=
  match gin.ReqHeader req !! "X-Request-ID" with
  | Some (String a v) => String a v
  | _ => middleware.generateRequestID rnd
  end.

(** What [c.Next()] does for a handler followed by [rest] in a chain of
    [n] handlers: step the index and run the rest while it is in range. *)
Definition continue {W : Type} (n : Z) (rest : list (@gin.HandlerFunc W))
    (c : gin.Context W) : gin.Context W :=
  if gin.index c + 1 <? n then gin.loop n rest (gin.incr c) else gin.incr c.

(** A request on its way down the chain: nothing written, no error
    recorded, the response so far has status [st] and headers [hdr]. *)
Definition unanswered {W : Type} (req : gin.Request) (w : W) (st : Z)
    (hdr : gmap string string) (c : gin.Context W) : Prop :=
  gin.request c = req /\ gin.world c = w /\ gin.Errors c = []
  /\ gin.Writer c = gin.mkResponseWriter st false hdr [].

(** ... and on its way back up a chain of [n] handlers, the response
    being [wr] and the handlers' state [w']. *)
Definition answered {W : Type} (n : Z) (wr : gin.ResponseWriter) (w' : W)
    (c : gin.Context W) : Prop :=
  gin.Writer c = wr /\ gin.world c = w' /\ gin.Errors c = []
  /\ n <= gin.index c + 1.

(** A stage that passes a request satisfying [P] down as one satisfying
    [P'], at the same index, and passes an answer [Q] back up. *)
Definition stage {W : Type} (P P' Q : gin.Context W -> Prop)
    (m : @gin.HandlerFunc W) : Prop :=
  forall next c, P c ->
    exists c', P' c' /\ gin.index c' = gin.index c
               /\ (Q (next c') -> Q (m next c)).

(** The headers the chain has set when a handler runs: the correlation id
    and the three cross-origin headers. *)
Definition chain_headers (rid : string) : gmap string string :=
  <["Access-Control-Allow-Headers" :=
      "Origin, Content-Type, Content-Length, Accept-Encoding, X-CSRF-Token, Authorization"]>
    (<["Access-Control-Allow-Methods" := "GET, POST, PUT, DELETE, OPTIONS"]>
       (<["Access-Control-Allow-Origin" := "*"]>
          (<["X-Request-ID" := rid]> ∅))).

(** The router has handlers for the request: its method has a tree and
    the path matches a route there. *)
Definition routed {W : Type} (value : gin.nodeValue W) (req : gin.Request)
    : bool :=
  existsb (String.eqb (gin.Method req)) Server.trees
  && match gin.handlers value with Some _ => true | None => false end.

(** The router answers the request itself, with a redirect to the path
    with the other trailing slash, before any handler runs. *)
Definition redirected {W : Type} (value : gin.nodeValue W) (req : gin.Request)
    : bool :=
  existsb (String.eqb (gin.Method req)) Server.trees
  && match gin.handlers value with Some _ => false | None => true end
  && negb (String.eqb (gin.Method req) "CONNECT")
  && negb (String.eqb (gin.URLPath req) "/")
  && gin.tsr value.

(** The driver error [e] is a unique violation (SQLSTATE 23505) of one of
    the two constraints on [field]. *)
Definition violates (field : string) (e : error) : bool :=
  match e with
  | EPg pe =>
      String.eqb (Code pe) "23505"
      && (String.eqb (ConstraintName pe) ("users_" +:+ field +:+ "_unique")
          || String.eqb (ConstraintName pe) ("users_" +:+ field +:+ "_key"))
  | _ => false
  end.

(** [e] is a conflict on [field]: a *pgconn.PgError with code 23505 whose
    message says that a user with this [field] already exists. *)
Definition conflict_on (field : string) (e : error) : Prop :=
  exists pe, e = EPg pe /\ Code pe = "23505"
             /\ Message pe = "user with this " +:+ field +:+ " already exists".

(** The error policy of the repository, as amended: what the caller of
    [call] gets for the driver error [e0]. The two writing methods answer
    a unique violation on the email or on the username with a conflict on
    that field; every other error is handed on as it is. *)
Definition crosses_as (call : UserRepository.Call) (e0 e : error) : Prop :=
  match call with
  | UserRepository.CallCreateUser _ | UserRepository.CallUpdateUser _ =>
      if violates "email" e0 then conflict_on "email" e
      else if violates "username" e0 then conflict_on "username" e
      else e = e0
  | _ => e = e0
  end.

(** A pagination parameter [value] reads as [r]: absent, it is the
    default; a decimal [int], it is that number or the nearest bound. *)
Definition reads_as (value : string) (defaultValue min max r : Z) : Prop :=
  (value = "" /\ r = defaultValue)
  \/ (value <> "" /\ exists n, strconv.Atoi value = Ok n
                               /\ r = Z.max min (Z.min n max)).

(** A pagination parameter that is present and not a decimal [int]. *)
Definition unparsable (value : string) : Prop :=
  value <> "" /\ exists e, strconv.Atoi value = Err e.

(** [a] may stand in front of [b] in a list sorted by [less]. *)
Definition in_order {A : Type} (less : A -> A -> bool) (a b : A) : Prop :=
  less b a = false.

(** The statuses each handler can answer with. *)
Definition statuses (e : Server.Endpoint) : list Z :=
  match e with
  | Server.Ping | Server.Liveness => [200]
  | Server.HealthCheck | Server.Readiness => [200; 503]
  | Server.CreateUser => [201; 400; 409; 500]
  | Server.GetAllUsers => [200; 500]
  | Server.GetUsersWithPagination => [200; 400; 500]
  | Server.GetUserByID | Server.UpdateUser | Server.DeleteUser =>
      [200; 400; 404; 500]
  end.

(* ===================================================================== *)
(** * Properties *)
(* ===================================================================== *)

(** ** strconv *)

Lemma Atoi_Ok (s : string) (n : Z) :
  strconv.Atoi s = Ok n <->
  strconv.decimal s = Some n /\ minInt <= n <= maxInt.
Proof.
  unfold strconv.Atoi.
  destruct (strconv.decimal s) as [m|]; [|split; [discriminate|intros [? _]; discriminate]].
  destruct ((minInt <=? m) && (m <=? maxInt)) eqn:E.
  - apply andb_true_iff in E as [?%Z.leb_le ?%Z.leb_le].
    split; [intros [= <-]; auto|intros [[= <-] _]; reflexivity].
  - split; [discriminate|]. intros [[= <-] [? ?]].
    apply andb_false_iff in E as [?%Z.leb_gt | ?%Z.leb_gt]; lia.
Qed.

Lemma Atoi_Err (s : string) (e : error) :
  strconv.Atoi s = Err e ->
  strconv.decimal s = None \/
  exists n, strconv.decimal s = Some n /\ (n < minInt \/ maxInt < n).
Proof.
  unfold strconv.Atoi.
  destruct (strconv.decimal s) as [m|]; [|auto].
  destruct ((minInt <=? m) && (m <=? maxInt)) eqn:E; [discriminate|].
  intros _. right. exists m. split; [reflexivity|].
  apply andb_false_iff in E as [?%Z.leb_gt | ?%Z.leb_gt]; lia.
Qed.

Lemma eqb_empty (s : string) : String.eqb s "" = true <-> s = "".
Proof. apply String.eqb_eq. Qed.

(** ** parseIntQuery and parseUserID *)

Lemma parseIntQuery_empty (defaultValue min max : Z) :
  UserHandler.parseIntQuery "" defaultValue min max = Ok defaultValue.
Proof. reflexivity. Qed.

Lemma parseIntQuery_int (value : string) (n defaultValue min max : Z) :
  strconv.Atoi value = Ok n ->
  UserHandler.parseIntQuery value defaultValue min max
  = Ok (if max <? (if n <? min then min else n) then max
        else if n <? min then min else n).
Proof.
  intros Hn. unfold UserHandler.parseIntQuery.
  destruct (String.eqb value "") eqn:E.
  - apply eqb_empty in E. subst. discriminate.
  - rewrite Hn. reflexivity.
Qed.

Lemma parseIntQuery_reject (value : string) (e : error) (defaultValue min max : Z) :
  value <> "" -> strconv.Atoi value = Err e ->
  UserHandler.parseIntQuery value defaultValue min max
  = Err (errorString "invalid integer value").
Proof.
  intros Hv He. unfold UserHandler.parseIntQuery.
  destruct (String.eqb value "") eqn:E.
  - apply eqb_empty in E. contradiction.
  - rewrite He. reflexivity.
Qed.

Lemma parseUserID_Ok (idStr : string) (id : Z) :
  UserHandler.parseUserID idStr = Ok id ->
  exists n, strconv.decimal idStr = Some n /\ 0 < n <= maxInt /\ id = int32 n.
Proof.
  unfold UserHandler.parseUserID.
  destruct (strconv.Atoi idStr) as [n|] eqn:E; [|discriminate].
  apply Atoi_Ok in E as [Hd [? ?]].
  destruct (n <=? 0) eqn:Hn; [discriminate|].
  apply Z.leb_gt in Hn. intros [= <-]. exists n. auto with lia.
Qed.

Lemma parseUserID_reject (idStr : string) :
  strconv.decimal idStr = None \/
  (exists n, strconv.decimal idStr = Some n /\ n <= 0) ->
  UserHandler.parseUserID idStr = Err (errorString "invalid user ID") \/
  UserHandler.parseUserID idStr = Err (errorString "user ID must be positive").
Proof.
  intros Hbad.
  destruct (UserHandler.parseUserID idStr) as [id|e] eqn:E.
  - apply parseUserID_Ok in E as (n & Hd & Hpos & _).
    destruct Hbad as [Hnone | (m & Hm & Hle)]; [congruence|].
    rewrite Hd in Hm. injection Hm as <-. lia.
  - revert E. unfold UserHandler.parseUserID.
    destruct (strconv.Atoi idStr); [|intros [= <-]; auto].
    destruct (_ <=? 0); [intros [= <-]; auto|discriminate].
Qed.

(** ** gin: what the response primitives touch *)

Section GinFacts.
Context {W : Type}.
Implicit Types (c : gin.Context W).

Lemma Status_fresh c (code : Z) :
  gin.written (gin.Writer c) = false -> 0 < code ->
  gin.status (gin.Writer (gin.Status code c)) = code
  /\ gin.written (gin.Writer (gin.Status code c)) = false.
Proof.
  intros Hw Hc. unfold gin.Status.
  destruct (0 <? code) eqn:E0; [|apply Z.ltb_ge in E0; lia].
  destruct (gin.status (gin.Writer c) =? code) eqn:E1; simpl.
  - apply Z.eqb_eq in E1. auto.
  - rewrite Hw. simpl. auto.
Qed.

Lemma Header_status c (k v : string) :
  gin.status (gin.Writer (gin.Header k v c)) = gin.status (gin.Writer c)
  /\ gin.written (gin.Writer (gin.Header k v c)) = gin.written (gin.Writer c).
Proof.
  unfold gin.Header. destruct (gin.written (gin.Writer c)) eqn:E; [auto|].
  destruct (String.eqb v ""); simpl; auto.
Qed.

Lemma writeContentType_status c (v : string) :
  gin.status (gin.Writer (gin.writeContentType v c)) = gin.status (gin.Writer c)
  /\ gin.written (gin.Writer (gin.writeContentType v c))
     = gin.written (gin.Writer c).
Proof.
  unfold gin.writeContentType.
  destruct (gin.header (gin.Writer c) !! "Content-Type"); [auto|].
  apply Header_status.
Qed.

Lemma WriteHeaderNow_status c :
  gin.status (gin.Writer (gin.WriteHeaderNow c)) = gin.status (gin.Writer c)
  /\ gin.written (gin.Writer (gin.WriteHeaderNow c)) = true.
Proof.
  unfold gin.WriteHeaderNow.
  destruct (gin.written (gin.Writer c)) eqn:E; simpl; auto.
Qed.

Lemma Write_status c (data : gin.json) :
  gin.status (gin.Writer (gin.Write data c)) = gin.status (gin.Writer c)
  /\ gin.written (gin.Writer (gin.Write data c)) = true.
Proof. unfold gin.Write. simpl. apply WriteHeaderNow_status. Qed.

(** A first [c.JSON] decides the status and sends the header. *)
Lemma JSON_status c (code : Z) (obj : gin.json) :
  gin.written (gin.Writer c) = false -> 0 < code ->
  gin.status (gin.Writer (gin.JSON code obj c)) = code
  /\ gin.written (gin.Writer (gin.JSON code obj c)) = true.
Proof.
  intros Hw Hc. destruct (Status_fresh c code Hw Hc) as [Hs Hw'].
  unfold gin.JSON.
  destruct (gin.bodyAllowedForStatus code).
  - destruct (Write_status
                (gin.writeContentType "application/json; charset=utf-8"
                   (gin.Status code c)) obj) as [-> ->].
    destruct (writeContentType_status (gin.Status code c)
                "application/json; charset=utf-8") as [-> _]. auto.
  - destruct (WriteHeaderNow_status
                (gin.writeContentType "application/json; charset=utf-8"
                   (gin.Status code c))) as [-> ->].
    destruct (writeContentType_status (gin.Status code c)
                "application/json; charset=utf-8") as [-> _]. auto.
Qed.

(** ... so it is not any other status. *)
Lemma JSON_status_other c (code other : Z) (obj : gin.json) :
  gin.written (gin.Writer c) = false -> 0 < code -> code <> other ->
  (gin.status (gin.Writer (gin.JSON code obj c)) =? other) = false.
Proof.
  intros Hw Hc Hne. destruct (JSON_status c code obj Hw Hc) as [-> _].
  apply Z.eqb_neq, Hne.
Qed.

Lemma same_frame_refl c : same_frame c c.
Proof. unfold same_frame. auto. Qed.

Lemma same_frame_trans c1 c2 c3 :
  same_frame c1 c2 -> same_frame c2 c3 -> same_frame c1 c3.
Proof. unfold same_frame. intros (?&?&?&?&?) (?&?&?&?&?). repeat split; congruence. Qed.

Lemma set_Writer_frame c wr : same_frame c (gin.set_Writer wr c).
Proof. unfold same_frame. simpl. auto. Qed.

Lemma Status_frame c code : same_frame c (gin.Status code c).
Proof.
  unfold gin.Status. destruct (_ && _); [|apply same_frame_refl].
  destruct (gin.written _); [apply same_frame_refl|apply set_Writer_frame].
Qed.

Lemma Header_frame c k v : same_frame c (gin.Header k v c).
Proof.
  unfold gin.Header. destruct (gin.written _); [apply same_frame_refl|].
  destruct (String.eqb v ""); apply set_Writer_frame.
Qed.

Lemma writeContentType_frame c v : same_frame c (gin.writeContentType v c).
Proof.
  unfold gin.writeContentType. destruct (_ !! _); [apply same_frame_refl|].
  apply Header_frame.
Qed.

Lemma WriteHeaderNow_frame c : same_frame c (gin.WriteHeaderNow c).
Proof.
  unfold gin.WriteHeaderNow.
  destruct (gin.written _); [apply same_frame_refl|apply set_Writer_frame].
Qed.

Lemma Write_frame c data : same_frame c (gin.Write data c).
Proof.
  unfold gin.Write. eapply same_frame_trans; [apply WriteHeaderNow_frame|].
  apply set_Writer_frame.
Qed.

Lemma JSON_frame c code obj : same_frame c (gin.JSON code obj c).
Proof.
  unfold gin.JSON.
  eapply same_frame_trans; [apply Status_frame|].
  eapply same_frame_trans; [apply writeContentType_frame|].
  destruct (gin.bodyAllowedForStatus code);
    [apply Write_frame|apply WriteHeaderNow_frame].
Qed.

Lemma JSON_world c code obj : gin.world (gin.JSON code obj c) = gin.world c.
Proof. apply JSON_frame. Qed.

End GinFacts.

(** Closes [(status (JSON code ...) =? other) = false] when the [c.JSON]
    is the first write to the response and [code] is not [other]. *)
Ltac first_json_differs :=
  apply JSON_status_other; [reflexivity|lia|lia].

(** ** UserRepository: the record of calls *)

Section RepositoryFacts.
Context {DB : Type} (queries : repository.Queries DB).
Implicit Types (w : UserRepository.World DB).

Lemma run_spec {A : Type} (call : UserRepository.Call) (query : DB -> A * DB) w :
  UserRepository.run call query w
  = (fst (query (UserRepository.db w)),
     UserRepository.mkWorld (snd (query (UserRepository.db w)))
       (UserRepository.calls w ++ [call])).
Proof. unfold UserRepository.run. destruct (query _). reflexivity. Qed.

Lemma GetUsersWithPagination_calls (limit offset : Z) w :
  UserRepository.calls
    (snd (UserRepository.GetUsersWithPagination queries limit offset w))
  = UserRepository.calls w
    ++ [UserRepository.CallGetUsersWithPagination limit offset].
Proof.
  unfold UserRepository.GetUsersWithPagination. rewrite run_spec.
  destruct (fst _); reflexivity.
Qed.

Lemma CountUsers_calls w :
  UserRepository.calls (snd (UserRepository.CountUsers queries w))
  = UserRepository.calls w ++ [UserRepository.CallCountUsers].
Proof.
  unfold UserRepository.CountUsers. rewrite run_spec.
  destruct (fst _); reflexivity.
Qed.

End RepositoryFacts.

Lemma int32_small (n : Z) : minInt32 <= n <= maxInt32 -> int32 n = n.
Proof.
  unfold int32, minInt32, maxInt32. intros H.
  rewrite Z.mod_small by lia. lia.
Qed.

Lemma clamp_range (n min max : Z) :
  min <= max ->
  let r := if max <? (if n <? min then min else n) then max
           else if n <? min then min else n in
  min <= r <= max /\ r = Z.max min (Z.min n max).
Proof.
  intros Hmm. cbv zeta.
  destruct (n <? min) eqn:E1; [apply Z.ltb_lt in E1|apply Z.ltb_ge in E1].
  - destruct (max <? min) eqn:E2; [apply Z.ltb_lt in E2|apply Z.ltb_ge in E2]; lia.
  - destruct (max <? n) eqn:E2; [apply Z.ltb_lt in E2|apply Z.ltb_ge in E2]; lia.
Qed.

(** What [parseIntQuery] returns, case by case. *)
Lemma parseIntQuery_cases (value : string) (defaultValue min max : Z) :
  min <= max ->
  match UserHandler.parseIntQuery value defaultValue min max with
  | Ok r =>
      (value = "" /\ r = defaultValue) \/
      (value <> "" /\ exists n, strconv.Atoi value = Ok n
                                /\ r = Z.max min (Z.min n max)
                                /\ min <= r <= max)
  | Err _ => value <> "" /\ forall n, strconv.Atoi value <> Ok n
  end.
Proof.
  intros Hmm. unfold UserHandler.parseIntQuery.
  destruct (String.eqb value "") eqn:E.
  - left. apply eqb_empty in E. auto.
  - assert (value <> "") as Hne
      by (intros ->; discriminate).
    destruct (strconv.Atoi value) as [n|e] eqn:Hn.
    + right. split; [assumption|]. exists n.
      destruct (clamp_range n min max Hmm) as [Hr Hc]. cbv zeta in *.
      rewrite <- Hc. auto.
    + split; [assumption|]. intros n. discriminate.
Qed.

(** ** The user handlers *)

Section HandlerFacts.
Context {DB : Type} (userRepo : repository.Queries DB) (env : UserHandler.Env).
Implicit Types (c : gin.Context (UserRepository.World DB)).

(** With an id that does not parse as a positive integer, the three
    handlers of /api/v1/users/:id answer right after [parseUserID]. *)
Lemma GetUserByID_bad_id c (e : error) :
  UserHandler.parseUserID (gin.Param "id" c) = Err e ->
  UserHandler.GetUserByID userRepo c
  = gin.JSON 400 (UserHandler.Err1 (Error e)) c.
Proof. intros H. unfold UserHandler.GetUserByID. rewrite H. reflexivity. Qed.

Lemma UpdateUser_bad_id c (e : error) :
  UserHandler.parseUserID (gin.Param "id" c) = Err e ->
  UserHandler.UpdateUser userRepo env c
  = gin.JSON 400 (UserHandler.Err1 (Error e)) c.
Proof. intros H. unfold UserHandler.UpdateUser. rewrite H. reflexivity. Qed.

Lemma DeleteUser_bad_id c (e : error) :
  UserHandler.parseUserID (gin.Param "id" c) = Err e ->
  UserHandler.DeleteUser userRepo c
  = gin.JSON 400 (UserHandler.Err1 (Error e)) c.
Proof. intros H. unfold UserHandler.DeleteUser. rewrite H. reflexivity. Qed.

End HandlerFacts.

(** C10. When the [id] path parameter is not a decimal integer, or is one
    that is not strictly positive, each of the handlers behind GET, PUT
    and DELETE /api/v1/users/:id answers with [c.JSON(400, ...)] and
    leaves the repository's world, with its record of calls, as it was:
    no repository method runs. On a response not yet written the status
    is 400. *)
Theorem bad_id_is_400_without_repository_call
    {DB : Type} (userRepo : repository.Queries DB) (env : UserHandler.Env)
    (c : gin.Context (UserRepository.World DB)) :
  strconv.decimal (gin.Param "id" c) = None \/
  (exists n, strconv.decimal (gin.Param "id" c) = Some n /\ n <= 0) ->
  forall h,
    h = UserHandler.GetUserByID userRepo \/
    h = UserHandler.UpdateUser userRepo env \/
    h = UserHandler.DeleteUser userRepo ->
    (exists msg, h c = gin.JSON 400 (UserHandler.Err1 msg) c)
    /\ gin.world (h c) = gin.world c
    /\ (gin.written (gin.Writer c) = false ->
        gin.status (gin.Writer (h c)) = 400).
Proof.
  intros Hbad h Hh.
  assert (exists e, UserHandler.parseUserID (gin.Param "id" c) = Err e) as [e He].
  { destruct (parseUserID_reject _ Hbad) as [-> | ->]; eauto. }
  assert (h c = gin.JSON 400 (UserHandler.Err1 (Error e)) c) as Heq.
  { destruct Hh as [-> | [-> | ->]].
    - apply GetUserByID_bad_id, He.
    - apply UpdateUser_bad_id, He.
    - apply DeleteUser_bad_id, He. }
  rewrite Heq. split; [eauto|]. split; [apply JSON_world|].
  intros Hw. apply JSON_status; [assumption|lia].
Qed.

Lemma bad_id_is_400_without_repository_call_witness :
  let c := gin.reset (Sample.request "DELETE" "/api/v1/users/abc" "abc" [] "")
                     Sample.two_users in
  gin.status (gin.Writer (UserHandler.DeleteUser Sample.queries c)) = 400
  /\ gin.world (UserHandler.DeleteUser Sample.queries c) = Sample.two_users.
Proof.
  intros c.
  destruct (bad_id_is_400_without_repository_call Sample.queries Sample.env c
              (or_introl eq_refl) (UserHandler.DeleteUser Sample.queries)
              (or_intror (or_intror eq_refl))) as (_ & Hw & Hs).
  split; [apply Hs; reflexivity|exact Hw].
Defined.

Lemma parseIntQuery_reads (value : string) (defaultValue min max r : Z) :
  min <= max -> min <= defaultValue <= max ->
  reads_as value defaultValue min max r ->
  UserHandler.parseIntQuery value defaultValue min max = Ok r
  /\ min <= r <= max.
Proof.
  intros Hmm Hd [[-> ->] | (Hne & n & Hn & ->)].
  - split; [reflexivity|lia].
  - rewrite (parseIntQuery_int _ n) by exact Hn.
    destruct (clamp_range n min max Hmm) as [Hr Hc]. cbv zeta in *.
    rewrite Hc. split; [reflexivity|lia].
Qed.

(** A parameter is read or it is unparsable. *)
Lemma reads_or_unparsable (value : string) (defaultValue min max : Z) :
  (exists r, reads_as value defaultValue min max r) \/ unparsable value.
Proof.
  unfold reads_as, unparsable.
  destruct (String.eqb value "") eqn:E.
  - apply eqb_empty in E. left. eauto.
  - assert (value <> "") by (intros ->; discriminate).
    destruct (strconv.Atoi value) as [n|e] eqn:Hn; [left|right]; eauto 7.
Qed.

(** C4, as the code has it. For a request whose [limit] and [offset]
    query parameters are each absent (empty) or an int in decimal, the
    handler asks the repository for the window with limit in [1,100]
    (10 when absent) and offset in [0,1000000] (0 when absent), an
    out-of-range value replaced by the nearest bound, and does not answer
    400. When either parameter is non-empty and [strconv.Atoi] does not
    accept it, the handler answers 400, naming the parameter, and calls
    no repository method. Every request is of one of the two kinds. *)
Theorem pagination_clamped_unless_unparsable
    {DB : Type} (userRepo : repository.Queries DB)
    (req : gin.Request) (w : UserRepository.World DB) :
  let c := gin.reset req w in
  let out := UserHandler.GetUsersWithPagination userRepo c in
  (forall limit offset,
     reads_as (gin.Query "limit" c) 10 1 100 limit ->
     reads_as (gin.Query "offset" c) 0 0 1000000 offset ->
     1 <= limit <= 100 /\ 0 <= offset <= 1000000
     /\ (gin.status (gin.Writer out) =? 400) = false
     /\ exists rest,
          UserRepository.calls (gin.world out)
          = UserRepository.calls w
            ++ UserRepository.CallGetUsersWithPagination limit offset :: rest)
  /\ (unparsable (gin.Query "limit" c) \/ unparsable (gin.Query "offset" c) ->
      gin.status (gin.Writer out) = 400 /\ gin.world out = w
      /\ (unparsable (gin.Query "limit" c) ->
          gin.body (gin.Writer out)
          = [UserHandler.Err1 "Invalid limit parameter"])
      /\ (~ unparsable (gin.Query "limit" c) ->
          gin.body (gin.Writer out)
          = [UserHandler.Err1 "Invalid offset parameter"]))
  /\ ((exists limit offset,
         reads_as (gin.Query "limit" c) 10 1 100 limit
         /\ reads_as (gin.Query "offset" c) 0 0 1000000 offset)
      \/ unparsable (gin.Query "limit" c)
      \/ unparsable (gin.Query "offset" c)).
Proof.
  intros c out. split; [|split].
  - intros limit offset Hl Ho.
    destruct (parseIntQuery_reads _ 10 1 100 limit ltac:(lia) ltac:(lia) Hl)
      as [Hpl Hlr].
    destruct (parseIntQuery_reads _ 0 0 1000000 offset ltac:(lia) ltac:(lia) Ho)
      as [Hpo Hor].
    split; [exact Hlr|]. split; [exact Hor|].
    subst out. unfold UserHandler.GetUsersWithPagination.
    rewrite Hpl, Hpo.
    rewrite !int32_small by (unfold minInt32, maxInt32; lia).
    pose proof (GetUsersWithPagination_calls userRepo limit offset (gin.world c))
      as Hcalls.
    destruct (UserRepository.GetUsersWithPagination userRepo limit offset
                (gin.world c)) as [res w1].
    simpl in Hcalls.
    destruct res as [users|e].
    + pose proof (CountUsers_calls userRepo w1) as Hcount.
      simpl gin.world.
      destruct (UserRepository.CountUsers userRepo w1) as [res2 w2].
      simpl in Hcount.
      destruct res2 as [total|e].
      * split.
        -- first_json_differs.
        -- rewrite JSON_world. simpl. rewrite Hcount, Hcalls.
           rewrite <- app_assoc. eauto.
      * split.
        -- first_json_differs.
        -- rewrite JSON_world. simpl. rewrite Hcount, Hcalls.
           rewrite <- app_assoc. eauto.
    + split.
      * first_json_differs.
      * rewrite JSON_world. simpl. rewrite Hcalls. eauto.
  - intros Hbad. subst out. unfold UserHandler.GetUsersWithPagination.
    destruct (UserHandler.parseIntQuery (gin.Query "limit" c) 10 1 100)
      as [limit|el] eqn:Hpl.
    + assert (~ unparsable (gin.Query "limit" c)) as Hnl.
      { intros (Hne & e & He).
        rewrite (parseIntQuery_reject _ e) in Hpl by assumption.
        discriminate. }
      destruct Hbad as [Hbad|(Hne & e & He)]; [contradiction|].
      rewrite (parseIntQuery_reject _ e) by assumption.
      repeat split; try reflexivity. intros; contradiction.
    + repeat split; try reflexivity.
      intros Hnl. exfalso. apply Hnl.
      pose proof (parseIntQuery_cases (gin.Query "limit" c) 10 1 100
                    ltac:(lia)) as Hcase.
      rewrite Hpl in Hcase. destruct Hcase as [Hne Hno]. split; [exact Hne|].
      destruct (strconv.Atoi (gin.Query "limit" c)) as [n|e] eqn:Hn;
        [exfalso; apply (Hno n); reflexivity|eauto].
  - destruct (reads_or_unparsable (gin.Query "limit" c) 10 1 100)
      as [[limit Hl]|Hl]; [|auto].
    destruct (reads_or_unparsable (gin.Query "offset" c) 0 0 1000000)
      as [[offset Ho]|Ho]; [|auto].
    left. eauto.
Qed.

Lemma pagination_clamped_unless_unparsable_witness :
  let req := Sample.request "GET" "/api/v1/users/paginate" ""
               [("limit", "500"); ("offset", "-5")] "" in
  let bad := Sample.request "GET" "/api/v1/users/paginate" ""
               [("limit", "5"); ("offset", "1e3")] "" in
  let out := UserHandler.GetUsersWithPagination Sample.queries
               (gin.reset req Sample.two_users) in
  ((gin.status (gin.Writer out) =? 400) = false
   /\ exists rest,
        UserRepository.calls (gin.world out)
        = [] ++ UserRepository.CallGetUsersWithPagination 100 0 :: rest)
  /\ gin.body (gin.Writer
       (UserHandler.GetUsersWithPagination Sample.queries
          (gin.reset bad Sample.two_users)))
     = [UserHandler.Err1 "Invalid offset parameter"].
Proof.
  intros req bad out. split.
  - destruct (pagination_clamped_unless_unparsable Sample.queries req
                Sample.two_users) as (Hread & _ & _).
    destruct (Hread 100 0) as (_ & _ & Hs & Hc).
    + right. split; [discriminate|]. exists 500. split; reflexivity.
    + right. split; [discriminate|]. exists (-5). split; reflexivity.
    + split; [exact Hs|exact Hc].
  - destruct (pagination_clamped_unless_unparsable Sample.queries bad
                Sample.two_users) as (_ & Hbad & _).
    destruct Hbad as (_ & _ & _ & Hbody).
    + right. split; [discriminate|]. eexists. reflexivity.
    + apply Hbody. intros (_ & e & He). discriminate He.
Defined.

(** C4, the claim as written fails: a [limit] that is not an integer, or
    one beyond the range of [int], is answered with 400 instead of being
    clamped to a bound. *)
Lemma pagination_rejects_unparsable_limit :
  UserHandler.parseIntQuery "abc" 10 1 100
  = Err (errorString "invalid integer value")
  /\ UserHandler.parseIntQuery "99999999999999999999" 10 1 100
     = Err (errorString "invalid integer value")
  /\ gin.status (gin.Writer
       (UserHandler.GetUsersWithPagination Sample.queries
          (gin.reset (Sample.request "GET" "/api/v1/users/paginate" ""
                        [("limit", "abc")] "") Sample.two_users))) = 400
  /\ gin.body (gin.Writer
       (UserHandler.GetUsersWithPagination Sample.queries
          (gin.reset (Sample.request "GET" "/api/v1/users/paginate" ""
                        [("limit", "abc")] "") Sample.two_users)))
     = [UserHandler.Err1 "Invalid limit parameter"].
Proof. repeat split; reflexivity. Qed.

(** ** Conflicts *)

Section ConflictFacts.
Context {DB : Type} (queries : repository.Queries DB).

(** An error of [UserRepository.UpdateUser] with code 23505 never carries
    one of the four constraint names: a recognised violation is replaced
    by an error without constraint name. *)
Lemma UpdateUser_error_not_recognised
    (user : model.User) (now : time.Time) (w : UserRepository.World DB)
    (pe : PgError) :
  snd (fst (UserRepository.UpdateUser queries user now w)) = Some (EPg pe) ->
  String.eqb (Code pe) "23505" = true ->
  (String.eqb (ConstraintName pe) "users_email_unique"
   || String.eqb (ConstraintName pe) "users_email_key") = false
  /\ (String.eqb (ConstraintName pe) "users_username_unique"
      || String.eqb (ConstraintName pe) "users_username_key") = false.
Proof.
  unfold UserRepository.UpdateUser. rewrite run_spec. cbv beta iota zeta.
  destruct (fst (repository.UpdateUser queries _ (UserRepository.db w)))
    as [err|]; [|discriminate].
  destruct err as [pgErr| | |]; simpl; try discriminate.
  destruct (String.eqb (Code pgErr) "23505") eqn:Ec.
  - destruct (_ || _) eqn:E1; simpl.
    + intros [= <-]. simpl. auto.
    + destruct (String.eqb (ConstraintName pgErr) "users_username_unique"
                || _) eqn:E2; simpl.
      * intros [= <-]. simpl. auto.
      * intros [= <-]. auto.
  - intros [= <-] H. congruence.
Qed.

Lemma CreateUser_error_not_recognised
    (user : model.User) (now : time.Time) (w : UserRepository.World DB)
    (pe : PgError) :
  snd (fst (UserRepository.CreateUser queries user now w)) = Some (EPg pe) ->
  String.eqb (Code pe) "23505" = true ->
  (String.eqb (ConstraintName pe) "users_email_unique"
   || String.eqb (ConstraintName pe) "users_email_key") = false
  /\ (String.eqb (ConstraintName pe) "users_username_unique"
      || String.eqb (ConstraintName pe) "users_username_key") = false.
Proof.
  unfold UserRepository.CreateUser. rewrite run_spec. cbv beta iota zeta.
  destruct (fst (repository.CreateUser queries _ (UserRepository.db w)))
    as [row|err]; [discriminate|].
  destruct err as [pgErr| | |]; simpl; try discriminate.
  destruct (String.eqb (Code pgErr) "23505") eqn:Ec.
  - destruct (_ || _) eqn:E1; simpl.
    + intros [= <-]. simpl. auto.
    + destruct (String.eqb (ConstraintName pgErr) "users_username_unique"
                || _) eqn:E2; simpl.
      * intros [= <-]. simpl. auto.
      * intros [= <-]. auto.
  - intros [= <-] H. congruence.
Qed.

(** The POST handler answers 409 only when its own look-up of the email
    found a user: never for a violation the insert reports. *)
Lemma CreateUser_409_only_by_lookup (env : UserHandler.Env) (req : gin.Request)
    (w : UserRepository.World DB) (r : model.UserCreateRequest) :
  UserHandler.bindCreate env (gin.Body req) = Ok r ->
  fst (UserRepository.UserExists queries (model.reqEmail r) w) <> Ok true ->
  (gin.status (gin.Writer
     (UserHandler.CreateUser queries env (gin.reset req w))) =? 409) = false.
Proof.
  intros Hbind Hlookup.
  unfold UserHandler.CreateUser. simpl gin.request. rewrite Hbind.
  simpl gin.world.
  destruct (UserRepository.UserExists queries (model.reqEmail r) w)
    as [res w1]. simpl in Hlookup.
  destruct res as [[|]|e]; [contradiction| |first_json_differs].
  destruct (UserHandler.HashPassword env _); [|first_json_differs].
  simpl gin.world.
  match goal with |- context [UserRepository.CreateUser ?q ?u ?n ?w] =>
    pose proof (CreateUser_error_not_recognised u n w) as Hrec;
    destruct (UserRepository.CreateUser q u n w) as [[user' err] w2] end.
  simpl in Hrec.
  destruct err as [err|]; [|first_json_differs].
  destruct err as [pgErr| | |]; try (first_json_differs).
  destruct (String.eqb (Code pgErr) "23505") eqn:Ec;
    [|first_json_differs].
  destruct (Hrec pgErr eq_refl Ec) as [-> ->].
  first_json_differs.
Qed.

(** The PUT handler never answers 409. *)
Lemma UpdateUser_never_409 (env : UserHandler.Env) (req : gin.Request)
    (w : UserRepository.World DB) :
  (gin.status (gin.Writer
     (UserHandler.UpdateUser queries env (gin.reset req w))) =? 409) = false.
Proof.
  unfold UserHandler.UpdateUser.
  destruct (UserHandler.parseUserID _); [|first_json_differs].
  destruct (UserRepository.GetUserByID _ _ _) as [res w1].
  destruct res as [u|e].
  2:{ destruct (decide _); first_json_differs. }
  simpl gin.request.
  destruct (UserHandler.bindUpdate _ _); [|first_json_differs].
  simpl gin.world.
  match goal with |- context [UserRepository.UpdateUser ?q ?u ?n ?w] =>
    pose proof (UpdateUser_error_not_recognised u n w) as Hrec;
    destruct (UserRepository.UpdateUser q u n w) as [[user' err] w2] end.
  simpl in Hrec.
  destruct err as [err|]; [|first_json_differs].
  destruct err as [pgErr| | |]; try (first_json_differs).
  destruct (String.eqb (Code pgErr) "23505") eqn:Ec;
    [|first_json_differs].
  destruct (Hrec pgErr eq_refl Ec) as [-> ->].
  first_json_differs.
Qed.

End ConflictFacts.

(** C1, the defect at a concrete store. [johndoe] and [bob] exist. Creating
    a user with a new email and the username [johndoe] violates the
    username constraint: the repository returns a 23505 error that names
    the field in its message but carries no constraint name, and the
    handler, which looks for the constraint name, answers 500. The same
    happens when user 2 is updated to the email or to the username of
    user 1. *)
Theorem unique_violation_is_answered_500 :
  let create := gin.reset (Sample.request "POST" "/api/v1/users" ""
                             [] "johndoe,new@example.com,password123")
                          Sample.two_users in
  let update_email := gin.reset (Sample.request "PUT" "/api/v1/users/2" "2"
                                   [] "bob,john@example.com")
                                Sample.two_users in
  let update_username := gin.reset (Sample.request "PUT" "/api/v1/users/2" "2"
                                      [] "johndoe,bob@example.com")
                                   Sample.two_users in
  snd (fst (UserRepository.CreateUser Sample.queries
              (model.mkUser 0 "johndoe" "new@example.com" "$2a$password123"
                 time.zero time.zero) 1000 Sample.two_users))
  = Some (EPg (mkPgError "23505" "user with this username already exists" ""))
  /\ gin.status (gin.Writer
       (UserHandler.CreateUser Sample.queries Sample.env create)) = 500
  /\ gin.body (gin.Writer
       (UserHandler.CreateUser Sample.queries Sample.env create))
     = [UserHandler.Err1 "Failed to create user"]
  /\ gin.status (gin.Writer
       (UserHandler.UpdateUser Sample.queries Sample.env update_email)) = 500
  /\ gin.body (gin.Writer
       (UserHandler.UpdateUser Sample.queries Sample.env update_email))
     = [UserHandler.Err1 "Failed to update user"]
  /\ gin.status (gin.Writer
       (UserHandler.UpdateUser Sample.queries Sample.env update_username)) = 500.
Proof. repeat split; vm_compute; reflexivity. Qed.

(** ** Deleting *)

(** The DELETE statement reports no error, whether or not a row matched. *)
Lemma pg_DeleteUser_no_error (id : Z) (d : pg.DB) :
  fst (pg.DeleteUser id d) = None.
Proof. reflexivity. Qed.

Lemma pg_DeleteUser_missing (id : Z) (d : pg.DB) :
  existsb (pg.has_id id) (pg.rows d) = false ->
  pg.rows (snd (pg.DeleteUser id d)) = pg.rows d.
Proof.
  unfold pg.DeleteUser. simpl. induction (pg.rows d) as [|r l IH]; [reflexivity|].
  simpl. intros H. apply orb_false_iff in H as [Hr Hl].
  rewrite Hr. simpl. f_equal. apply IH, Hl.
Qed.

(** On the users table the DELETE handler answers 200 for every
    well-formed id, whether or not a row has it, and asks the repository
    for nothing but the delete. *)
Lemma DeleteUser_well_formed_id_is_200
    (no_rows : error) (req : gin.Request) (w : UserRepository.World pg.DB)
    (id : Z) :
  UserHandler.parseUserID (gin.Param "id" (gin.reset req w)) = Ok id ->
  let out := UserHandler.DeleteUser (pg.queries no_rows) (gin.reset req w) in
  gin.status (gin.Writer out) = 200
  /\ UserRepository.calls (gin.world out)
     = UserRepository.calls w ++ [UserRepository.CallDeleteUser id].
Proof.
  intros Hid. cbv zeta. unfold UserHandler.DeleteUser. rewrite Hid.
  unfold UserRepository.DeleteUser. rewrite run_spec. cbv beta iota zeta.
  simpl. split; reflexivity.
Qed.

(** C2, the defect at a concrete store. No user has id 999; the
    repository's [DeleteUser 999] returns no error, and the handler
    answers 200 "User deleted successfully" with the rows as they were.
    The existence check sits in the error branch and does not run: the
    only repository call is the delete. *)
Theorem delete_of_missing_user_is_200 :
  let c := gin.reset (Sample.request "DELETE" "/api/v1/users/999" "999" [] "")
                     Sample.two_users in
  let out := UserHandler.DeleteUser Sample.queries c in
  existsb (pg.has_id 999) (pg.rows (UserRepository.db Sample.two_users)) = false
  /\ fst (UserRepository.DeleteUser Sample.queries 999 Sample.two_users) = None
  /\ gin.status (gin.Writer out) = 200
  /\ gin.body (gin.Writer out)
     = [gin.H [("message", gin.JString "User deleted successfully")]]
  /\ pg.rows (UserRepository.db (gin.world out))
     = pg.rows (UserRepository.db Sample.two_users)
  /\ UserRepository.calls (gin.world out) = [UserRepository.CallDeleteUser 999].
Proof. repeat split; vm_compute; reflexivity. Qed.

(** ** Errors across the repository boundary *)

Section BoundaryFacts.
Context {DB : Type} (queries : repository.Queries DB).

(** The rewriting both write methods apply to a driver error. *)
Lemma write_error_crosses (e0 : error) (r : option error) :
  r = match e0 with
      | EPg pgErr =>
          if String.eqb (Code pgErr) "23505" then
            if String.eqb (ConstraintName pgErr) "users_email_unique"
               || String.eqb (ConstraintName pgErr) "users_email_key"
            then Some (already_exists "email")
            else if String.eqb (ConstraintName pgErr) "users_username_unique"
                    || String.eqb (ConstraintName pgErr) "users_username_key"
            then Some (already_exists "username")
            else Some e0
          else Some e0
      | _ => Some e0
      end ->
  exists e, r = Some e
    /\ (if violates "email" e0 then conflict_on "email" e
        else if violates "username" e0 then conflict_on "username" e
        else e = e0).
Proof.
  intros ->. destruct e0 as [pe| | |]; try (eexists; split; reflexivity).
  unfold violates, conflict_on, already_exists.
  cbv beta iota delta [String.append]. fold String.append.
  destruct (String.eqb (Code pe) "23505"); simpl;
    [|eexists; split; reflexivity].
  destruct (String.eqb (ConstraintName pe) "users_email_unique"
            || String.eqb (ConstraintName pe) "users_email_key"); simpl.
  - eexists. split; [reflexivity|]. eexists. repeat split; reflexivity.
  - destruct (String.eqb (ConstraintName pe) "users_username_unique"
              || String.eqb (ConstraintName pe) "users_username_key"); simpl.
    + eexists. split; [reflexivity|]. eexists. repeat split; reflexivity.
    + eexists. split; reflexivity.
Qed.

End BoundaryFacts.

(** C3, as the code has it. Whatever the query layer does, a repository
    method fails exactly when its query fails, and the error it returns
    is the driver's error value itself, with one exception: for a unique
    violation (SQLSTATE 23505) of an email constraint (users_email_unique
    or users_email_key) or of a username constraint
    (users_username_unique or users_username_key), CreateUser and
    UpdateUser return a conflict on that field, a *pgconn.PgError with
    code 23505 whose message says that a user with this email (username)
    already exists. *)
Theorem repository_returns_the_driver_error
    {DB : Type} (queries : repository.Queries DB) (now : time.Time)
    (call : UserRepository.Call) (w : UserRepository.World DB) :
  match storage_error queries now call (UserRepository.db w) with
  | None => returned_error queries now call w = None
  | Some e0 =>
      exists e, returned_error queries now call w = Some e
                /\ crosses_as call e0 e
  end.
Proof.
  destruct call as [user|id|email| |user|userID hashed|id|email|limit offset| ];
    unfold storage_error, returned_error, crosses_as; cbv zeta.
  - (* CreateUser *)
    unfold UserRepository.CreateUser. rewrite run_spec. cbv beta iota zeta.
    destruct (fst (repository.CreateUser queries _ (UserRepository.db w)))
      as [row|e0]; [reflexivity|]. simpl err_of. cbv beta iota.
    apply write_error_crosses.
    destruct e0 as [pe| | |]; try reflexivity.
    destruct (String.eqb (Code pe) "23505"); [|reflexivity].
    destruct (_ || _); [reflexivity|]. destruct (_ || _); reflexivity.
  - (* GetUserByID *)
    unfold UserRepository.GetUserByID. rewrite run_spec. cbv beta iota zeta.
    destruct (fst (repository.GetUserByID queries id (UserRepository.db w)))
      as [row|e0]; [reflexivity|]. simpl err_of.
    exists e0. split; [|reflexivity].
    destruct (decide (e0 = ErrNoRows)) as [->|]; reflexivity.
  - (* GetUserByEmail *)
    unfold UserRepository.GetUserByEmail. rewrite run_spec. cbv beta iota zeta.
    destruct (fst (repository.GetUserByEmail queries email (UserRepository.db w)))
      as [row|e0]; [reflexivity|]. simpl err_of.
    exists e0. split; [|reflexivity].
    destruct (decide (e0 = ErrNoRows)) as [->|]; reflexivity.
  - (* GetAllUsers *)
    unfold UserRepository.GetAllUsers. rewrite run_spec. cbv beta iota zeta.
    destruct (fst (repository.GetAllUsers queries (UserRepository.db w)));
      simpl; eauto.
  - (* UpdateUser *)
    unfold UserRepository.UpdateUser. rewrite run_spec. cbv beta iota zeta.
    destruct (fst (repository.UpdateUser queries _ (UserRepository.db w)))
      as [e0|]; [|reflexivity].
    apply write_error_crosses.
    destruct e0 as [pe| | |]; try reflexivity.
    destruct (String.eqb (Code pe) "23505"); [|reflexivity].
    destruct (_ || _); [reflexivity|]. destruct (_ || _); reflexivity.
  - (* UpdatePassword *)
    unfold UserRepository.UpdatePassword. rewrite run_spec. cbv beta iota zeta.
    destruct (fst (repository.UpdatePassword queries _ (UserRepository.db w)));
      simpl; eauto.
  - (* DeleteUser *)
    unfold UserRepository.DeleteUser. rewrite run_spec. cbv beta iota zeta.
    destruct (fst (repository.DeleteUser queries id (UserRepository.db w)));
      simpl; eauto.
  - (* UserExists *)
    unfold UserRepository.UserExists. rewrite run_spec. cbv beta iota zeta.
    destruct (fst (repository.UserExists queries email (UserRepository.db w)));
      simpl; eauto.
  - (* GetUsersWithPagination *)
    unfold UserRepository.GetUsersWithPagination. rewrite run_spec.
    cbv beta iota zeta.
    destruct (fst (repository.GetUsersWithPagination queries _
                     (UserRepository.db w))); simpl; eauto.
  - (* CountUsers *)
    unfold UserRepository.CountUsers. rewrite run_spec. cbv beta iota zeta.
    destruct (fst (repository.CountUsers queries (UserRepository.db w)));
      simpl; eauto.
Qed.

(** C3, the claim as written fails: errors of the driver's own type cross
    the boundary. With the backend unreachable, GetUserByID returns the
    driver's *pgconn.PgError as it is; a duplicate email on CreateUser
    comes back as a *pgconn.PgError too; and a missing row comes back as
    the query layer's own no-rows error. *)
Lemma repository_leaks_driver_errors :
  returned_error Sample.down 1000 (UserRepository.CallGetUserByID 1)
    (UserRepository.mkWorld tt []) = Some Sample.unreachable
  /\ driver_error_type Sample.unreachable = true
  /\ returned_error Sample.queries 1000
       (UserRepository.CallCreateUser
          (model.mkUser 0 "newname" "john@example.com" "$2a$pw"
             time.zero time.zero)) Sample.two_users
     = Some (already_exists "email")
  /\ driver_error_type (already_exists "email") = true
  /\ returned_error Sample.queries 1000 (UserRepository.CallGetUserByID 999)
       Sample.two_users = Some Sample.no_rows.
Proof. repeat split; vm_compute; reflexivity. Qed.

(** ** The users table *)

Lemma lookup_map {A B : Type} (f : A -> B) (l : list A) (i : nat) :
  map f l !! i = f <$> l !! i.
Proof. revert i. induction l as [|x l IH]; intros [|i]; simpl; auto. Qed.

Section TableFacts.
Variable no_rows : error.

Lemma set_user_id p r : repository.ID (pg.set_user p r) = repository.ID r.
Proof. unfold pg.set_user. destruct (pg.has_id _ r); reflexivity. Qed.

Lemma set_user_created p r :
  repository.CreatedAt (pg.set_user p r) = repository.CreatedAt r.
Proof. unfold pg.set_user. destruct (pg.has_id _ r); reflexivity. Qed.

Lemma set_user_password p r :
  repository.Password (pg.set_user p r) = repository.Password r.
Proof. unfold pg.set_user. destruct (pg.has_id _ r); reflexivity. Qed.

Lemma set_user_other p r :
  repository.ID r <> repository.uID p -> pg.set_user p r = r.
Proof.
  intros H. unfold pg.set_user, pg.has_id.
  destruct (repository.ID r =? repository.uID p) eqn:E; [|reflexivity].
  apply Z.eqb_eq in E. contradiction.
Qed.

(** The UPDATE either leaves the table alone or rewrites the matching
    rows with [set_user]; the sequence is never touched. *)
Lemma pg_UpdateUser_rows p d :
  pg.users_id_seq (snd (pg.UpdateUser p d)) = pg.users_id_seq d
  /\ (pg.rows (snd (pg.UpdateUser p d)) = pg.rows d
      \/ (fst (pg.UpdateUser p d) = None
          /\ pg.rows (snd (pg.UpdateUser p d)) = map (pg.set_user p) (pg.rows d))).
Proof.
  unfold pg.UpdateUser.
  destruct (negb _); [auto|].
  destruct (existsb (pg.has_username _) _); [auto|].
  destruct (existsb (pg.has_email _) _); simpl; auto.
Qed.

Lemma UpdateUser_db (user : model.User) (now : time.Time)
    (w : UserRepository.World pg.DB) :
  UserRepository.db
    (snd (UserRepository.UpdateUser (pg.queries no_rows) user now w))
  = snd (pg.UpdateUser
           (repository.mkUpdateUserParams (model.ID user) (model.Username user)
              (model.Email user) (pgtype.mkTimestamptz now true))
           (UserRepository.db w)).
Proof.
  unfold UserRepository.UpdateUser. rewrite run_spec. cbv beta iota zeta.
  simpl repository.UpdateUser.
  destruct (fst (pg.UpdateUser _ _)) as [e|]; [|reflexivity].
  destruct e as [pe| | |]; try reflexivity.
  destruct (String.eqb (Code pe) "23505"); [|reflexivity].
  destruct (_ || _); [reflexivity|]. destruct (_ || _); reflexivity.
Qed.

End TableFacts.

(** C7. UpdateUser writes nothing but the username, email and updated-at
    of the rows with the user's id: the table keeps its length and order,
    every row keeps its id, password and created-at, a row with another id
    is unchanged, a row whose email is the one passed keeps its email, and
    a row that did change holds the username and email passed and the
    time of the call as updated-at. *)
Theorem update_writes_username_email_updated_at
    (no_rows : error) (user : model.User) (now : time.Time)
    (w : UserRepository.World pg.DB) :
  let w' := snd (UserRepository.UpdateUser (pg.queries no_rows) user now w) in
  let old := pg.rows (UserRepository.db w) in
  let new := pg.rows (UserRepository.db w') in
  pg.users_id_seq (UserRepository.db w') = pg.users_id_seq (UserRepository.db w)
  /\ length new = length old
  /\ forall (i : nat) (r : repository.User),
       old !! i = Some r ->
       exists r', new !! i = Some r'
         /\ repository.ID r' = repository.ID r
         /\ repository.Password r' = repository.Password r
         /\ repository.CreatedAt r' = repository.CreatedAt r
         /\ (repository.ID r <> model.ID user -> r' = r)
         /\ (repository.Email r = model.Email user ->
             repository.Email r' = repository.Email r)
         /\ (r' = r \/
             (repository.Username r' = model.Username user
              /\ repository.Email r' = model.Email user
              /\ repository.UpdatedAt r' = pgtype.mkTimestamptz now true)).
Proof.
  cbv zeta. rewrite UpdateUser_db.
  set (p := repository.mkUpdateUserParams _ _ _ _).
  destruct (pg_UpdateUser_rows p (UserRepository.db w)) as [Hseq [Hrows | [_ Hrows]]];
    rewrite Hrows.
  - split; [exact Hseq|]. split; [reflexivity|].
    intros i r Hr. exists r. repeat split; auto.
  - split; [exact Hseq|]. split; [apply length_map|].
    intros i r Hr. exists (pg.set_user p r).
    rewrite lookup_map, Hr. split; [reflexivity|].
    split; [apply set_user_id|]. split; [apply set_user_password|].
    split; [apply set_user_created|].
    split; [intros Hne; apply set_user_other; exact Hne|].
    unfold pg.set_user. destruct (pg.has_id _ r); simpl; auto.
Qed.

Lemma update_writes_username_email_updated_at_witness :
  let w' := snd (UserRepository.UpdateUser Sample.queries
                   (model.mkUser 1 "john_doe_updated" "john@example.com" ""
                      time.zero time.zero) 1000 Sample.two_users) in
  exists r', pg.rows (UserRepository.db w') !! 0%nat = Some r'
    /\ repository.Username r' = "john_doe_updated"
    /\ repository.Email r' = "john@example.com"
    /\ repository.Password r' = "$2a$hash1"
    /\ repository.CreatedAt r' = Sample.at_ 100.
Proof.
  intros w'.
  destruct (update_writes_username_email_updated_at Sample.no_rows
              (model.mkUser 1 "john_doe_updated" "john@example.com" ""
                 time.zero time.zero) 1000 Sample.two_users)
    as (_ & _ & H).
  destruct (H 0%nat Sample.john eq_refl)
    as (r' & Hr' & _ & Hpw & Hcr & _ & Hem & Hch).
  exists r'. split; [exact Hr'|].
  split; [|split; [apply Hem; reflexivity|split; [exact Hpw|exact Hcr]]].
  injection Hr' as <-. reflexivity.
Defined.

(** ** Creating and reading back *)

Lemma existsb_has_id_false (id : Z) (l : list repository.User) :
  Forall (fun r => repository.ID r <> id) l ->
  existsb (pg.has_id id) l = false.
Proof.
  induction 1 as [|r l Hr _ IH]; [reflexivity|]. simpl.
  rewrite IH, orb_false_r. apply Z.eqb_neq, Hr.
Qed.

Lemma existsb_has_username_false (s : string) (l : list repository.User) :
  Forall (fun r => repository.Username r <> s) l ->
  existsb (pg.has_username s) l = false.
Proof.
  induction 1 as [|r l Hr _ IH]; [reflexivity|]. simpl.
  rewrite IH, orb_false_r. apply String.eqb_neq, Hr.
Qed.

Lemma existsb_has_email_false (s : string) (l : list repository.User) :
  Forall (fun r => repository.Email r <> s) l ->
  existsb (pg.has_email s) l = false.
Proof.
  induction 1 as [|r l Hr _ IH]; [reflexivity|]. simpl.
  rewrite IH, orb_false_r. apply String.eqb_neq, Hr.
Qed.

Lemma find_new_row (id : Z) (l : list repository.User) (row : repository.User) :
  existsb (pg.has_id id) l = false -> repository.ID row = id ->
  find (pg.has_id id) (l ++ [row]) = Some row.
Proof.
  intros Hl Hrow. induction l as [|r l IH]; simpl.
  - unfold pg.has_id. rewrite Hrow, Z.eqb_refl. reflexivity.
  - simpl in Hl. apply orb_false_iff in Hl as [-> Hl]. apply IH, Hl.
Qed.

Lemma store_ok_ids_below (d : pg.DB) :
  store_ok d ->
  Forall (fun r => repository.ID r <> pg.users_id_seq d) (pg.rows d).
Proof.
  intros (_ & _ & H). eapply Forall_impl; [exact H|].
  intros r [? _]. simpl in *. lia.
Qed.

(** A successful INSERT keeps the store in order. *)
Lemma store_ok_insert (d : pg.DB) (row : repository.User) :
  store_ok d ->
  repository.ID row = pg.users_id_seq d ->
  pgtype.Valid (repository.CreatedAt row) = true ->
  store_ok (pg.mkDB (pg.rows d ++ [row]) (pg.users_id_seq d + 1)).
Proof.
  intros Hok Hid Hv. pose proof (store_ok_ids_below d Hok) as Hbelow.
  destruct Hok as (Hnd & Hseq & Hall). unfold store_ok. simpl.
  split; [|split; [lia|]].
  - rewrite map_app. simpl. apply NoDup_app. split; [exact Hnd|].
    split; [|apply NoDup_singleton].
    intros x Hx Hx'. apply list_elem_of_singleton in Hx'. subst x.
    apply list_elem_of_fmap in Hx as (r & Hr & Hin).
    rewrite Forall_forall in Hbelow. apply (Hbelow r); [exact Hin|congruence].
  - apply Forall_app. split.
    + eapply Forall_impl; [exact Hall|]. intros r [? ?]. simpl in *.
      split; [lia|assumption].
    + constructor; [|constructor]. split; [lia|assumption].
Qed.

(** C9. On a store in order whose id sequence is not exhausted, creating
    a user whose username and email no row has succeeds; the user gets
    the next id of the sequence, which is positive and which no row had;
    reading that id back succeeds and yields a user with this id, the
    username and email passed, and created-at equal to updated-at; the
    store stays in order. *)
Theorem create_then_get_by_id
    (no_rows : error) (user : model.User) (now : time.Time)
    (w : UserRepository.World pg.DB) :
  store_ok (UserRepository.db w) ->
  pg.users_id_seq (UserRepository.db w) <= maxInt32 ->
  Forall (fun r => repository.Username r <> model.Username user)
         (pg.rows (UserRepository.db w)) ->
  Forall (fun r => repository.Email r <> model.Email user)
         (pg.rows (UserRepository.db w)) ->
  exists (created : model.User) (w' : UserRepository.World pg.DB),
    UserRepository.CreateUser (pg.queries no_rows) user now w
    = (created, None, w')
    /\ 0 < model.ID created
    /\ Forall (fun r => repository.ID r <> model.ID created)
              (pg.rows (UserRepository.db w))
    /\ model.CreatedAt created = model.UpdatedAt created
    /\ store_ok (UserRepository.db w')
    /\ exists (got : model.User) (w'' : UserRepository.World pg.DB),
         UserRepository.GetUserByID (pg.queries no_rows) (model.ID created) w'
         = (Ok got, w'')
         /\ model.ID got = model.ID created
         /\ 0 < model.ID got
         /\ model.Username got = model.Username user
         /\ model.Email got = model.Email user
         /\ model.CreatedAt got = model.UpdatedAt got
         /\ UserRepository.db w'' = UserRepository.db w'.
Proof.
  intros Hok Hseq Huser Hemail.
  pose proof (store_ok_ids_below _ Hok) as Hbelow.
  pose proof Hok as (_ & Hpos & _).
  set (d := UserRepository.db w) in *.
  set (id := pg.users_id_seq d) in *.
  set (ts := pgtype.mkTimestamptz now true).
  set (row := repository.mkUser id (model.Username user) (model.Email user)
                (model.Password user) ts ts).
  assert (pg.CreateUser
            (repository.mkCreateUserParams (model.Username user)
               (model.Email user) (model.Password user) ts ts) d
          = (Ok row, pg.mkDB (pg.rows d ++ [row]) (id + 1))) as Hins.
  { unfold pg.CreateUser. fold id.
    destruct (maxInt32 <? id) eqn:E; [apply Z.ltb_lt in E; lia|].
    rewrite (existsb_has_id_false id _ Hbelow). simpl.
    rewrite (existsb_has_username_false _ _ Huser).
    rewrite (existsb_has_email_false _ _ Hemail). reflexivity. }
  eexists _, _. split.
  { unfold UserRepository.CreateUser. rewrite run_spec. cbv beta iota zeta.
    simpl repository.CreateUser. fold d ts. rewrite Hins. reflexivity. }
  simpl. split; [lia|]. split; [exact Hbelow|]. split; [reflexivity|].
  assert (store_ok (pg.mkDB (pg.rows d ++ [row]) (id + 1))) as Hok'.
  { apply store_ok_insert; auto. }
  split; [exact Hok'|].
  eexists _, _. split.
  { unfold UserRepository.GetUserByID. rewrite run_spec. cbv beta iota zeta.
    simpl. unfold pg.GetUserByID. simpl.
    rewrite (find_new_row id (pg.rows d) row
               (existsb_has_id_false id _ Hbelow) eq_refl).
    reflexivity. }
  simpl. repeat split; auto. lia.
Qed.

Lemma create_then_get_by_id_witness :
  exists (created : model.User) (w' : UserRepository.World pg.DB),
    UserRepository.CreateUser Sample.queries
      (model.mkUser 0 "carol" "carol@example.com" "$2a$pw" time.zero time.zero)
      1000 Sample.two_users = (created, None, w')
    /\ 0 < model.ID created
    /\ exists (got : model.User) (w'' : UserRepository.World pg.DB),
         UserRepository.GetUserByID Sample.queries (model.ID created) w'
         = (Ok got, w'')
         /\ model.CreatedAt got = model.UpdatedAt got.
Proof.
  assert (store_ok (UserRepository.db Sample.two_users)) as Hok.
  { unfold store_ok. simpl. split; [|split; [lia|]].
    - apply (bool_decide_unpack _). vm_compute. exact I.
    - repeat constructor; simpl; lia. }
  destruct (create_then_get_by_id Sample.no_rows
              (model.mkUser 0 "carol" "carol@example.com" "$2a$pw"
                 time.zero time.zero) 1000 Sample.two_users Hok)
    as (created & w' & Hc & Hpos & _ & _ & _ & got & w'' & Hg & _ & _ & _ & _ & Heq & _).
  - vm_compute. discriminate.
  - repeat constructor; simpl; discriminate.
  - repeat constructor; simpl; discriminate.
  - exists created, w'. split; [exact Hc|]. split; [exact Hpos|].
    exists got, w''. split; [exact Hg|exact Heq].
Defined.

(** ** Listing and paging *)

Lemma before_total (a b : pgtype.Timestamptz) :
  pg.before a b = false -> pg.before b a = true.
Proof.
  unfold pg.before. destruct (pgtype.Valid a), (pgtype.Valid b); try discriminate.
  - intros H. apply Z.leb_gt in H. apply Z.leb_le. lia.
  - reflexivity.
Qed.

Lemma before_trans (a b c : pgtype.Timestamptz) :
  pg.before a b = true -> pg.before b c = true -> pg.before a c = true.
Proof.
  unfold pg.before.
  destruct (pgtype.Valid a), (pgtype.Valid b), (pgtype.Valid c);
    try discriminate; try reflexivity.
  intros H1%Z.leb_le H2%Z.leb_le. apply Z.leb_le. lia.
Qed.

Lemma insert_desc_perm (x : repository.User) (l : list repository.User) :
  Permutation (pg.insert_desc x l) (x :: l).
Proof.
  induction l as [|y l IH]; simpl; [reflexivity|].
  destruct (pg.before _ _); [reflexivity|].
  rewrite IH. apply perm_swap.
Qed.

Lemma order_by_perm (l : list repository.User) :
  Permutation (pg.order_by_created_at_desc l) l.
Proof.
  induction l as [|x l IH]; simpl; [reflexivity|].
  rewrite insert_desc_perm. apply perm_skip, IH.
Qed.

Lemma insert_desc_sorted (x : repository.User) (l : list repository.User) :
  StronglySorted comes_before l ->
  StronglySorted comes_before (pg.insert_desc x l).
Proof.
  induction 1 as [|y l Hl IH Hy]; simpl.
  - repeat constructor.
  - destruct (pg.before (repository.CreatedAt x) (repository.CreatedAt y)) eqn:E.
    + constructor; [constructor; assumption|].
      constructor; [exact E|].
      eapply Forall_impl; [exact Hy|]. intros z Hz.
      eapply before_trans; [exact E|exact Hz].
    + constructor; [exact IH|].
      rewrite insert_desc_perm. constructor; [|exact Hy].
      apply before_total, E.
Qed.

Lemma order_by_sorted (l : list repository.User) :
  StronglySorted comes_before (pg.order_by_created_at_desc l).
Proof.
  induction l as [|x l IH]; simpl; [constructor|].
  apply insert_desc_sorted, IH.
Qed.

Lemma sorted_lookup (l : list repository.User) (i j : nat)
    (a b : repository.User) :
  StronglySorted comes_before l -> (i <= j)%nat ->
  l !! i = Some a -> l !! j = Some b ->
  comes_before a b \/ a = b.
Proof.
  intros Hs. revert i j. induction Hs as [|x l Hl IH Hx]; intros i j Hij Ha Hb.
  - discriminate.
  - destruct i as [|i], j as [|j]; simpl in *.
    + right. congruence.
    + left. injection Ha as <-. rewrite Forall_forall in Hx.
      apply Hx. eapply list_elem_of_lookup_2, Hb.
    + lia.
    + apply (IH i j); [lia|assumption|assumption].
Qed.

(** With creation times that are all present and pairwise distinct, rows
    can be put newest first in one way only: the pages do not depend on
    how the executor of ORDER BY treats equal keys. *)
Lemma newest_first_order_unique (l1 l2 : list repository.User) :
  Permutation l1 l2 ->
  Forall (fun r => pgtype.Valid (repository.CreatedAt r) = true) l1 ->
  NoDup (map repository.CreatedAt l1) ->
  StronglySorted comes_before l1 -> StronglySorted comes_before l2 ->
  l1 = l2.
Proof.
  revert l2. induction l1 as [|a l1 IH]; intros l2 Hperm Hv Hnd Hs1 Hs2.
  - symmetry. apply Permutation_nil. exact Hperm.
  - destruct l2 as [|b l2];
      [apply Permutation_sym, Permutation_nil in Hperm; discriminate|].
    apply StronglySorted_inv in Hs1 as [Hs1 Ha].
    apply StronglySorted_inv in Hs2 as [Hs2 Hb].
    apply Forall_cons in Hv as [Hva Hv].
    simpl in Hnd. apply NoDup_cons in Hnd as [Hka Hnd].
    assert (a = b) as <-.
    { assert (In a (b :: l2)) as Hina
        by (eapply Permutation_in; [exact Hperm|left; reflexivity]).
      assert (In b (a :: l1)) as Hinb
        by (eapply Permutation_in;
            [apply Permutation_sym, Hperm|left; reflexivity]).
      destruct Hina as [Hab | Hina]; [congruence|].
      destruct Hinb as [Hab | Hinb]; [congruence|].
      exfalso. apply Hka.
      rewrite Forall_forall in Ha, Hb, Hv.
      pose proof (Ha b (proj2 (list_elem_of_In _ _) Hinb)) as Hab.
      pose proof (Hb a (proj2 (list_elem_of_In _ _) Hina)) as Hba.
      pose proof (Hv b (proj2 (list_elem_of_In _ _) Hinb)) as Hvb.
      unfold comes_before, pg.before in Hab, Hba.
      rewrite Hva, Hvb in Hab, Hba.
      apply Z.leb_le in Hab, Hba.
      assert (repository.CreatedAt a = repository.CreatedAt b) as ->.
      { destruct (repository.CreatedAt a) as [ta va],
                 (repository.CreatedAt b) as [tb vb].
        simpl in *. subst. f_equal. lia. }
      apply list_elem_of_fmap. exists b. split; [reflexivity|].
      apply list_elem_of_In, Hinb. }
    f_equal. apply IH; try assumption.
    eapply Permutation_cons_inv, Hperm.
Qed.

(** A listed row as the repository hands it out. *)
Lemma listed_id (r : repository.User) :
  model.ID (UserRepository.listRowToModelUser (pg.select_list r))
  = repository.ID r.
Proof. reflexivity. Qed.

Lemma listed_created (r : repository.User) :
  pgtype.Valid (repository.CreatedAt r) = true ->
  model.CreatedAt (UserRepository.listRowToModelUser (pg.select_list r))
  = pgtype.Time (repository.CreatedAt r).
Proof.
  unfold UserRepository.listRowToModelUser. simpl. intros ->. reflexivity.
Qed.

Lemma listing_newest_first (l : list repository.User) :
  Forall (fun r => pgtype.Valid (repository.CreatedAt r) = true) l ->
  StronglySorted comes_before l ->
  newest_first
    (map UserRepository.listRowToModelUser (map pg.select_list l)).
Proof.
  intros Hv Hs i j a b Hij Ha Hb.
  rewrite map_map in Ha, Hb. rewrite lookup_map in Ha, Hb.
  destruct (l !! i) as [ra|] eqn:Era; [|discriminate].
  destruct (l !! j) as [rb|] eqn:Erb; [|discriminate].
  injection Ha as <-. injection Hb as <-.
  rewrite Forall_forall in Hv.
  pose proof (Hv ra (list_elem_of_lookup_2 _ _ _ Era)) as Hva.
  pose proof (Hv rb (list_elem_of_lookup_2 _ _ _ Erb)) as Hvb.
  rewrite (listed_created ra Hva), (listed_created rb Hvb).
  destruct (sorted_lookup l i j ra rb Hs Hij Era Erb) as [Hab | ->]; [|lia].
  unfold comes_before, pg.before in Hab. rewrite Hva, Hvb in Hab.
  apply Z.leb_le, Hab.
Qed.

Lemma newest_first_window (all : list model.User) (n k : nat) :
  newest_first all -> newest_first (take n (drop k all)).
Proof.
  intros Hall i j a b Hij Ha Hb.
  apply lookup_take_Some in Ha as [Ha _]. apply lookup_take_Some in Hb as [Hb _].
  rewrite lookup_drop in Ha, Hb.
  apply (Hall (k + i)%nat (k + j)%nat); [lia|assumption|assumption].
Qed.

Section PagingFacts.
Variable no_rows : error.
Implicit Types (w : UserRepository.World pg.DB).

Lemma GetAllUsers_listing w :
  fst (UserRepository.GetAllUsers (pg.queries no_rows) w) = Ok (listing w).
Proof.
  unfold UserRepository.GetAllUsers. rewrite run_spec. reflexivity.
Qed.

Lemma GetUsersWithPagination_window (limit offset : Z) w :
  0 <= limit -> 0 <= offset ->
  fst (UserRepository.GetUsersWithPagination (pg.queries no_rows) limit offset w)
  = Ok (take (Z.to_nat limit) (drop (Z.to_nat offset) (listing w))).
Proof.
  intros Hl Ho.
  unfold UserRepository.GetUsersWithPagination. rewrite run_spec.
  cbv beta iota zeta. simpl repository.GetUsersWithPagination.
  unfold pg.GetUsersWithPagination. simpl repository.Limit.
  simpl repository.Offset.
  destruct (limit <? 0) eqn:E1; [apply Z.ltb_lt in E1; lia|].
  destruct (offset <? 0) eqn:E2; [apply Z.ltb_lt in E2; lia|].
  simpl. unfold listing.
  rewrite <- !firstn_map, <- !skipn_map. reflexivity.
Qed.

Lemma listing_ids w :
  Permutation (map model.ID (listing w))
              (map repository.ID (pg.rows (UserRepository.db w))).
Proof.
  unfold listing. rewrite !map_map.
  rewrite (map_ext _ repository.ID) by apply listed_id.
  apply Permutation_map, order_by_perm.
Qed.

Lemma listing_sorted w :
  store_ok (UserRepository.db w) -> newest_first (listing w).
Proof.
  intros (_ & _ & Hall). apply listing_newest_first.
  - rewrite (order_by_perm (pg.rows (UserRepository.db w))).
    eapply Forall_impl; [exact Hall|]. intros r [_ Hv]. exact Hv.
  - apply order_by_sorted.
Qed.

End PagingFacts.

(** C8. On a store in order, every page is a window of the listing of
    all users, newest first, that GetAllUsers returns: a page asked with
    [limit] and [offset] (both non-negative) holds at position [i], for
    [i] below [limit], the user at position [offset + i] of the listing,
    and nothing from [limit] on; so it has at most [limit] users and is
    itself ordered newest first. With ten users, the pages (5, 0) and
    (5, 5) have five users each, share no id, and their ids together are
    the ids of the ten users. *)
Theorem pages_are_windows_of_the_listing
    (no_rows : error) (w : UserRepository.World pg.DB) :
  store_ok (UserRepository.db w) ->
  exists all : list model.User,
    fst (UserRepository.GetAllUsers (pg.queries no_rows) w) = Ok all
    /\ Permutation (map model.ID all)
                   (map repository.ID (pg.rows (UserRepository.db w)))
    /\ newest_first all
    /\ (forall limit offset : Z, 0 <= limit -> 0 <= offset ->
        exists page : list model.User,
          fst (UserRepository.GetUsersWithPagination (pg.queries no_rows)
                 limit offset w) = Ok page
          /\ Z.of_nat (length page) <= limit
          /\ newest_first page
          /\ forall i : nat,
               page !! i = if Z.of_nat i <? limit
                           then all !! (Z.to_nat offset + i)%nat else None)
    /\ (length (pg.rows (UserRepository.db w)) = 10%nat ->
        exists p1 p2 : list model.User,
          fst (UserRepository.GetUsersWithPagination (pg.queries no_rows)
                 5 0 w) = Ok p1
          /\ fst (UserRepository.GetUsersWithPagination (pg.queries no_rows)
                    5 5 w) = Ok p2
          /\ length p1 = 5%nat /\ length p2 = 5%nat
          /\ (forall a b, a ∈ p1 -> b ∈ p2 -> model.ID a <> model.ID b)
          /\ Permutation (map model.ID (p1 ++ p2))
                         (map repository.ID (pg.rows (UserRepository.db w)))
          /\ newest_first p1 /\ newest_first p2).
Proof.
  intros Hok. exists (listing w).
  pose proof (listing_ids w) as Hids.
  pose proof (listing_sorted w Hok) as Hsorted.
  split; [apply GetAllUsers_listing|]. split; [exact Hids|].
  split; [exact Hsorted|]. split.
  - intros limit offset Hl Ho.
    exists (take (Z.to_nat limit) (drop (Z.to_nat offset) (listing w))).
    split; [apply GetUsersWithPagination_window; assumption|].
    split; [rewrite length_take; lia|].
    split; [apply newest_first_window, Hsorted|].
    intros i. destruct (Z.of_nat i <? limit) eqn:E.
    + apply Z.ltb_lt in E. rewrite lookup_take_lt by lia. apply lookup_drop.
    + apply Z.ltb_ge in E. apply lookup_take_ge. lia.
  - intros Hten.
    assert (length (listing w) = 10%nat) as Hlen.
    { unfold listing. rewrite !length_map.
      rewrite (Permutation_length (order_by_perm _)). exact Hten. }
    exists (take 5 (listing w)), (drop 5 (listing w)).
    split; [apply (GetUsersWithPagination_window no_rows 5 0); lia|].
    split.
    { rewrite (GetUsersWithPagination_window no_rows 5 5) by lia.
      f_equal. apply take_ge. rewrite length_drop. change (Z.to_nat 5) with 5%nat. lia. }
    split; [rewrite length_take; lia|].
    split; [rewrite length_drop; lia|].
    assert (NoDup (map model.ID (take 5 (listing w) ++ drop 5 (listing w))))
      as Hnd.
    { rewrite take_drop. rewrite Hids. apply Hok. }
    split.
    { intros a b Ha Hb Heq. rewrite map_app in Hnd.
      apply NoDup_app in Hnd as (_ & Hdisj & _).
      apply (Hdisj (model.ID a)).
      - apply list_elem_of_fmap. exists a. split; [reflexivity|exact Ha].
      - rewrite Heq. apply list_elem_of_fmap. exists b.
        split; [reflexivity|exact Hb]. }
    split; [rewrite take_drop; exact Hids|].
    split; [apply (newest_first_window _ 5 0), Hsorted|].
    intros i j a b Hij Ha Hb. rewrite lookup_drop in Ha, Hb.
    apply (Hsorted (5 + i)%nat (5 + j)%nat); [lia|assumption|assumption].
Qed.

Lemma pages_are_windows_of_the_listing_witness :
  exists p1 p2 : list model.User,
    fst (UserRepository.GetUsersWithPagination Sample.queries 5 0
           Sample.ten_users) = Ok p1
    /\ fst (UserRepository.GetUsersWithPagination Sample.queries 5 5
              Sample.ten_users) = Ok p2
    /\ length p1 = 5%nat /\ length p2 = 5%nat
    /\ (forall a b, a ∈ p1 -> b ∈ p2 -> model.ID a <> model.ID b)
    /\ newest_first p1 /\ newest_first p2.
Proof.
  assert (store_ok (UserRepository.db Sample.ten_users)) as Hok.
  { unfold store_ok. simpl. split; [|split; [lia|]].
    - apply (bool_decide_unpack _). vm_compute. exact I.
    - repeat constructor; simpl; lia. }
  destruct (pages_are_windows_of_the_listing Sample.no_rows Sample.ten_users Hok)
    as (all & _ & _ & _ & _ & Hten).
  destruct (Hten eq_refl) as (p1 & p2 & H1 & H2 & L1 & L2 & Hd & _ & S1 & S2).
  exists p1, p2. repeat split; assumption.
Defined.

(** ** The request pipeline: preflight *)

Section PreflightFacts.
Context {W : Type} (w : W).
Implicit Types (c : gin.Context W) (h : @gin.HandlerFunc W).











Lemma loop_cons (n : Z) h (rest : list (@gin.HandlerFunc W)) c :
  gin.loop n (h :: rest) c
  = if gin.index (h (fun c' => if gin.index c' + 1 <? n
                               then gin.loop n rest (gin.incr c')
                               else gin.incr c') c) + 1 <? n
    then gin.loop n rest
           (gin.incr (h (fun c' => if gin.index c' + 1 <? n
                                   then gin.loop n rest (gin.incr c')
                                   else gin.incr c') c))
    else gin.incr (h (fun c' => if gin.index c' + 1 <? n
                                then gin.loop n rest (gin.incr c')
                                else gin.incr c') c).
Proof. reflexivity. Qed.



End PreflightFacts.

(** ** The router *)

Lemma trees_methods (m : string) :
  existsb (String.eqb m) Server.trees = true ->
  m = "GET" \/ m = "POST" \/ m = "PUT" \/ m = "DELETE".
Proof.
  intros H. apply existsb_exists in H as (x & Hx & He).
  apply String.eqb_eq in He. subst x. simpl in Hx.
  repeat (destruct Hx as [Hx|Hx]; [subst m; tauto|]). destruct Hx.
Qed.

Lemma ServeHTTP_found {W : Type} (rnd : middleware.Rand)
    (value : gin.nodeValue W) (h : @gin.HandlerFunc W)
    (req : gin.Request) (w : W) :
  existsb (String.eqb (gin.Method req)) Server.trees = true ->
  gin.handlers value = Some h ->
  Server.ServeHTTP rnd value req w
  = gin.WriteHeaderNow
      (gin.Next (Server.middlewares rnd ++ [h]) (gin.reset req w)).
Proof.
  intros Ht Hh. unfold Server.ServeHTTP, gin.handleHTTPRequest.
  simpl gin.request. cbv zeta. rewrite Ht, Hh. reflexivity.
Qed.

Lemma ServeHTTP_unrouted {W : Type} (rnd : middleware.Rand)
    (value : gin.nodeValue W) (req : gin.Request) (w : W) :
  routed value req = false -> redirected value req = false ->
  Server.ServeHTTP rnd value req w
  = gin.serveError 404 gin.default404Body (Server.middlewares rnd)
      (gin.reset req w).
Proof.
  unfold routed, redirected, Server.ServeHTTP, gin.handleHTTPRequest.
  simpl gin.request. cbv zeta.
  destruct (existsb _ Server.trees); [|reflexivity].
  destruct (gin.handlers value); [discriminate|].
  simpl. intros _ ->. reflexivity.
Qed.

Lemma ServeHTTP_redirected {W : Type} (rnd : middleware.Rand)
    (value : gin.nodeValue W) (req : gin.Request) (w : W) :
  redirected value req = true ->
  Server.ServeHTTP rnd value req w
  = gin.redirectTrailingSlash value (gin.reset req w).
Proof.
  unfold redirected, Server.ServeHTTP, gin.handleHTTPRequest.
  simpl gin.request. cbv zeta.
  destruct (existsb _ Server.trees); [|discriminate].
  destruct (gin.handlers value); [discriminate|].
  simpl. intros ->. reflexivity.
Qed.

(** No route is registered for OPTIONS, so that a preflight always goes
    through the middlewares to the 404 of [serveError]. *)
Lemma ServeHTTP_preflight {W : Type} (rnd : middleware.Rand)
    (value : gin.nodeValue W) (req : gin.Request) (w : W) :
  gin.Method req = "OPTIONS" ->
  Server.ServeHTTP rnd value req w
  = gin.serveError 404 gin.default404Body (Server.middlewares rnd)
      (gin.reset req w).
Proof.
  intros Hm. apply ServeHTTP_unrouted; unfold routed, redirected;
    rewrite Hm; reflexivity.
Qed.



(** ** The request pipeline: the correlation id *)

Lemma length_substring_prefix (n : nat) (s : string) :
  (n <= String.length s)%nat -> String.length (substring 0 n s) = n.
Proof.
  revert s. induction n as [|n IH]; intros s Hn.
  - destruct s; reflexivity.
  - destruct s as [|ch s]; simpl in *; [lia|]. rewrite IH; [reflexivity|lia].
Qed.

Lemma length_EncodeToString (src : list Byte.byte) :
  String.length (hex.EncodeToString src) = (2 * length src)%nat.
Proof.
  induction src as [|b src IH]; [reflexivity|].
  unfold hex.EncodeToString in *. simpl foldr. simpl String.length.
  rewrite IH. simpl. lia.
Qed.

Lemma length_string_of_list_ascii (l : list ascii) :
  String.length (string_of_list_ascii l) = length l.
Proof. induction l as [|a l IH]; simpl; [reflexivity|]. rewrite IH. reflexivity. Qed.

Lemma length_randomString (rnd : middleware.Rand) (n : nat) :
  String.length (middleware.randomString rnd n) = n.
Proof.
  unfold middleware.randomString. destruct (middleware.rand_fails rnd).
  - rewrite length_string_of_list_ascii, length_map, length_seq. reflexivity.
  - apply length_substring_prefix.
    rewrite length_EncodeToString, length_map, length_seq. lia.
Qed.

(** A generated id is "req-" and eight more characters. *)
Lemma length_generateRequestID (rnd : middleware.Rand) :
  String.length (middleware.generateRequestID rnd) = 12%nat.
Proof.
  unfold middleware.generateRequestID.
  change ("req-" +:+ middleware.randomString rnd 8)
    with (String "r" (String "e" (String "q" (String "-"
            (middleware.randomString rnd 8))))).
  simpl String.length. rewrite length_randomString. reflexivity.
Qed.

Section IdFacts.
Context {W : Type} (rid : string).
Implicit Types (c : gin.Context W).

Lemma carries_same c c' :
  gin.Keys c' = gin.Keys c ->
  gin.header (gin.Writer c') !! "X-Request-ID"
  = gin.header (gin.Writer c) !! "X-Request-ID" ->
  carries_id rid c -> carries_id rid c'.
Proof. intros Hk Hh [? ?]. split; congruence. Qed.

Lemma carries_Status c code :
  carries_id rid c -> carries_id rid (gin.Status code c).
Proof.
  apply carries_same; unfold gin.Status;
    destruct (_ && _); try reflexivity;
    destruct (gin.written _); reflexivity.
Qed.

Lemma carries_Header c (k v : string) :
  k <> "X-Request-ID" -> carries_id rid c -> carries_id rid (gin.Header k v c).
Proof.
  intros Hk. apply carries_same; unfold gin.Header;
    destruct (gin.written _); try reflexivity;
    destruct (String.eqb v ""); try reflexivity; simpl.
  - apply lookup_delete_ne, Hk.
  - apply lookup_insert_ne, Hk.
Qed.

Lemma carries_writeContentType c v :
  carries_id rid c -> carries_id rid (gin.writeContentType v c).
Proof.
  intros H. unfold gin.writeContentType. destruct (_ !! _); [exact H|].
  apply carries_Header; [discriminate|exact H].
Qed.

Lemma carries_WriteHeaderNow c :
  carries_id rid c -> carries_id rid (gin.WriteHeaderNow c).
Proof.
  apply carries_same; unfold gin.WriteHeaderNow;
    destruct (gin.written _); reflexivity.
Qed.

Lemma carries_Write c data :
  carries_id rid c -> carries_id rid (gin.Write data c).
Proof.
  intros H. apply carries_WriteHeaderNow in H. revert H.
  apply carries_same; reflexivity.
Qed.

Lemma carries_JSON c code obj :
  carries_id rid c -> carries_id rid (gin.JSON code obj c).
Proof.
  intros H. unfold gin.JSON.
  destruct (gin.bodyAllowedForStatus code);
    [apply carries_Write|apply carries_WriteHeaderNow];
    apply carries_writeContentType, carries_Status, H.
Qed.

Lemma carries_set_world c (w : W) :
  carries_id rid c -> carries_id rid (gin.set_world w c).
Proof. intros H. exact H. Qed.

Lemma carries_incr c : carries_id rid c -> carries_id rid (gin.incr c).
Proof. intros H. exact H. Qed.

Lemma carries_AbortWithStatus c code :
  carries_id rid c -> carries_id rid (gin.AbortWithStatus code c).
Proof.
  intros H. unfold gin.AbortWithStatus, gin.Abort.
  exact (carries_WriteHeaderNow _ (carries_Status _ code H)).
Qed.

Lemma Logger_keeps : keeps_id rid (@gin.Logger W).
Proof. intros next Hn c Hc. apply Hn, Hc. Qed.

Lemma Recovery_keeps : keeps_id rid (@gin.Recovery W).
Proof. intros next Hn c Hc. apply Hn, Hc. Qed.

Lemma ErrorHandler_keeps : keeps_id rid (@middleware.ErrorHandler W).
Proof.
  intros next Hn c Hc. unfold middleware.ErrorHandler. cbv zeta.
  destruct (0 <? _); [apply carries_JSON|]; apply Hn, Hc.
Qed.

Lemma CORS_keeps : keeps_id rid (@middleware.CORS W).
Proof.
  intros next Hn c Hc. unfold middleware.CORS. cbv zeta.
  assert (carries_id rid
            (gin.Header "Access-Control-Allow-Headers"
               "Origin, Content-Type, Content-Length, Accept-Encoding, X-CSRF-Token, Authorization"
               (gin.Header "Access-Control-Allow-Methods"
                  "GET, POST, PUT, DELETE, OPTIONS"
                  (gin.Header "Access-Control-Allow-Origin" "*" c)))) as H3.
  { repeat (apply carries_Header; [discriminate|]). exact Hc. }
  destruct (String.eqb _ "OPTIONS");
    [apply carries_AbortWithStatus, H3|apply Hn, H3].
Qed.

Lemma loop_keeps (n : Z) (hs : list (@gin.HandlerFunc W)) c :
  Forall (keeps_id rid) hs -> carries_id rid c ->
  carries_id rid (gin.loop n hs c).
Proof.
  intros Hhs. revert c. induction Hhs as [|h hs Hh _ IH]; intros c Hc.
  - exact Hc.
  - rewrite loop_cons.
    assert (forall c', carries_id rid c' ->
              carries_id rid (if gin.index c' + 1 <? n
                              then gin.loop n hs (gin.incr c')
                              else gin.incr c')) as Hnext.
    { intros c' Hc'. destruct (_ <? n); [apply IH|]; apply carries_incr, Hc'. }
    apply Hnext, Hh; [exact Hnext|exact Hc].
Qed.

End IdFacts.

Lemma correlation_id_not_empty (rnd : middleware.Rand) (req : gin.Request) :
  String.eqb (correlation_id rnd req) "" = false.
Proof.
  unfold correlation_id.
  destruct (gin.ReqHeader req !! "X-Request-ID") as [[|a v]|]; reflexivity.
Qed.

Lemma RequestID_establishes {W : Type} (rnd : middleware.Rand)
    (next : gin.Context W -> gin.Context W) (c : gin.Context W) :
  (forall c', carries_id (correlation_id rnd (gin.request c)) c' ->
              carries_id (correlation_id rnd (gin.request c)) (next c')) ->
  gin.written (gin.Writer c) = false ->
  carries_id (correlation_id rnd (gin.request c))
             (middleware.RequestID rnd next c).
Proof.
  intros Hnext Hw. unfold middleware.RequestID. cbv zeta.
  assert ((if String.eqb (gin.GetHeader "X-Request-ID" c) ""
           then middleware.generateRequestID rnd
           else gin.GetHeader "X-Request-ID" c)
          = correlation_id rnd (gin.request c)) as ->.
  { unfold gin.GetHeader, correlation_id.
    destruct (gin.ReqHeader (gin.request c) !! "X-Request-ID") as [[|a v]|];
      reflexivity. }
  apply Hnext. unfold gin.Header. simpl gin.Writer. rewrite Hw.
  rewrite correlation_id_not_empty. split; simpl.
  - apply lookup_insert_eq.
  - apply lookup_insert_eq.
Qed.

Section EndpointFacts.
Context {DB : Type} (userRepo : repository.Queries DB)
        (pool_Ping : DB -> option error) (env : UserHandler.Env).

Lemma handler_keeps (rid : string) (e : Server.Endpoint) :
  keeps_id rid (Server.handler userRepo pool_Ping env e).
Proof.
  intros next _ c Hc.
  destruct e; unfold Server.handler;
    unfold HealthHandler.Ping, HealthHandler.HealthCheck,
           HealthHandler.Readiness, HealthHandler.Liveness,
           UserHandler.CreateUser, UserHandler.GetAllUsers,
           UserHandler.GetUsersWithPagination, UserHandler.GetUserByID,
           UserHandler.UpdateUser, UserHandler.DeleteUser;
    repeat match goal with
           | |- carries_id _ (gin.JSON _ _ _) => apply carries_JSON; exact Hc
           | |- context [match ?x with _ => _ end] => destruct x
           end.
Qed.

End EndpointFacts.

Lemma serveError_written {W : Type} (code : Z) (msg : gin.json)
    (mws : list (@gin.HandlerFunc W)) (c : gin.Context W) :
  gin.written (gin.Writer (gin.serveError code msg mws c)) = true.
Proof.
  unfold gin.serveError. cbv zeta. set (c1 := gin.Next mws _).
  destruct (gin.written (gin.Writer c1)) eqn:E; [exact E|].
  destruct (gin.status (gin.Writer c1) =? code);
    [apply Write_status|apply WriteHeaderNow_status].
Qed.

Lemma handleHTTPRequest_written {W : Type} (trees : list string)
    (mws : list (@gin.HandlerFunc W)) (value : gin.nodeValue W)
    (c : gin.Context W) :
  gin.written (gin.Writer (gin.handleHTTPRequest trees mws value c)) = true.
Proof.
  unfold gin.handleHTTPRequest. cbv zeta.
  destruct (existsb _ trees); [|apply serveError_written].
  destruct (gin.handlers value) as [h|]; [apply WriteHeaderNow_status|].
  destruct (_ && _); [|apply serveError_written].
  unfold gin.redirectTrailingSlash, gin.redirectRequest.
  apply WriteHeaderNow_status.
Qed.

(** *** The generated id *)

Lemma hexdigit_inj (n m : N) :
  (n < 16)%N -> (m < 16)%N -> hex.hexdigit n = hex.hexdigit m -> n = m.
Proof.
  intros Hn Hm.
  assert (forall k, (k < 16)%N -> In k (map N.of_nat (seq 0 16))) as Hin.
  { intros k Hk. apply in_map_iff. exists (N.to_nat k).
    split; [apply N2Nat.id|]. apply in_seq. lia. }
  pose proof (Hin n Hn) as In_n. pose proof (Hin m Hm) as In_m.
  clear Hin Hn Hm. simpl in In_n, In_m.
  repeat (destruct In_n as [<-|In_n]);
    repeat (destruct In_m as [<-|In_m]);
    try contradiction; try reflexivity; intros H; discriminate H.
Qed.

(** The two hex digits of a byte determine the byte. *)
Lemma hex_byte_inj (b b' : Byte.byte) :
  hex.hexdigit (N.shiftr (Byte.to_N b) 4)
  = hex.hexdigit (N.shiftr (Byte.to_N b') 4) ->
  hex.hexdigit (N.land (Byte.to_N b) 15)
  = hex.hexdigit (N.land (Byte.to_N b') 15) ->
  b = b'.
Proof.
  intros Hhi Hlo.
  pose proof (Byte.to_N_bounded b) as Hb.
  pose proof (Byte.to_N_bounded b') as Hb'.
  assert (forall x, (x <= 255)%N ->
            (N.shiftr x 4 < 16)%N /\ (N.land x 15 < 16)%N
            /\ x = (16 * N.shiftr x 4 + N.land x 15)%N) as Hsplit.
  { intros x Hx. rewrite N.shiftr_div_pow2.
    change 15%N with (N.ones 4). rewrite N.land_ones.
    change (2 ^ 4)%N with 16%N.
    pose proof (N.div_mod x 16 ltac:(lia)).
    pose proof (N.mod_lt x 16 ltac:(lia)).
    assert (x / 16 < 16)%N by (apply N.Div0.div_lt_upper_bound; lia).
    lia. }
  destruct (Hsplit _ Hb) as (H1 & H2 & H3).
  destruct (Hsplit _ Hb') as (H1' & H2' & H3').
  apply hexdigit_inj in Hhi; [|assumption..].
  apply hexdigit_inj in Hlo; [|assumption..].
  assert (Byte.to_N b = Byte.to_N b') as E by lia.
  pose proof (Byte.of_to_N b) as Eb. pose proof (Byte.of_to_N b') as Eb'.
  rewrite E in Eb. congruence.
Qed.

(** With [crypto/rand] at work the id is "req-" and the hex digits of the
    first four random bytes; the other four bytes read are cut off. When
    it fails the id is a constant. *)
Lemma generateRequestID_cases (rnd : middleware.Rand) :
  middleware.generateRequestID rnd
  = if middleware.rand_fails rnd then "req-abcdefgh"
    else "req-" +:+ hex.EncodeToString
                      (map (middleware.rand_byte rnd) [0; 1; 2; 3]%nat).
Proof.
  unfold middleware.generateRequestID, middleware.randomString.
  destruct (middleware.rand_fails rnd); reflexivity.
Qed.

(** Ids generated from different random bytes differ. *)
Lemma generateRequestID_inj (rnd rnd' : middleware.Rand) :
  middleware.rand_fails rnd = false -> middleware.rand_fails rnd' = false ->
  middleware.generateRequestID rnd' = middleware.generateRequestID rnd ->
  forall i, (i < 4)%nat ->
    middleware.rand_byte rnd' i = middleware.rand_byte rnd i.
Proof.
  intros Hf Hf'. rewrite !generateRequestID_cases, Hf, Hf'.
  unfold hex.EncodeToString. simpl foldr. simpl append.
  intros H. injection H as H0 H0' H1 H1' H2 H2' H3 H3'.
  intros i Hi.
  destruct i as [|[|[|[|i]]]]; [apply hex_byte_inj; assumption..|lia].
Qed.

(** C6, as the code has it. Every request that goes through the
    middlewares (a routed request, and one answered 404) is answered with
    an X-Request-ID header, and the same value is the request's
    [RequestID] key: the inbound X-Request-ID header when the client sent
    a non-empty one, and otherwise the generated id, "req-" followed by
    the eight hex digits of four bytes read from crypto/rand, so that
    different random bytes give different ids; when crypto/rand fails the
    generated id is the constant "req-abcdefgh". The requests the router
    redirects to the path with the other trailing slash are left out:
    they are answered before the middlewares run. *)
Theorem response_carries_request_id
    {DB : Type} (userRepo : repository.Queries DB)
    (pool_Ping : DB -> option error) (env : UserHandler.Env)
    (rnd : middleware.Rand) (route : option Server.Endpoint)
    (tsr : bool) (url : string)
    (req : gin.Request) (w : UserRepository.World DB) :
  let value := gin.mkNodeValue
                 (Server.handler userRepo pool_Ping env <$> route) tsr url in
  redirected value req = false ->
  let c := Server.ServeHTTP rnd value req w in
  exists rid : string,
    gin.header (gin.Writer c) !! "X-Request-ID" = Some rid
    /\ gin.Keys c !! "RequestID" = Some rid
    /\ gin.written (gin.Writer c) = true
    /\ (forall v, gin.ReqHeader req !! "X-Request-ID" = Some v -> v <> "" ->
                  rid = v)
    /\ (gin.ReqHeader req !! "X-Request-ID" = None
        \/ gin.ReqHeader req !! "X-Request-ID" = Some "" ->
        rid = middleware.generateRequestID rnd
        /\ rid = (if middleware.rand_fails rnd then "req-abcdefgh"
                  else "req-" +:+ hex.EncodeToString
                                    (map (middleware.rand_byte rnd)
                                         [0; 1; 2; 3]%nat))
        /\ (8 <= String.length rid)%nat
        /\ forall rnd',
             middleware.rand_fails rnd = false ->
             middleware.rand_fails rnd' = false ->
             middleware.generateRequestID rnd' = rid ->
             forall i, (i < 4)%nat ->
               middleware.rand_byte rnd' i = middleware.rand_byte rnd i).
Proof.
  cbv zeta. intros Hred. set (rid := correlation_id rnd req). exists rid.
  assert (forall (tail : list (@gin.HandlerFunc (UserRepository.World DB)))
                 (c0 : gin.Context (UserRepository.World DB)),
            Forall (keeps_id rid) tail ->
            gin.request c0 = req -> gin.written (gin.Writer c0) = false ->
            gin.index c0 = -1 ->
            carries_id rid (gin.Next (Server.middlewares rnd ++ tail) c0))
    as Hchain.
  { intros tail c0 Htail Hreq Hw0 Hi0. unfold gin.Next.
    assert (Forall (keeps_id rid)
              ([gin.Logger; gin.Recovery; middleware.ErrorHandler;
                middleware.CORS] ++ tail)) as Hrest.
    { apply Forall_app. split; [|exact Htail].
      constructor; [apply Logger_keeps|].
      constructor; [apply Recovery_keeps|].
      constructor; [apply ErrorHandler_keeps|].
      constructor; [apply CORS_keeps|constructor]. }
    destruct (gin.index (gin.incr c0) <? _) eqn:E.
    2:{ apply Z.ltb_ge in E. rewrite length_app in E. simpl in E. lia. }
    change (Server.middlewares rnd ++ tail)
      with (middleware.RequestID rnd
              :: ([gin.Logger; gin.Recovery; middleware.ErrorHandler;
                   middleware.CORS] ++ tail)).
    rewrite loop_cons.
    set (n := Z.of_nat (length _)).
    assert (forall c', carries_id rid c' ->
              carries_id rid
                (if gin.index c' + 1 <? n
                 then gin.loop n ([gin.Logger; gin.Recovery;
                                   middleware.ErrorHandler; middleware.CORS]
                                  ++ tail) (gin.incr c')
                 else gin.incr c')) as Hnext.
    { intros c' Hc'. destruct (_ <? n);
        [apply loop_keeps; [exact Hrest|]|]; apply carries_incr, Hc'. }
    apply Hnext. unfold rid. rewrite <- Hreq.
    apply (RequestID_establishes rnd _ (gin.incr c0)); [|exact Hw0].
    simpl gin.request. rewrite Hreq. exact Hnext. }
  set (value := gin.mkNodeValue _ tsr url) in *.
  assert (carries_id rid (Server.ServeHTTP rnd value req w)) as [Hkey Hhdr].
  { destruct (routed value req) eqn:Hrouted.
    - unfold routed in Hrouted. apply andb_true_iff in Hrouted as [Ht Hh].
      destruct route as [e|]; [|discriminate Hh].
      rewrite (ServeHTTP_found rnd value _ req w Ht eq_refl).
      apply carries_WriteHeaderNow, Hchain; [|reflexivity..].
      constructor; [apply handler_keeps|constructor].
    - rewrite (ServeHTTP_unrouted rnd value req w Hrouted Hred).
      unfold gin.serveError. cbv zeta.
      match goal with
      | |- context [gin.Next (Server.middlewares rnd) ?c0] =>
          assert (carries_id rid (gin.Next (Server.middlewares rnd) c0)) as Hc
      end.
      { rewrite <- (app_nil_r (Server.middlewares rnd)).
        apply Hchain; [constructor|reflexivity..]. }
      set (c1 := gin.Next _ _) in *.
      destruct (gin.written (gin.Writer c1)); [exact Hc|].
      destruct (gin.status (gin.Writer c1) =? 404);
        [|apply carries_WriteHeaderNow, Hc].
      apply carries_Write, carries_Header; [discriminate|exact Hc]. }
  split; [exact Hhdr|]. split; [exact Hkey|].
  split; [apply handleHTTPRequest_written|].
  unfold rid, correlation_id. split.
  - intros v -> Hv. destruct v; [contradiction|reflexivity].
  - intros Hnone.
    assert (match gin.ReqHeader req !! "X-Request-ID" with
            | Some (String a v) => String a v
            | _ => middleware.generateRequestID rnd
            end = middleware.generateRequestID rnd) as ->
      by (destruct Hnone as [-> | ->]; reflexivity).
    split; [reflexivity|]. split; [apply generateRequestID_cases|].
    split; [rewrite length_generateRequestID; lia|].
    intros rnd' Hf Hf' Heq. apply generateRequestID_inj; assumption.
Qed.

Lemma response_carries_request_id_witness :
  gin.header (gin.Writer
    (Server.ServeHTTP Sample.rnd
       (Sample.found (Server.handler Sample.queries (fun _ => None) Sample.env
                        Server.GetUserByID))
       Sample.traced Sample.two_users)) !! "X-Request-ID" = Some "trace-0001"
  /\ gin.header (gin.Writer
       (Server.ServeHTTP Sample.rnd
          (Sample.found (Server.handler Sample.queries (fun _ => None)
                           Sample.env Server.GetUserByID))
          Sample.untraced Sample.two_users)) !! "X-Request-ID"
     = Some "req-03142536".
Proof.
  split.
  - destruct (response_carries_request_id Sample.queries (fun _ => None)
                Sample.env Sample.rnd (Some Server.GetUserByID) false ""
                Sample.traced Sample.two_users eq_refl)
      as (rid & Hh & _ & _ & Hv & _).
    unfold Sample.found. simpl fmap in Hh. rewrite Hh. f_equal.
    apply Hv; [reflexivity|discriminate].
  - destruct (response_carries_request_id Sample.queries (fun _ => None)
                Sample.env Sample.rnd (Some Server.GetUserByID) false ""
                Sample.untraced Sample.two_users eq_refl)
      as (rid & Hh & _ & _ & _ & Hg).
    unfold Sample.found. simpl fmap in Hh. rewrite Hh. f_equal.
    destruct Hg as (_ & -> & _); [left; reflexivity|]. reflexivity.
Defined.

(** C6, the claim as written fails for the requests the router answers
    itself. GET /ping/ matches no route, but /ping does: the engine
    redirects to it with 301 before any middleware has run, and the
    response has no X-Request-ID header and the request no [RequestID]
    key; the same holds, with 307, for PUT /api/v1/users/1/. And when
    crypto/rand fails, the id generated for every request is the same
    "req-abcdefgh". *)
Lemma redirect_carries_no_request_id :
  let get := Server.ServeHTTP Sample.rnd (Sample.slash "/ping")
               (Sample.request "GET" "/ping/" "" [] "") Sample.two_users in
  let put := Server.ServeHTTP Sample.rnd (Sample.slash "/api/v1/users/1")
               (Sample.request "PUT" "/api/v1/users/1/" "" []
                  "bobby,bobby@example.com")
               Sample.two_users in
  gin.status (gin.Writer get) = 301
  /\ gin.written (gin.Writer get) = true
  /\ gin.header (gin.Writer get) !! "Location" = Some "/ping"
  /\ gin.header (gin.Writer get) !! "X-Request-ID" = None
  /\ gin.Keys get !! "RequestID" = None
  /\ gin.status (gin.Writer put) = 307
  /\ gin.header (gin.Writer put) !! "X-Request-ID" = None
  /\ gin.world put = Sample.two_users
  /\ middleware.generateRequestID (middleware.mkRand true (fun _ => Byte.x00))
     = middleware.generateRequestID (middleware.mkRand true (fun _ => Byte.xff)).
Proof. repeat split; vm_compute; reflexivity. Qed.

(** ** The store stays in order *)

Section StoreFacts.
Variable no_rows : error.

Lemma store_ok_seq_step (d : pg.DB) :
  store_ok d -> store_ok (pg.mkDB (pg.rows d) (pg.users_id_seq d + 1)).
Proof.
  intros (Hnd & Hseq & Hall). unfold store_ok. simpl.
  split; [exact Hnd|]. split; [lia|].
  eapply Forall_impl; [exact Hall|]. intros r [? ?]. simpl in *.
  split; [lia|assumption].
Qed.

Lemma store_ok_CreateUser (p : repository.CreateUserParams) (d : pg.DB) :
  pgtype.Valid (repository.cCreatedAt p) = true ->
  store_ok d -> store_ok (snd (pg.CreateUser p d)).
Proof.
  intros Hv Hok. unfold pg.CreateUser.
  destruct (maxInt32 <? _); [exact Hok|].
  destruct (existsb (pg.has_id _) _); [apply store_ok_seq_step, Hok|].
  destruct (existsb (pg.has_username _) _); [apply store_ok_seq_step, Hok|].
  destruct (existsb (pg.has_email _) _); [apply store_ok_seq_step, Hok|].
  simpl. apply store_ok_insert; auto.
Qed.

Lemma store_ok_map (f : repository.User -> repository.User) (d : pg.DB) :
  (forall r, repository.ID (f r) = repository.ID r) ->
  (forall r, repository.CreatedAt (f r) = repository.CreatedAt r) ->
  store_ok d -> store_ok (pg.mkDB (map f (pg.rows d)) (pg.users_id_seq d)).
Proof.
  intros Hid Hcr (Hnd & Hseq & Hall). unfold store_ok. simpl.
  split; [|split; [exact Hseq|]].
  - rewrite map_map. rewrite (map_ext _ repository.ID) by exact Hid. exact Hnd.
  - apply Forall_forall. intros r' Hr'.
    apply list_elem_of_fmap in Hr' as (r & -> & Hr).
    rewrite Forall_forall in Hall. rewrite Hid, Hcr. apply Hall, Hr.
Qed.

Lemma store_ok_UpdateUser (p : repository.UpdateUserParams) (d : pg.DB) :
  store_ok d -> store_ok (snd (pg.UpdateUser p d)).
Proof.
  intros Hok. unfold pg.UpdateUser.
  destruct (negb _); [exact Hok|].
  destruct (existsb (pg.has_username _) _); [exact Hok|].
  destruct (existsb (pg.has_email _) _); [exact Hok|].
  simpl. apply store_ok_map; [apply set_user_id|apply set_user_created|exact Hok].
Qed.

Lemma store_ok_UpdatePassword (p : repository.UpdatePasswordParams) (d : pg.DB) :
  store_ok d -> store_ok (snd (pg.UpdatePassword p d)).
Proof.
  intros Hok. unfold pg.UpdatePassword. simpl.
  apply store_ok_map; [| |exact Hok];
    intros r; unfold pg.set_password; destruct (pg.has_id _ r); reflexivity.
Qed.

Lemma store_ok_DeleteUser (id : Z) (d : pg.DB) :
  store_ok d -> store_ok (snd (pg.DeleteUser id d)).
Proof.
  intros (Hnd & Hseq & Hall). unfold pg.DeleteUser, store_ok. simpl.
  split; [|split; [exact Hseq|]].
  - induction (pg.rows d) as [|r l IH]; [constructor|]. simpl in *.
    apply NoDup_cons in Hnd as [Hr Hl]. apply Forall_cons in Hall as [_ Hall].
    destruct (negb (pg.has_id id r)); [|apply IH; assumption].
    simpl. apply NoDup_cons. split; [|apply IH; assumption].
    intros Hin. apply Hr.
    apply list_elem_of_fmap in Hin as (x & -> & Hx).
    apply list_elem_of_fmap. exists x. split; [reflexivity|].
    apply list_elem_of_In in Hx. apply filter_In in Hx as [Hx _].
    apply list_elem_of_In, Hx.
  - apply Forall_forall. intros r Hr. rewrite Forall_forall in Hall.
    apply Hall. apply list_elem_of_In in Hr. apply filter_In in Hr as [Hr _].
    apply list_elem_of_In, Hr.
Qed.

(** The empty store a fresh database starts with is in order. *)
Lemma store_ok_empty : store_ok (pg.mkDB [] 1).
Proof.
  unfold store_ok. simpl. split; [constructor|]. split; [lia|constructor].
Qed.

End StoreFacts.

(** ** The route table *)

(** No route is registered for OPTIONS: a preflight always takes the
    no-route path, where the chain still runs. *)
Lemma setupRoutes_has_no_OPTIONS :
  Forall (fun r => r.1.1 <> "OPTIONS") Server.setupRoutes.
Proof. repeat (constructor; [discriminate|]). constructor. Qed.

(** ** The code on small inputs *)

Example Atoi_42 : strconv.Atoi "42" = Ok 42.
Proof. reflexivity. Qed.

Example Atoi_minus_5 : strconv.Atoi "-5" = Ok (-5).
Proof. reflexivity. Qed.

Example Atoi_plus_7 : strconv.Atoi "+7" = Ok 7.
Proof. reflexivity. Qed.

Example Atoi_sign_only :
  strconv.Atoi "-" = Err (NumError "Atoi" "-" "invalid syntax").
Proof. reflexivity. Qed.

Example Atoi_out_of_range :
  strconv.Atoi "9223372036854775808"
  = Err (NumError "Atoi" "9223372036854775808" "value out of range").
Proof. reflexivity. Qed.

Example limit_0_is_1 : UserHandler.parseIntQuery "0" 10 1 100 = Ok 1.
Proof. reflexivity. Qed.

Example limit_500_is_100 : UserHandler.parseIntQuery "500" 10 1 100 = Ok 100.
Proof. reflexivity. Qed.

Example offset_minus_5_is_0 : UserHandler.parseIntQuery "-5" 0 0 1000000 = Ok 0.
Proof. reflexivity. Qed.

Example parseUserID_wraps : UserHandler.parseUserID "4294967297" = Ok 1.
Proof. reflexivity. Qed.

Example generated_id_fallback :
  middleware.generateRequestID (middleware.mkRand true (fun _ => Byte.x00))
  = "req-abcdefgh".
Proof. reflexivity. Qed.

Example generated_id_hex :
  middleware.generateRequestID Sample.rnd = "req-03142536".
Proof. reflexivity. Qed.

(** The scenario of the README: create, create again, delete, read. *)
Example create_twice_then_delete :
  let post := Sample.request "POST" "/api/v1/users" ""
                [] "johndoe,john@example.com,password123" in
  let h := fun e => Sample.found (Server.handler Sample.queries
                                    (fun _ => None) Sample.env e) in
  let c1 := Server.ServeHTTP Sample.rnd (h Server.CreateUser) post Sample.empty in
  let c2 := Server.ServeHTTP Sample.rnd (h Server.CreateUser) post (gin.world c1) in
  let c3 := Server.ServeHTTP Sample.rnd (h Server.DeleteUser)
              (Sample.request "DELETE" "/api/v1/users/1" "1" [] "")
              (gin.world c2) in
  gin.status (gin.Writer c1) = 201
  /\ gin.status (gin.Writer c2) = 409
  /\ gin.body (gin.Writer c2)
     = [UserHandler.Err1 "User with this email already exists"]
  /\ gin.status (gin.Writer c3) = 200
  /\ pg.rows (UserRepository.db (gin.world c3)) = [].
Proof. repeat split; vm_compute; reflexivity. Qed.

(* ===================================================================== *)
(** * Further properties of the repository, the handlers and the pipeline *)
(* ===================================================================== *)

(** ** UserRepository on the users table *)

Section MoreTableFacts.
Variable no_rows : error.
Implicit Types (w : UserRepository.World pg.DB).

Lemma UpdatePassword_spec userID hashed (now : time.Time) w :
  UserRepository.UpdatePassword (pg.queries no_rows) userID hashed now w
  = (None,
     UserRepository.mkWorld
       (pg.mkDB (map (pg.set_password
                        (repository.mkUpdatePasswordParams userID hashed
                           (pgtype.mkTimestamptz now true)))
                     (pg.rows (UserRepository.db w)))
                (pg.users_id_seq (UserRepository.db w)))
       (UserRepository.calls w
        ++ [UserRepository.CallUpdatePassword userID hashed])).
Proof.
  unfold UserRepository.UpdatePassword. rewrite run_spec. reflexivity.
Qed.

Lemma map_id_on {A : Type} (f : A -> A) (l : list A) :
  Forall (fun x => f x = x) l -> map f l = l.
Proof. induction 1 as [|x l Hx _ IH]; simpl; congruence. Qed.

Lemma find_none_iff (id : Z) (l : list repository.User) :
  find (pg.has_id id) l = None <->
  Forall (fun r => repository.ID r <> id) l.
Proof.
  induction l as [|r l IH]; simpl.
  - split; [constructor|reflexivity].
  - unfold pg.has_id at 1. destruct (repository.ID r =? id) eqn:E.
    + apply Z.eqb_eq in E. split; [discriminate|].
      intros H. apply Forall_cons in H as [H _]. contradiction.
    + apply Z.eqb_neq in E. rewrite IH. split.
      * intros H. constructor; assumption.
      * intros H. apply Forall_cons in H as [_ H]. exact H.
Qed.

Lemma find_some_id (id : Z) (l : list repository.User) (r : repository.User) :
  find (pg.has_id id) l = Some r -> r ∈ l /\ repository.ID r = id.
Proof.
  intros H. apply find_some in H as [Hin Hid].
  split; [apply list_elem_of_In, Hin|apply Z.eqb_eq, Hid].
Qed.

Lemma GetUserByID_spec (id : Z) w :
  UserRepository.GetUserByID (pg.queries no_rows) id w
  = (match find (pg.has_id id) (pg.rows (UserRepository.db w)) with
     | Some r => Ok (UserRepository.sqlcUserToModelUser r)
     | None => Err no_rows
     end,
     UserRepository.mkWorld (UserRepository.db w)
       (UserRepository.calls w ++ [UserRepository.CallGetUserByID id])).
Proof.
  unfold UserRepository.GetUserByID. rewrite run_spec. simpl.
  unfold pg.GetUserByID.
  destruct (find _ _); simpl; [reflexivity|].
  destruct (decide (no_rows = ErrNoRows)) as [->|]; reflexivity.
Qed.

Lemma GetUserByEmail_spec (email : string) w :
  UserRepository.GetUserByEmail (pg.queries no_rows) email w
  = (match find (pg.has_email email) (pg.rows (UserRepository.db w)) with
     | Some r => Ok (UserRepository.sqlcUserToModelUser r)
     | None => Err no_rows
     end,
     UserRepository.mkWorld (UserRepository.db w)
       (UserRepository.calls w ++ [UserRepository.CallGetUserByEmail email])).
Proof.
  unfold UserRepository.GetUserByEmail. rewrite run_spec. simpl.
  unfold pg.GetUserByEmail.
  destruct (find _ _); simpl; [reflexivity|].
  destruct (decide (no_rows = ErrNoRows)) as [->|]; reflexivity.
Qed.

Lemma DeleteUser_spec (id : Z) w :
  UserRepository.DeleteUser (pg.queries no_rows) id w
  = (None,
     UserRepository.mkWorld
       (pg.mkDB (List.filter (fun r => negb (pg.has_id id r))
                   (pg.rows (UserRepository.db w)))
                (pg.users_id_seq (UserRepository.db w)))
       (UserRepository.calls w ++ [UserRepository.CallDeleteUser id])).
Proof. unfold UserRepository.DeleteUser. rewrite run_spec. reflexivity. Qed.

Lemma find_filter_same (id : Z) (l : list repository.User) :
  find (pg.has_id id) (List.filter (fun r => negb (pg.has_id id r)) l) = None.
Proof.
  induction l as [|r l IH]; [reflexivity|]. simpl.
  destruct (pg.has_id id r) eqn:E; simpl; [exact IH|].
  rewrite E. exact IH.
Qed.

Lemma find_filter_other (id id' : Z) (l : list repository.User) :
  id' <> id ->
  find (pg.has_id id') (List.filter (fun r => negb (pg.has_id id r)) l)
  = find (pg.has_id id') l.
Proof.
  intros Hne. induction l as [|r l IH]; [reflexivity|]. simpl.
  destruct (pg.has_id id r) eqn:E; simpl.
  - unfold pg.has_id in E. apply Z.eqb_eq in E.
    assert (pg.has_id id' r = false) as ->
      by (unfold pg.has_id; apply Z.eqb_neq; congruence).
    exact IH.
  - destruct (pg.has_id id' r); [reflexivity|exact IH].
Qed.

Lemma length_filter_one (id : Z) (l : list repository.User) :
  NoDup (map repository.ID l) ->
  length (List.filter (fun r => negb (pg.has_id id r)) l)
  = (length l - (if existsb (pg.has_id id) l then 1 else 0))%nat.
Proof.
  induction l as [|r l IH]; [reflexivity|]. simpl. intros Hnd.
  apply NoDup_cons in Hnd as [Hr Hnd]. specialize (IH Hnd).
  destruct (pg.has_id id r) eqn:E; simpl.
  - unfold pg.has_id in E. apply Z.eqb_eq in E.
    assert (existsb (pg.has_id id) l = false) as Hno.
    { apply existsb_has_id_false. apply Forall_forall. intros x Hx Heq.
      apply Hr. apply list_elem_of_fmap. exists x. split; [congruence|exact Hx]. }
    rewrite Hno in IH. rewrite IH. lia.
  - rewrite IH. destruct (existsb (pg.has_id id) l) eqn:Ex; [|lia].
    destruct l as [|x l']; [discriminate|]. simpl. lia.
Qed.

End MoreTableFacts.

(** X1. UpdatePassword never reports an error, not even when no row has
    the id. It writes the password and the updated-at of the rows with
    that id and nothing else: the table keeps its length and order, every
    row keeps its id, username, email and created-at, and a row with
    another id is unchanged; so with no row of that id the table is as it
    was. *)
Theorem UpdatePassword_writes_password_only
    (no_rows : error) (userID : Z) (hashed : string) (now : time.Time)
    (w : UserRepository.World pg.DB) :
  let out := UserRepository.UpdatePassword (pg.queries no_rows)
               userID hashed now w in
  let old := pg.rows (UserRepository.db w) in
  let new := pg.rows (UserRepository.db (snd out)) in
  fst out = None
  /\ pg.users_id_seq (UserRepository.db (snd out))
     = pg.users_id_seq (UserRepository.db w)
  /\ length new = length old
  /\ (forall (i : nat) (r : repository.User),
        old !! i = Some r ->
        exists r', new !! i = Some r'
          /\ repository.ID r' = repository.ID r
          /\ repository.Username r' = repository.Username r
          /\ repository.Email r' = repository.Email r
          /\ repository.CreatedAt r' = repository.CreatedAt r
          /\ (repository.ID r <> userID -> r' = r)
          /\ (repository.ID r = userID ->
              repository.Password r' = hashed
              /\ repository.UpdatedAt r' = pgtype.mkTimestamptz now true))
  /\ (Forall (fun r => repository.ID r <> userID) old -> new = old).
Proof.
  cbv zeta. rewrite UpdatePassword_spec. simpl.
  split; [reflexivity|]. split; [reflexivity|]. split; [apply length_map|].
  split.
  - intros i r Hr. eexists. rewrite lookup_map, Hr. split; [reflexivity|].
    unfold pg.set_password, pg.has_id. simpl.
    destruct (repository.ID r =? userID) eqn:E; simpl.
    + apply Z.eqb_eq in E. repeat split; auto. intros; contradiction.
    + apply Z.eqb_neq in E. repeat split; auto; intros; contradiction.
  - intros Hall. apply map_id_on. eapply Forall_impl; [exact Hall|].
    intros r Hr. unfold pg.set_password, pg.has_id. simpl.
    apply Z.eqb_neq in Hr. rewrite Hr. reflexivity.
Qed.

Lemma UpdatePassword_writes_password_only_witness :
  let out := UserRepository.UpdatePassword Sample.queries 2 "$2a$new" 1000
               Sample.two_users in
  fst out = None
  /\ (exists r', pg.rows (UserRepository.db (snd out)) !! 1%nat = Some r'
        /\ repository.Password r' = "$2a$new"
        /\ repository.Email r' = "bob@example.com")
  /\ pg.rows (UserRepository.db
       (snd (UserRepository.UpdatePassword Sample.queries 999 "$2a$new" 1000
               Sample.two_users)))
     = pg.rows (UserRepository.db Sample.two_users).
Proof.
  intros out.
  destruct (UpdatePassword_writes_password_only Sample.no_rows 2 "$2a$new"
              1000 Sample.two_users) as (He & _ & _ & Hrow & _).
  destruct (UpdatePassword_writes_password_only Sample.no_rows 999 "$2a$new"
              1000 Sample.two_users) as (_ & _ & _ & _ & Hmiss).
  split; [exact He|]. split.
  - destruct (Hrow 1%nat Sample.bob eq_refl)
      as (r' & Hr' & _ & _ & Hem & _ & _ & Hpw).
    exists r'. split; [exact Hr'|]. split; [apply Hpw; reflexivity|exact Hem].
  - apply Hmiss. repeat constructor; simpl; lia.
Defined.

Lemma existsb_find {A : Type} (f : A -> bool) (l : list A) :
  existsb f l = match find f l with Some _ => true | None => false end.
Proof.
  induction l as [|x l IH]; [reflexivity|]. simpl.
  destruct (f x); [reflexivity|exact IH].
Qed.

(** X2. UserExists and GetUserByEmail agree: UserExists never fails, it
    answers true exactly when GetUserByEmail finds a user, who then has
    that email, and false exactly when GetUserByEmail returns the query
    layer's no-rows error. Neither changes the database. *)
Theorem UserExists_agrees_with_GetUserByEmail
    (no_rows : error) (email : string) (w : UserRepository.World pg.DB) :
  exists b : bool,
    fst (UserRepository.UserExists (pg.queries no_rows) email w) = Ok b
    /\ (b = true <->
        exists u, fst (UserRepository.GetUserByEmail (pg.queries no_rows)
                         email w) = Ok u
                  /\ model.Email u = email)
    /\ (b = false <->
        fst (UserRepository.GetUserByEmail (pg.queries no_rows) email w)
        = Err no_rows)
    /\ UserRepository.db
         (snd (UserRepository.UserExists (pg.queries no_rows) email w))
       = UserRepository.db w
    /\ UserRepository.db
         (snd (UserRepository.GetUserByEmail (pg.queries no_rows) email w))
       = UserRepository.db w.
Proof.
  exists (existsb (pg.has_email email) (pg.rows (UserRepository.db w))).
  rewrite GetUserByEmail_spec.
  unfold UserRepository.UserExists. rewrite run_spec. simpl.
  rewrite existsb_find.
  destruct (find (pg.has_email email) (pg.rows (UserRepository.db w)))
    as [r|] eqn:E.
  - apply find_some in E as [_ Hr]. apply String.eqb_eq in Hr.
    split; [reflexivity|]. split; [|split; [|auto]].
    + split; [|reflexivity]. intros _. eexists. split; [reflexivity|exact Hr].
    + split; discriminate.
  - split; [reflexivity|]. split; [|split; [|auto]].
    + split; [discriminate|]. intros (u & Hu & _). discriminate.
    + split; reflexivity.
Qed.

(** X3. CountUsers is the length of what GetAllUsers returns, which is
    the number of rows, and no page is longer than what the listing has
    left after the offset: an offset at or beyond the total gives an
    empty page, not an error. *)
Theorem CountUsers_counts_the_listing
    (no_rows : error) (w : UserRepository.World pg.DB) :
  exists users : list model.User,
    fst (UserRepository.GetAllUsers (pg.queries no_rows) w) = Ok users
    /\ fst (UserRepository.CountUsers (pg.queries no_rows) w)
       = Ok (Z.of_nat (length users))
    /\ length users = length (pg.rows (UserRepository.db w))
    /\ forall (limit offset : Z) (page : list model.User),
         fst (UserRepository.GetUsersWithPagination (pg.queries no_rows)
                limit offset w) = Ok page ->
         (length page <= length users - Z.to_nat offset)%nat
         /\ (Z.of_nat (length users) <= offset -> page = []).
Proof.
  exists (listing w).
  assert (length (listing w) = length (pg.rows (UserRepository.db w))) as Hlen.
  { unfold listing. rewrite !length_map.
    apply Permutation_length, order_by_perm. }
  split; [apply GetAllUsers_listing|]. split.
  { unfold UserRepository.CountUsers. rewrite run_spec. simpl.
    rewrite Hlen. reflexivity. }
  split; [exact Hlen|].
  intros limit offset page Hpage.
  assert (0 <= limit /\ 0 <= offset) as [Hl Ho].
  { revert Hpage. unfold UserRepository.GetUsersWithPagination.
    rewrite run_spec. simpl. unfold pg.GetUsersWithPagination. simpl.
    destruct (limit <? 0) eqn:E1; [discriminate|].
    destruct (offset <? 0) eqn:E2; [discriminate|].
    apply Z.ltb_ge in E1, E2. auto. }
  rewrite (GetUsersWithPagination_window no_rows limit offset w Hl Ho) in Hpage.
  injection Hpage as <-. split.
  - rewrite length_take, length_drop. lia.
  - intros Hbig. rewrite drop_ge by lia. apply take_nil.
Qed.

(** X4. The two listing methods hand out no password, whatever the query
    layer returns: every user of GetAllUsers and of a page has the empty
    password. *)
Theorem listings_carry_no_password
    {DB : Type} (queries : repository.Queries DB)
    (w : UserRepository.World DB) (limit offset : Z) :
  (forall users, fst (UserRepository.GetAllUsers queries w) = Ok users ->
     Forall (fun u => model.Password u = "") users)
  /\ (forall page,
        fst (UserRepository.GetUsersWithPagination queries limit offset w)
        = Ok page ->
        Forall (fun u => model.Password u = "") page).
Proof.
  assert (forall rows : list repository.ListRow,
            Forall (fun u => model.Password u = "")
                   (map UserRepository.listRowToModelUser rows)) as Hmap.
  { intros rows. induction rows; constructor; [reflexivity|assumption]. }
  split.
  - intros users. unfold UserRepository.GetAllUsers. rewrite run_spec.
    cbv beta iota zeta.
    destruct (fst (repository.GetAllUsers queries (UserRepository.db w)));
      [|discriminate]. intros [= <-]. apply Hmap.
  - intros page. unfold UserRepository.GetUsersWithPagination.
    rewrite run_spec. cbv beta iota zeta.
    destruct (fst (repository.GetUsersWithPagination queries _
                     (UserRepository.db w))); [|discriminate].
    intros [= <-]. apply Hmap.
Qed.

Lemma listings_carry_no_password_witness :
  exists users,
    fst (UserRepository.GetAllUsers Sample.queries Sample.two_users) = Ok users
    /\ Forall (fun u => model.Password u = "") users.
Proof.
  eexists. split; [reflexivity|].
  apply (proj1 (listings_carry_no_password Sample.queries Sample.two_users 5 0)).
  reflexivity.
Defined.

Lemma find_unique (l : list repository.User) (r : repository.User) :
  NoDup (map repository.ID l) -> r ∈ l ->
  find (pg.has_id (repository.ID r)) l = Some r.
Proof.
  induction l as [|x l IH]; intros Hnd Hin; [inversion Hin|].
  simpl in *. apply NoDup_cons in Hnd as [Hx Hnd].
  unfold pg.has_id at 1.
  destruct (repository.ID x =? repository.ID r) eqn:E.
  - apply Z.eqb_eq in E. apply elem_of_cons in Hin as [->|Hin];
      [reflexivity|].
    exfalso. apply Hx. apply list_elem_of_fmap. exists r. auto.
  - apply Z.eqb_neq in E. apply elem_of_cons in Hin as [->|Hin];
      [congruence|]. apply IH; assumption.
Qed.

(** X5. On a table whose ids are distinct, GetUserByID finds every row
    by its id and returns its columns, the stored password included, a
    timestamp that is not valid (NULL) read as the zero time; for an id
    no row has it returns the query layer's no-rows error. It never
    changes the database. *)
Theorem GetUserByID_finds_each_row
    (no_rows : error) (w : UserRepository.World pg.DB) :
  NoDup (map repository.ID (pg.rows (UserRepository.db w))) ->
  (forall r, r ∈ pg.rows (UserRepository.db w) ->
     fst (UserRepository.GetUserByID (pg.queries no_rows)
            (repository.ID r) w)
     = Ok (model.mkUser (repository.ID r) (repository.Username r)
             (repository.Email r) (repository.Password r)
             (if pgtype.Valid (repository.CreatedAt r)
              then pgtype.Time (repository.CreatedAt r) else time.zero)
             (if pgtype.Valid (repository.UpdatedAt r)
              then pgtype.Time (repository.UpdatedAt r) else time.zero)))
  /\ (forall id,
        Forall (fun r => repository.ID r <> id) (pg.rows (UserRepository.db w)) ->
        fst (UserRepository.GetUserByID (pg.queries no_rows) id w)
        = Err no_rows)
  /\ (forall id,
        UserRepository.db
          (snd (UserRepository.GetUserByID (pg.queries no_rows) id w))
        = UserRepository.db w).
Proof.
  intros Hnd. split; [|split].
  - intros r Hr. rewrite GetUserByID_spec. simpl.
    rewrite (find_unique _ r Hnd Hr). reflexivity.
  - intros id Hid. rewrite GetUserByID_spec. simpl.
    apply find_none_iff in Hid. rewrite Hid. reflexivity.
  - intros id. rewrite GetUserByID_spec. reflexivity.
Qed.

Lemma GetUserByID_finds_each_row_witness :
  let carol := repository.mkUser 3 "carol" "carol@example.com" "$2a$hash3"
                 (Sample.at_ 300) (pgtype.mkTimestamptz 77 false) in
  let w := UserRepository.mkWorld
             (pg.mkDB [Sample.john; Sample.bob; carol] 4) [] in
  fst (UserRepository.GetUserByID Sample.queries 3 w)
  = Ok (model.mkUser 3 "carol" "carol@example.com" "$2a$hash3" 300 time.zero).
Proof.
  intros carol w.
  assert (NoDup (map repository.ID (pg.rows (UserRepository.db w)))) as Hnd
    by (apply (bool_decide_unpack _); vm_compute; exact I).
  destruct (GetUserByID_finds_each_row Sample.no_rows w Hnd) as (Hfind & _ & _).
  apply (Hfind carol).
  do 2 (apply elem_of_cons; right). apply elem_of_cons. left. reflexivity.
Defined.

(** X6. DeleteUser never reports an error. Afterwards GetUserByID of the
    deleted id returns the no-rows error and GetUserByID of any other id
    returns what it returned before; on a store in order the number of
    rows drops by one when a row had the id and stays when none had, and
    the store stays in order. *)
Theorem DeleteUser_then_GetUserByID
    (no_rows : error) (id : Z) (w : UserRepository.World pg.DB) :
  store_ok (UserRepository.db w) ->
  let out := UserRepository.DeleteUser (pg.queries no_rows) id w in
  fst out = None
  /\ fst (UserRepository.GetUserByID (pg.queries no_rows) id (snd out))
     = Err no_rows
  /\ (forall id', id' <> id ->
        fst (UserRepository.GetUserByID (pg.queries no_rows) id' (snd out))
        = fst (UserRepository.GetUserByID (pg.queries no_rows) id' w))
  /\ length (pg.rows (UserRepository.db (snd out)))
     = (length (pg.rows (UserRepository.db w))
        - (if existsb (pg.has_id id) (pg.rows (UserRepository.db w))
           then 1 else 0))%nat
  /\ store_ok (UserRepository.db (snd out)).
Proof.
  intros Hok. cbv zeta. rewrite DeleteUser_spec. simpl.
  split; [reflexivity|]. split; [|split; [|split]].
  - rewrite GetUserByID_spec. simpl. rewrite find_filter_same. reflexivity.
  - intros id' Hne. rewrite !GetUserByID_spec. simpl.
    rewrite (find_filter_other id id' _ Hne). reflexivity.
  - apply length_filter_one, Hok.
  - apply (store_ok_DeleteUser id _ Hok).
Qed.

Lemma DeleteUser_then_GetUserByID_witness :
  let out := UserRepository.DeleteUser Sample.queries 1 Sample.two_users in
  fst (UserRepository.GetUserByID Sample.queries 1 (snd out))
  = Err Sample.no_rows
  /\ length (pg.rows (UserRepository.db (snd out))) = 1%nat.
Proof.
  assert (store_ok (UserRepository.db Sample.two_users)) as Hok.
  { unfold store_ok. simpl. split; [|split; [lia|]].
    - apply (bool_decide_unpack _). vm_compute. exact I.
    - repeat constructor; simpl; lia. }
  destruct (DeleteUser_then_GetUserByID Sample.no_rows 1 Sample.two_users Hok)
    as (_ & Hget & _ & Hlen & _).
  split; [exact Hget|exact Hlen].
Defined.

(** X7. UpdateUser on an id no row has is not an error: the repository
    returns nil, stamps the caller's user with the time of the call as if
    it had been updated, and the table is as it was. *)
Theorem UpdateUser_of_missing_id_succeeds
    (no_rows : error) (user : model.User) (now : time.Time)
    (w : UserRepository.World pg.DB) :
  Forall (fun r => repository.ID r <> model.ID user)
         (pg.rows (UserRepository.db w)) ->
  let out := UserRepository.UpdateUser (pg.queries no_rows) user now w in
  snd (fst out) = None
  /\ model.UpdatedAt (fst (fst out)) = now
  /\ UserRepository.db (snd out) = UserRepository.db w.
Proof.
  intros Hmiss. cbv zeta.
  unfold UserRepository.UpdateUser. rewrite run_spec. cbv beta iota zeta.
  simpl repository.UpdateUser. unfold pg.UpdateUser. simpl repository.uID.
  rewrite (existsb_has_id_false _ _ Hmiss). simpl. auto.
Qed.

Lemma UpdateUser_of_missing_id_succeeds_witness :
  let out := UserRepository.UpdateUser Sample.queries
               (model.mkUser 999 "ghost" "ghost@example.com" ""
                  time.zero time.zero) 1000 Sample.two_users in
  snd (fst out) = None
  /\ UserRepository.db (snd out) = UserRepository.db Sample.two_users.
Proof.
  intros out.
  destruct (UpdateUser_of_missing_id_succeeds Sample.no_rows
              (model.mkUser 999 "ghost" "ghost@example.com" ""
                 time.zero time.zero) 1000 Sample.two_users)
    as (He & _ & Hdb).
  - repeat constructor; simpl; lia.
  - split; [exact He|exact Hdb].
Defined.

Lemma UserExists_agrees_with_GetUserByEmail_witness :
  fst (UserRepository.UserExists Sample.queries "bob@example.com"
         Sample.two_users) = Ok true
  /\ fst (UserRepository.GetUserByEmail Sample.queries "nobody@example.com"
            Sample.two_users) = Err Sample.no_rows.
Proof.
  unfold Sample.queries.
  destruct (UserExists_agrees_with_GetUserByEmail Sample.no_rows
              "bob@example.com" Sample.two_users) as (b & Hb & Ht & _).
  destruct (UserExists_agrees_with_GetUserByEmail Sample.no_rows
              "nobody@example.com" Sample.two_users) as (b' & Hb' & _ & Hf & _).
  split.
  - rewrite Hb. f_equal. apply Ht. eexists. split; reflexivity.
  - apply Hf. injection Hb' as <-. reflexivity.
Defined.

Lemma CountUsers_counts_the_listing_witness :
  fst (UserRepository.CountUsers Sample.queries Sample.ten_users) = Ok 10
  /\ forall page,
       fst (UserRepository.GetUsersWithPagination Sample.queries 5 10
              Sample.ten_users) = Ok page -> page = [].
Proof.
  unfold Sample.queries.
  destruct (CountUsers_counts_the_listing Sample.no_rows Sample.ten_users)
    as (users & _ & Hcount & Hlen & Hpage).
  split.
  - rewrite Hcount, Hlen. reflexivity.
  - intros page Hp. apply (Hpage 5 10 page Hp). rewrite Hlen. simpl. lia.
Defined.

(** ** The handlers, whatever the query layer *)

Section MoreHandlerFacts.
Context {DB : Type} (userRepo : repository.Queries DB)
        (pool_Ping : DB -> option error) (env : UserHandler.Env).
Implicit Types (c : gin.Context (UserRepository.World DB)).

(** A handler answers with one [c.JSON] whose status, body and effect on
    the repository's world depend on the request and on that world only. *)
Lemma handler_same (e : Server.Endpoint) next1 next2 c1 c2 :
  gin.request c1 = gin.request c2 -> gin.world c1 = gin.world c2 ->
  exists (code : Z) (obj : gin.json) (w' : UserRepository.World DB),
    0 < code /\ gin.bodyAllowedForStatus code = true
    /\ Server.handler userRepo pool_Ping env e next1 c1
       = gin.JSON code obj (gin.set_world w' c1)
    /\ Server.handler userRepo pool_Ping env e next2 c2
       = gin.JSON code obj (gin.set_world w' c2).
Proof.
  destruct c1 as [r1 k1 wr1 e1 i1 w1], c2 as [r2 k2 wr2 e2 i2 w2].
  simpl. intros <- <-.
  destruct e; unfold Server.handler;
    unfold HealthHandler.Ping, HealthHandler.HealthCheck,
           HealthHandler.Readiness, HealthHandler.Liveness,
           UserHandler.CreateUser, UserHandler.GetAllUsers,
           UserHandler.GetUsersWithPagination, UserHandler.GetUserByID,
           UserHandler.UpdateUser, UserHandler.DeleteUser,
           gin.Param, gin.Query;
    cbn [gin.request gin.world gin.set_world];
    repeat (match goal with
            | |- context [match ?x with _ => _ end] => destruct x
            end; cbn [gin.request gin.world gin.set_world]);
    eexists _, _, _; (split; [|split; [|split; reflexivity]]);
    [lia|reflexivity..].
Qed.

End MoreHandlerFacts.

(** ** The request pipeline, stage by stage *)

Section StageFacts.
Context {W : Type}.
Implicit Types (c : gin.Context W) (m : @gin.HandlerFunc W).

Lemma loop_continue (n : Z) m (rest : list (@gin.HandlerFunc W)) c :
  gin.loop n (m :: rest) c = continue n rest (m (continue n rest) c).
Proof. reflexivity. Qed.

Lemma continue_nil (n : Z) c : continue n [] c = gin.incr c.
Proof. unfold continue. destruct (_ <? n); reflexivity. Qed.

Lemma continue_cons (n : Z) m (rest : list (@gin.HandlerFunc W)) c :
  gin.index c + 1 < n ->
  continue n (m :: rest) c
  = continue n rest (m (continue n rest) (gin.incr c)).
Proof.
  intros H. unfold continue at 1.
  destruct (gin.index c + 1 <? n) eqn:E; [|apply Z.ltb_ge in E; lia].
  apply loop_continue.
Qed.

Lemma answered_continue (n : Z) (rest : list (@gin.HandlerFunc W))
    (wr : gin.ResponseWriter) (w' : W) c :
  answered n wr w' c -> answered n wr w' (continue n rest c).
Proof.
  intros (Hwr & Hw & He & Hi). unfold continue.
  destruct (gin.index c + 1 <? n) eqn:E; [apply Z.ltb_lt in E; lia|].
  unfold answered. simpl. repeat split; auto. lia.
Qed.

(** One stage of the chain: if the stage passes the request down and
    the rest of the chain answers it, the chain from this stage on
    answers it. *)
Lemma continue_stage (n : Z) m (rest : list (@gin.HandlerFunc W))
    (P P' : gin.Context W -> Prop) (wr : gin.ResponseWriter) (w' : W)
    (i : Z) c :
  stage P P' (answered n wr w') m ->
  (forall c, P c -> P (gin.incr c)) ->
  P c -> gin.index c = i -> i + 1 < n ->
  (forall c', P' c' -> gin.index c' = i + 1 ->
              answered n wr w' (continue n rest c')) ->
  answered n wr w' (continue n (m :: rest) c).
Proof.
  intros Hm Hincr Hp Hi Hn Hrest.
  rewrite continue_cons by lia.
  destruct (Hm (continue n rest) (gin.incr c) (Hincr c Hp))
    as (c' & Hp' & Hi' & Hq).
  apply answered_continue, Hq, Hrest; [exact Hp'|].
  rewrite Hi'. simpl. lia.
Qed.

Lemma unanswered_incr (req : gin.Request) (w : W) (st : Z)
    (hdr : gmap string string) c :
  unanswered req w st hdr c -> unanswered req w st hdr (gin.incr c).
Proof. intros H. exact H. Qed.

Lemma Header_unanswered (req : gin.Request) (w : W) (st : Z)
    (hdr : gmap string string) (k v : string) c :
  String.eqb v "" = false ->
  unanswered req w st hdr c ->
  unanswered req w st (<[k := v]> hdr) (gin.Header k v c)
  /\ gin.index (gin.Header k v c) = gin.index c.
Proof.
  intros Hv (Hr & Hw & He & Hwr). unfold gin.Header. rewrite Hwr. simpl.
  rewrite Hv. unfold unanswered. simpl. auto.
Qed.

Lemma RequestID_stage (rnd : middleware.Rand) (req : gin.Request) (w : W)
    (st : Z) (Q : gin.Context W -> Prop) :
  stage (unanswered req w st ∅)
        (unanswered req w st (<["X-Request-ID" := correlation_id rnd req]> ∅))
        Q (middleware.RequestID rnd).
Proof.
  intros next c Hp. pose proof Hp as (Hr & _).
  unfold middleware.RequestID. cbv zeta.
  assert ((if String.eqb (gin.GetHeader "X-Request-ID" c) ""
           then middleware.generateRequestID rnd
           else gin.GetHeader "X-Request-ID" c)
          = correlation_id rnd req) as ->.
  { unfold gin.GetHeader, correlation_id. rewrite Hr.
    destruct (gin.ReqHeader req !! "X-Request-ID") as [[|a v]|]; reflexivity. }
  destruct (Header_unanswered req w st ∅ "X-Request-ID"
              (correlation_id rnd req)
              (gin.Set_ "RequestID" (correlation_id rnd req) c)
              (correlation_id_not_empty rnd req) Hp) as [H1 I1].
  eexists. split; [exact H1|]. split; [exact I1|intros H; exact H].
Qed.

Lemma Logger_stage (P Q : gin.Context W -> Prop) : stage P P Q gin.Logger.
Proof. intros next c Hp. exists c. auto. Qed.

Lemma Recovery_stage (P Q : gin.Context W -> Prop) : stage P P Q gin.Recovery.
Proof. intros next c Hp. exists c. auto. Qed.

Lemma ErrorHandler_stage (P : gin.Context W -> Prop) (n : Z)
    (wr : gin.ResponseWriter) (w' : W) :
  stage P P (answered n wr w') middleware.ErrorHandler.
Proof.
  intros next c Hp. exists c. split; [exact Hp|]. split; [reflexivity|].
  intros Hq. unfold middleware.ErrorHandler. cbv zeta.
  destruct Hq as (Hwr & Hw & He & Hi). rewrite He. simpl.
  unfold answered. auto.
Qed.

(** The cross-origin stage on a request that is not a preflight. *)
Lemma CORS_stage (rid : string) (req : gin.Request) (w : W) (st : Z)
    (Q : gin.Context W -> Prop) :
  String.eqb (gin.Method req) "OPTIONS" = false ->
  stage (unanswered req w st (<["X-Request-ID" := rid]> ∅))
        (unanswered req w st (chain_headers rid)) Q middleware.CORS.
Proof.
  intros Hm next c Hp. unfold middleware.CORS. cbv zeta.
  destruct (Header_unanswered req w st _ "Access-Control-Allow-Origin" "*" c
              eq_refl Hp) as [H1 I1].
  destruct (Header_unanswered req w st _ "Access-Control-Allow-Methods"
              "GET, POST, PUT, DELETE, OPTIONS" _ eq_refl H1) as [H2 I2].
  destruct (Header_unanswered req w st _ "Access-Control-Allow-Headers"
              "Origin, Content-Type, Content-Length, Accept-Encoding, X-CSRF-Token, Authorization"
              _ eq_refl H2) as [H3 I3].
  pose proof H3 as (Hr & _). rewrite Hr, Hm.
  eexists. split; [exact H3|]. split; [congruence|auto].
Qed.

(** ... and on a preflight, which it answers itself. *)
Lemma CORS_answers_preflight (rid : string) (req : gin.Request) (w : W)
    (st n : Z) next c :
  gin.Method req = "OPTIONS" -> n <= gin.abortIndex ->
  unanswered req w st (<["X-Request-ID" := rid]> ∅) c ->
  answered n (gin.mkResponseWriter 204 true (chain_headers rid) []) w
           (middleware.CORS next c).
Proof.
  intros Hm Hn Hp. unfold middleware.CORS. cbv zeta.
  destruct (Header_unanswered req w st _ "Access-Control-Allow-Origin" "*" c
              eq_refl Hp) as [H1 I1].
  destruct (Header_unanswered req w st _ "Access-Control-Allow-Methods"
              "GET, POST, PUT, DELETE, OPTIONS" _ eq_refl H1) as [H2 I2].
  destruct (Header_unanswered req w st _ "Access-Control-Allow-Headers"
              "Origin, Content-Type, Content-Length, Accept-Encoding, X-CSRF-Token, Authorization"
              _ eq_refl H2) as [H3 I3].
  destruct H3 as (Hr & Hw & He & Hwr). rewrite Hr, Hm. simpl.
  unfold gin.AbortWithStatus, gin.Abort, gin.WriteHeaderNow, gin.Status.
  rewrite Hwr. simpl.
  destruct (st =? 204) eqn:E; simpl.
  - apply Z.eqb_eq in E. subst st. rewrite Hwr. simpl.
    unfold answered, chain_headers, gin.abortIndex in *. simpl.
    repeat split; auto. lia.
  - unfold answered, chain_headers, gin.abortIndex in *. simpl.
    repeat split; auto. lia.
Qed.

(** A first [c.JSON] on an unanswered request. *)
Lemma JSON_unanswered (req : gin.Request) (w : W) (st : Z)
    (hdr : gmap string string) (code : Z) (obj : gin.json) c :
  0 < code -> gin.bodyAllowedForStatus code = true ->
  hdr !! "Content-Type" = None ->
  unanswered req w st hdr c ->
  gin.Writer (gin.JSON code obj c)
  = gin.mkResponseWriter code true
      (<["Content-Type" := "application/json; charset=utf-8"]> hdr) [obj].
Proof.
  intros Hc Ha Hct (Hr & Hw & He & Hwr).
  unfold gin.JSON. rewrite Ha.
  assert (gin.Writer (gin.Status code c) = gin.mkResponseWriter code false hdr [])
    as Hs.
  { unfold gin.Status. rewrite Hwr. simpl.
    destruct (0 <? code) eqn:E0; [|apply Z.ltb_ge in E0; lia].
    destruct (st =? code) eqn:E1; simpl.
    - apply Z.eqb_eq in E1. subst. exact Hwr.
    - reflexivity. }
  unfold gin.writeContentType. rewrite Hs. simpl. rewrite Hct.
  unfold gin.Write, gin.WriteHeaderNow, gin.Header. rewrite Hs. simpl.
  reflexivity.
Qed.

End StageFacts.

Section ChainFacts.
Context {W : Type} (rnd : middleware.Rand) (req : gin.Request) (w : W).
Implicit Types (c : gin.Context W).

Lemma Next_continue (hs : list (@gin.HandlerFunc W)) c :
  gin.Next hs c = continue (Z.of_nat (length hs)) hs c.
Proof. reflexivity. Qed.

Lemma chain_headers_no_content_type (rid : string) :
  chain_headers rid !! "Content-Type" = None.
Proof.
  unfold chain_headers.
  rewrite !lookup_insert_ne by discriminate. apply lookup_empty.
Qed.

(** The four stages before the cross-origin stage pass an unanswered
    request down with the correlation id as its only header. *)
Lemma chain_to_CORS (st n : Z) (rest : list (@gin.HandlerFunc W))
    (wr : gin.ResponseWriter) (w' : W) c :
  4 < n ->
  unanswered req w st ∅ c -> gin.index c = -1 ->
  (forall c', unanswered req w st
                (<["X-Request-ID" := correlation_id rnd req]> ∅) c' ->
              gin.index c' = 3 ->
              answered n wr w' (continue n rest c')) ->
  answered n wr w'
    (continue n (middleware.RequestID rnd :: gin.Logger :: gin.Recovery
                 :: middleware.ErrorHandler :: rest) c).
Proof.
  intros Hn Hp Hi Hrest.
  eapply (continue_stage n _ _ _ _ wr w' (-1));
    [apply RequestID_stage|apply unanswered_incr|exact Hp|exact Hi|lia|].
  intros c1 Hp1 Hi1.
  eapply (continue_stage n _ _ _ _ wr w' 0);
    [apply Logger_stage|apply unanswered_incr|exact Hp1|exact Hi1|lia|].
  intros c2 Hp2 Hi2.
  eapply (continue_stage n _ _ _ _ wr w' 1);
    [apply Recovery_stage|apply unanswered_incr|exact Hp2|exact Hi2|lia|].
  intros c3 Hp3 Hi3.
  eapply (continue_stage n _ _ _ _ wr w' 2);
    [apply ErrorHandler_stage|apply unanswered_incr|exact Hp3|exact Hi3|lia|].
  intros c4 Hp4 Hi4. apply Hrest; [exact Hp4|exact Hi4].
Qed.

(** A request that is not a preflight reaches what follows the
    cross-origin stage with the chain's headers set. *)
Lemma chain_to_handler (st n : Z) (tail : list (@gin.HandlerFunc W))
    (wr : gin.ResponseWriter) (w' : W) c :
  String.eqb (gin.Method req) "OPTIONS" = false ->
  4 < n ->
  unanswered req w st ∅ c -> gin.index c = -1 ->
  (forall c', unanswered req w st (chain_headers (correlation_id rnd req)) c' ->
              gin.index c' = 4 ->
              answered n wr w' (continue n tail c')) ->
  answered n wr w' (continue n (Server.middlewares rnd ++ tail) c).
Proof.
  intros Hm Hn Hp Hi Htail.
  change (Server.middlewares rnd ++ tail)
    with (middleware.RequestID rnd :: gin.Logger :: gin.Recovery
          :: middleware.ErrorHandler :: middleware.CORS :: tail).
  apply (chain_to_CORS st n _ wr w' c Hn Hp Hi).
  intros c4 Hp4 Hi4.
  eapply (continue_stage n _ _ _ _ wr w' 3);
    [apply (CORS_stage (correlation_id rnd req) req w st), Hm
    |apply unanswered_incr|exact Hp4|exact Hi4|lia|].
  exact Htail.
Qed.

(** A preflight is answered by the cross-origin stage, with the chain's
    headers. *)
Lemma chain_answers_preflight (st n : Z) (tail : list (@gin.HandlerFunc W)) c :
  gin.Method req = "OPTIONS" ->
  4 < n <= gin.abortIndex ->
  unanswered req w st ∅ c -> gin.index c = -1 ->
  answered n (gin.mkResponseWriter 204 true
                (chain_headers (correlation_id rnd req)) []) w
    (continue n (Server.middlewares rnd ++ tail) c).
Proof.
  intros Hm Hn Hp Hi.
  change (Server.middlewares rnd ++ tail)
    with (middleware.RequestID rnd :: gin.Logger :: gin.Recovery
          :: middleware.ErrorHandler :: middleware.CORS :: tail).
  apply (chain_to_CORS st n _ _ w c); [lia|exact Hp|exact Hi|].
  intros c4 Hp4 Hi4. rewrite continue_cons by lia.
  apply answered_continue.
  apply (CORS_answers_preflight (correlation_id rnd req) req w st n);
    [exact Hm|lia|exact Hp4].
Qed.

End ChainFacts.

Lemma eqb_OPTIONS_false (req : gin.Request) :
  gin.Method req <> "OPTIONS" ->
  String.eqb (gin.Method req) "OPTIONS" = false.
Proof. intros H. apply String.eqb_neq, H. Qed.

(** The response of a handler is fixed by the request and the world. *)
Lemma handler_responds
    {DB : Type} (userRepo : repository.Queries DB)
    (pool_Ping : DB -> option error) (env : UserHandler.Env)
    (e : Server.Endpoint) (req : gin.Request) (w : UserRepository.World DB) :
  exists (code : Z) (obj : gin.json) (w' : UserRepository.World DB),
    0 < code /\ gin.bodyAllowedForStatus code = true /\
    forall next c, gin.request c = req -> gin.world c = w ->
      Server.handler userRepo pool_Ping env e next c
      = gin.JSON code obj (gin.set_world w' c).
Proof.
  destruct (handler_same userRepo pool_Ping env e (fun c => c) (fun c => c)
              (gin.reset req w) (gin.reset req w) eq_refl eq_refl)
    as (code & obj & w' & Hcode & Hallowed & Hdirect & _).
  exists code, obj, w'. split; [exact Hcode|]. split; [exact Hallowed|].
  intros next c Hreq Hw.
  destruct (handler_same userRepo pool_Ping env e (fun c => c) next
              (gin.reset req w) c) as (code2 & obj2 & w2 & Hc2 & Ha2 & Hd2 & Hc);
    [symmetry; exact Hreq|symmetry; exact Hw|].
  rewrite Hc. rewrite Hdirect in Hd2.
  assert (w' = w2) as <-.
  { apply (f_equal gin.world) in Hd2. rewrite !JSON_world in Hd2. exact Hd2. }
  apply (f_equal gin.Writer) in Hd2.
  rewrite (JSON_unanswered req w' 200 ∅ code obj) in Hd2;
    [|assumption|assumption|reflexivity|unfold unanswered; simpl; auto].
  rewrite (JSON_unanswered req w' 200 ∅ code2 obj2) in Hd2;
    [|assumption|assumption|reflexivity|unfold unanswered; simpl; auto].
  injection Hd2 as <- <-. reflexivity.
Qed.

(** The chain around a routed handler. *)
Lemma chain_around_handler
    {DB : Type} (userRepo : repository.Queries DB)
    (pool_Ping : DB -> option error) (env : UserHandler.Env)
    (rnd : middleware.Rand) (e : Server.Endpoint)
    (value : gin.nodeValue (UserRepository.World DB))
    (req : gin.Request) (w : UserRepository.World DB) :
  let h := Server.handler userRepo pool_Ping env e in
  gin.handlers value = Some h ->
  routed value req = true ->
  let direct := h (fun c => c) (gin.reset req w) in
  let c := Server.ServeHTTP rnd value req w in
  gin.status (gin.Writer c) = gin.status (gin.Writer direct)
  /\ gin.body (gin.Writer c) = gin.body (gin.Writer direct)
  /\ gin.world c = gin.world direct
  /\ gin.written (gin.Writer c) = true
  /\ gin.Errors c = []
  /\ gin.header (gin.Writer c)
     = <["Content-Type" := "application/json; charset=utf-8"]>
         (chain_headers (correlation_id rnd req)).
Proof.
  cbv zeta. intros Hfound Hrouted.
  assert (existsb (String.eqb (gin.Method req)) Server.trees = true) as Ht.
  { unfold routed in Hrouted. apply andb_true_iff in Hrouted. tauto. }
  assert (String.eqb (gin.Method req) "OPTIONS" = false) as Hm.
  { destruct (trees_methods _ Ht) as [-> | [-> | [-> | ->]]]; reflexivity. }
  rewrite (ServeHTTP_found rnd value _ req w Ht Hfound).
  set (h := Server.handler userRepo pool_Ping env e).
  set (rid := correlation_id rnd req).
  destruct (handler_responds userRepo pool_Ping env e req w)
    as (code & obj & w' & Hcode & Hallowed & Hh).
  fold h in Hh.
  assert (gin.Writer (h (fun c => c) (gin.reset req w))
          = gin.mkResponseWriter code true
              (<["Content-Type" := "application/json; charset=utf-8"]> ∅) [obj]
          /\ gin.world (h (fun c => c) (gin.reset req w)) = w') as [Hdw Hdworld].
  { rewrite (Hh (fun c => c) (gin.reset req w) eq_refl eq_refl). split.
    - apply (JSON_unanswered req w' 200 ∅); auto.
      unfold unanswered. simpl. auto.
    - rewrite JSON_world. reflexivity. }
  assert (answered 6
            (gin.mkResponseWriter code true
               (<["Content-Type" := "application/json; charset=utf-8"]>
                  (chain_headers rid)) [obj]) w'
            (gin.Next (Server.middlewares rnd ++ [h]) (gin.reset req w)))
    as (Hwr & Hworld & Herr & _).
  { rewrite Next_continue.
    change (Z.of_nat (length (Server.middlewares rnd ++ [h]))) with 6.
    apply (chain_to_handler rnd req w 200 6 [h]);
      [exact Hm|lia|unfold unanswered; simpl; auto|reflexivity|].
    intros c4 (Hr4 & Hw4 & He4 & Hwr4) Hi4.
    rewrite continue_cons by lia. rewrite continue_nil.
    rewrite (Hh (continue 6 []) (gin.incr c4) Hr4 Hw4).
    unfold answered. simpl.
    split; [|split; [apply JSON_world|split]].
    - apply (JSON_unanswered req w' 200 (chain_headers rid));
        [exact Hcode|exact Hallowed|apply chain_headers_no_content_type|].
      unfold unanswered. simpl. auto.
    - destruct (JSON_frame (gin.set_world w' (gin.incr c4)) code obj)
        as (_ & _ & -> & _). exact He4.
    - destruct (JSON_frame (gin.set_world w' (gin.incr c4)) code obj)
        as (_ & _ & _ & -> & _). simpl. lia. }
  set (c := gin.Next _ _) in *.
  unfold gin.WriteHeaderNow. rewrite Hwr. simpl. rewrite Hwr, Hdw. simpl.
  repeat split; auto. congruence.
Qed.

(** X8. For a request the router has a route for, the chain adds headers
    and nothing else: the status, the body and the effect on the
    repository's world are those of the routed handler run on the bare
    request, the response is sent, no error is recorded, and its headers
    are the correlation id, the three cross-origin headers and the JSON
    content type. *)
Theorem routed_response_is_the_handlers
    {DB : Type} (userRepo : repository.Queries DB)
    (pool_Ping : DB -> option error) (env : UserHandler.Env)
    (rnd : middleware.Rand) (e : Server.Endpoint)
    (value : gin.nodeValue (UserRepository.World DB))
    (req : gin.Request) (w : UserRepository.World DB) :
  let h := Server.handler userRepo pool_Ping env e in
  gin.handlers value = Some h ->
  routed value req = true ->
  let direct := h (fun c => c) (gin.reset req w) in
  let c := Server.ServeHTTP rnd value req w in
  gin.status (gin.Writer c) = gin.status (gin.Writer direct)
  /\ gin.body (gin.Writer c) = gin.body (gin.Writer direct)
  /\ gin.world c = gin.world direct
  /\ gin.written (gin.Writer c) = true
  /\ gin.Errors c = []
  /\ gin.header (gin.Writer c)
     = <["Content-Type" := "application/json; charset=utf-8"]>
         (chain_headers (correlation_id rnd req)).
Proof.
  exact (chain_around_handler userRepo pool_Ping env rnd e value req w).
Qed.

(** The chain when no route matches and the router does not redirect. *)
Lemma chain_without_route
    {W : Type} (rnd : middleware.Rand) (value : gin.nodeValue W)
    (req : gin.Request) (w : W) :
  gin.Method req <> "OPTIONS" ->
  routed value req = false ->
  redirected value req = false ->
  let c := Server.ServeHTTP rnd value req w in
  gin.Writer c
  = gin.mkResponseWriter 404 true
      (<["Content-Type" := "text/plain"]>
         (chain_headers (correlation_id rnd req)))
      [gin.default404Body]
  /\ gin.world c = w.
Proof.
  intros Hm Hrouted Hred. cbv zeta. apply eqb_OPTIONS_false in Hm.
  rewrite (ServeHTTP_unrouted rnd value req w Hrouted Hred).
  unfold gin.serveError. cbv zeta.
  match goal with
  | |- context [gin.Next (Server.middlewares rnd) ?c0] =>
      assert (answered 5
                (gin.mkResponseWriter 404 false
                   (chain_headers (correlation_id rnd req)) []) w
                (gin.Next (Server.middlewares rnd) c0))
        as (Hwr & Hworld & Herr & _)
  end.
  { rewrite Next_continue.
    change (Z.of_nat (length (Server.middlewares rnd))) with 5.
    rewrite <- (app_nil_r (Server.middlewares rnd)).
    apply (chain_to_handler rnd req w 404 5 []);
      [exact Hm|lia|unfold unanswered; simpl; auto|reflexivity|].
    intros c4 (Hr4 & Hw4 & He4 & Hwr4) Hi4. rewrite continue_nil.
    unfold answered. simpl. repeat split; auto. lia. }
  set (c := gin.Next _ _) in *. rewrite Hwr. simpl.
  unfold gin.Write, gin.WriteHeaderNow, gin.Header. rewrite Hwr. simpl.
  split; [reflexivity|exact Hworld].
Qed.

(** X9. A request that is not a preflight, for which the router has no
    route and recommends no redirect, is answered 404 with the plain-text
    body "404 page not found", the correlation id and the cross-origin
    headers; the handlers' state is untouched. *)
Theorem unrouted_request_is_404
    {W : Type} (rnd : middleware.Rand) (value : gin.nodeValue W)
    (req : gin.Request) (w : W) :
  gin.Method req <> "OPTIONS" ->
  routed value req = false ->
  redirected value req = false ->
  let c := Server.ServeHTTP rnd value req w in
  gin.Writer c
  = gin.mkResponseWriter 404 true
      (<["Content-Type" := "text/plain"]>
         (chain_headers (correlation_id rnd req)))
      [gin.default404Body]
  /\ gin.world c = w.
Proof. exact (chain_without_route rnd value req w). Qed.

(** The chain on a preflight. *)
Lemma chain_on_preflight
    {W : Type} (rnd : middleware.Rand) (value : gin.nodeValue W)
    (req : gin.Request) (w : W) :
  gin.Method req = "OPTIONS" ->
  gin.Writer (Server.ServeHTTP rnd value req w)
  = gin.mkResponseWriter 204 true (chain_headers (correlation_id rnd req)) [].
Proof.
  intros Hm. rewrite (ServeHTTP_preflight rnd value req w Hm).
  unfold gin.serveError. cbv zeta.
  match goal with
  | |- context [gin.Next (Server.middlewares rnd) ?c0] =>
      assert (answered 5
                (gin.mkResponseWriter 204 true
                   (chain_headers (correlation_id rnd req)) []) w
                (gin.Next (Server.middlewares rnd) c0))
        as (Hwr & _)
  end.
  { rewrite Next_continue.
    change (Z.of_nat (length (Server.middlewares rnd))) with 5.
    rewrite <- (app_nil_r (Server.middlewares rnd)).
    apply (chain_answers_preflight rnd req w 404 5 []);
      [exact Hm|unfold gin.abortIndex; lia
      |unfold unanswered; simpl; auto|reflexivity]. }
  set (c := gin.Next _ _) in *. rewrite Hwr. simpl. exact Hwr.
Qed.

(** X10. A preflight is answered with the correlation id and the three
    cross-origin headers and no content type, whatever the router finds
    for its path. *)
Theorem preflight_response_headers
    {W : Type} (rnd : middleware.Rand) (value : gin.nodeValue W)
    (req : gin.Request) (w : W) :
  gin.Method req = "OPTIONS" ->
  gin.Writer (Server.ServeHTTP rnd value req w)
  = gin.mkResponseWriter 204 true (chain_headers (correlation_id rnd req)) [].
Proof. exact (chain_on_preflight rnd value req w). Qed.

Lemma routed_response_is_the_handlers_witness :
  let c := Server.ServeHTTP Sample.rnd
             (Sample.found (Server.handler Sample.queries (fun _ => None)
                              Sample.env Server.DeleteUser))
             (Sample.request "DELETE" "/api/v1/users/2" "2" [] "")
             Sample.two_users in
  gin.status (gin.Writer c) = 200
  /\ pg.rows (UserRepository.db (gin.world c)) = [Sample.john].
Proof.
  intros c.
  destruct (routed_response_is_the_handlers Sample.queries (fun _ => None)
              Sample.env Sample.rnd Server.DeleteUser
              (Sample.found (Server.handler Sample.queries (fun _ => None)
                               Sample.env Server.DeleteUser))
              (Sample.request "DELETE" "/api/v1/users/2" "2" [] "")
              Sample.two_users eq_refl eq_refl) as (Hs & _ & Hw & _).
  split; [exact Hs|]. unfold c. rewrite Hw. reflexivity.
Defined.

Lemma unrouted_request_is_404_witness :
  gin.status (gin.Writer
    (Server.ServeHTTP Sample.rnd Sample.no_route
       (Sample.request "GET" "/nowhere" "" [] "") Sample.two_users)) = 404
  /\ gin.body (gin.Writer
       (Server.ServeHTTP Sample.rnd Sample.no_route
          (Sample.request "GET" "/nowhere" "" [] "") Sample.two_users))
     = [gin.JString "404 page not found"].
Proof.
  destruct (unrouted_request_is_404 Sample.rnd Sample.no_route
              (Sample.request "GET" "/nowhere" "" [] "") Sample.two_users)
    as [Hwr _].
  - discriminate.
  - reflexivity.
  - reflexivity.
  - cbv zeta in Hwr. rewrite Hwr. split; reflexivity.
Defined.

Lemma preflight_response_headers_witness :
  gin.header (gin.Writer
    (Server.ServeHTTP Sample.rnd Sample.no_route
       (Sample.request "OPTIONS" "/api/v1/users" "" [] "") Sample.two_users))
  !! "Access-Control-Allow-Origin" = Some "*".
Proof.
  rewrite (preflight_response_headers Sample.rnd Sample.no_route
             (Sample.request "OPTIONS" "/api/v1/users" "" [] "")
             Sample.two_users eq_refl).
  reflexivity.
Defined.

(** The router's redirect. *)
Lemma chain_skipped_by_redirect
    {W : Type} (rnd : middleware.Rand) (value : gin.nodeValue W)
    (req : gin.Request) (w : W) :
  redirected value req = true ->
  let c := Server.ServeHTTP rnd value req w in
  let get := String.eqb (gin.Method req) "GET" in
  gin.status (gin.Writer c) = (if get then 301 else 307)
  /\ gin.written (gin.Writer c) = true
  /\ gin.header (gin.Writer c)
     = (if get
        then <["Content-Type" := "text/html; charset=utf-8"]>
               (<["Location" := gin.rURL value]> ∅)
        else <["Location" := gin.rURL value]> ∅)
  /\ (if get then exists page, gin.body (gin.Writer c) = [gin.JString page]
      else gin.body (gin.Writer c) = [])
  /\ gin.Keys c = ∅
  /\ gin.Errors c = []
  /\ gin.world c = w.
Proof.
  intros Hred. cbv zeta. rewrite (ServeHTTP_redirected rnd value req w Hred).
  assert (existsb (String.eqb (gin.Method req)) Server.trees = true) as Ht.
  { unfold redirected in Hred.
    destruct (existsb _ Server.trees); [reflexivity|discriminate]. }
  unfold gin.redirectTrailingSlash, gin.redirectRequest, gin.Redirect.
  simpl gin.request. simpl gin.Writer. simpl gin.header.
  rewrite lookup_empty. cbv zeta.
  destruct (trees_methods _ Ht) as [-> | [-> | [-> | ->]]]; simpl;
    repeat split; eauto.
Qed.



Lemma chain_headers_cors (rid : string) :
  chain_headers rid !! "Access-Control-Allow-Origin" = Some "*"
  /\ chain_headers rid !! "Access-Control-Allow-Methods"
     = Some "GET, POST, PUT, DELETE, OPTIONS"
  /\ chain_headers rid !! "Access-Control-Allow-Headers"
     = Some "Origin, Content-Type, Content-Length, Accept-Encoding, X-CSRF-Token, Authorization".
Proof.
  unfold chain_headers. split; [|split].
  - rewrite !lookup_insert_ne by discriminate. apply lookup_insert_eq.
  - rewrite lookup_insert_ne by discriminate. apply lookup_insert_eq.
  - apply lookup_insert_eq.
Qed.

(** X11. Every response that comes out of the chain allows every origin:
    a routed one, a 404 and the answer to a preflight carry
    Access-Control-Allow-Origin "*" and the lists of allowed methods and
    headers. The router's own trailing-slash redirects carry none of the
    three. *)
Theorem every_response_allows_all_origins
    {DB : Type} (userRepo : repository.Queries DB)
    (pool_Ping : DB -> option error) (env : UserHandler.Env)
    (rnd : middleware.Rand) (route : option Server.Endpoint)
    (tsr : bool) (url : string)
    (req : gin.Request) (w : UserRepository.World DB) :
  let value := gin.mkNodeValue
                 (Server.handler userRepo pool_Ping env <$> route) tsr url in
  let c := Server.ServeHTTP rnd value req w in
  let unless_redirected (v : string) :=
    if redirected value req then None else Some v in
  gin.header (gin.Writer c) !! "Access-Control-Allow-Origin"
  = unless_redirected "*"
  /\ gin.header (gin.Writer c) !! "Access-Control-Allow-Methods"
     = unless_redirected "GET, POST, PUT, DELETE, OPTIONS"
  /\ gin.header (gin.Writer c) !! "Access-Control-Allow-Headers"
     = unless_redirected
         "Origin, Content-Type, Content-Length, Accept-Encoding, X-CSRF-Token, Authorization".
Proof.
  cbv zeta. set (value := gin.mkNodeValue _ tsr url).
  destruct (redirected value req) eqn:Hred.
  - destruct (chain_skipped_by_redirect rnd value req w Hred)
      as (_ & _ & -> & _).
    destruct (String.eqb (gin.Method req) "GET");
      rewrite ?lookup_insert_ne by discriminate;
      rewrite !lookup_empty; auto.
  - destruct (decide (gin.Method req = "OPTIONS")) as [Hm|Hm].
    + rewrite (chain_on_preflight rnd value req w Hm). simpl.
      apply chain_headers_cors.
    + destruct (routed value req) eqn:Hrouted.
      * assert (exists e, route = Some e) as [e ->].
        { unfold routed in Hrouted. apply andb_true_iff in Hrouted as [_ Hh].
          destruct route as [e|]; [eauto|discriminate]. }
        destruct (chain_around_handler userRepo pool_Ping env rnd e value
                    req w eq_refl Hrouted) as (_ & _ & _ & _ & _ & ->).
        rewrite !lookup_insert_ne by discriminate. apply chain_headers_cors.
      * destruct (chain_without_route rnd value req w Hm Hrouted Hred)
          as [-> _]. simpl.
        rewrite !lookup_insert_ne by discriminate. apply chain_headers_cors.
Qed.

Section StatusFacts.
Context {DB : Type} (userRepo : repository.Queries DB)
        (pool_Ping : DB -> option error) (env : UserHandler.Env).

Lemma handler_status (e : Server.Endpoint) (req : gin.Request)
    (w : UserRepository.World DB) next :
  gin.status (gin.Writer
    (Server.handler userRepo pool_Ping env e next (gin.reset req w)))
  ∈ statuses e.
Proof.
  assert (forall code obj (x : gin.Context (UserRepository.World DB))
                 (l : list Z),
            gin.written (gin.Writer x) = false -> 0 < code -> code ∈ l ->
            gin.status (gin.Writer (gin.JSON code obj x)) ∈ l) as J.
  { intros code obj x l Hx Hc Hin.
    destruct (JSON_status x code obj Hx Hc) as [-> _]. exact Hin. }
  assert (gin.status (gin.Writer
            (Server.handler userRepo pool_Ping env e next (gin.reset req w)))
          ∈ match e with
            | Server.UpdateUser => [200; 400; 404; 409; 500]
            | _ => statuses e
            end) as Hin.
  { destruct e; unfold Server.handler;
      unfold HealthHandler.Ping, HealthHandler.HealthCheck,
             HealthHandler.Readiness, HealthHandler.Liveness,
             UserHandler.CreateUser, UserHandler.GetAllUsers,
             UserHandler.GetUsersWithPagination, UserHandler.GetUserByID,
             UserHandler.UpdateUser, UserHandler.DeleteUser, statuses;
      repeat match goal with
             | |- gin.status (gin.Writer (gin.JSON _ _ _)) ∈ _ =>
                 apply J; [reflexivity|lia|
                           apply list_elem_of_In; simpl; tauto]
             | |- context [match ?x with _ => _ end] => destruct x
             end. }
  destruct e; try exact Hin.
  pose proof (UpdateUser_never_409 userRepo env req w) as Hn.
  unfold Server.handler in *. unfold statuses.
  apply list_elem_of_In in Hin. apply list_elem_of_In.
  simpl in Hin |- *.
  destruct Hin as [H|[H|[H|[H|[H|[]]]]]]; try tauto.
  rewrite <- H in Hn. discriminate.
Qed.

End StatusFacts.

(** X12. The statuses of the service. The router's trailing-slash
    redirect is 301 for GET and 307 otherwise; a preflight is answered
    204; a request without a route 404; a routed request one of the
    statuses of its handler: health probes 200 or 503, POST 201, 400,
    409 or 500, listing 200 or 500, and so on. In particular PUT never
    answers 409, whatever the storage layer reports. *)
Theorem response_status_is_listed
    {DB : Type} (userRepo : repository.Queries DB)
    (pool_Ping : DB -> option error) (env : UserHandler.Env)
    (rnd : middleware.Rand) (route : option Server.Endpoint)
    (tsr : bool) (url : string)
    (req : gin.Request) (w : UserRepository.World DB) :
  let value := gin.mkNodeValue
                 (Server.handler userRepo pool_Ping env <$> route) tsr url in
  gin.status (gin.Writer (Server.ServeHTTP rnd value req w))
  ∈ (if redirected value req then
       [if String.eqb (gin.Method req) "GET" then 301 else 307]
     else if String.eqb (gin.Method req) "OPTIONS" then [204]
     else match route with
          | Some e => if routed value req then statuses e else [404]
          | None => [404]
          end).
Proof.
  cbv zeta. set (value := gin.mkNodeValue _ tsr url).
  destruct (redirected value req) eqn:Hred.
  - destruct (chain_skipped_by_redirect rnd value req w Hred) as (-> & _).
    apply list_elem_of_In. simpl. tauto.
  - destruct (decide (gin.Method req = "OPTIONS")) as [Hm|Hm].
    + rewrite (chain_on_preflight rnd value req w Hm).
      rewrite Hm. simpl. apply list_elem_of_In. simpl. tauto.
    + rewrite (eqb_OPTIONS_false req Hm).
      destruct (routed value req) eqn:Hrouted.
      * assert (exists e, route = Some e) as [e ->].
        { unfold routed in Hrouted. apply andb_true_iff in Hrouted as [_ Hh].
          destruct route as [e|]; [eauto|discriminate]. }
        destruct (chain_around_handler userRepo pool_Ping env rnd e value
                    req w eq_refl Hrouted) as (-> & _).
        apply handler_status.
      * destruct (chain_without_route rnd value req w Hm Hrouted Hred)
          as [-> _]. simpl.
        destruct route; apply list_elem_of_In; simpl; tauto.
Qed.

(** ** The route log *)

Section SortFacts.
Context {A : Type} (less : A -> A -> bool).
Hypothesis less_irrefl : forall a, less a a = false.
Hypothesis less_trans :
  forall a b c, less a b = true -> less b c = true -> less a c = true.
Hypothesis less_total :
  forall a b, less a b = false -> less b a = false -> a = b.

Lemma less_asym (a b : A) : less a b = true -> less b a = false.
Proof.
  intros Hab. destruct (less b a) eqn:Hba; [|reflexivity].
  rewrite <- (less_irrefl a). symmetry. eapply less_trans; eassumption.
Qed.

Lemma in_order_trans (a b c : A) :
  in_order less a b -> in_order less b c -> in_order less a c.
Proof.
  unfold in_order. intros Hba Hcb.
  destruct (less c a) eqn:Hca; [|reflexivity].
  destruct (less a b) eqn:Hab.
  - rewrite <- Hcb. symmetry. eapply less_trans; eassumption.
  - rewrite (less_total a b Hab Hba) in Hca. congruence.
Qed.

Lemma sort_insert_perm (x : A) (l : list A) :
  Permutation (sort.insert less x l) (x :: l).
Proof.
  induction l as [|y l IH]; simpl; [reflexivity|].
  destruct (less y x); [|reflexivity].
  rewrite IH. apply perm_swap.
Qed.

Lemma SliceStable_perm (l : list A) : Permutation (sort.SliceStable less l) l.
Proof.
  induction l as [|x l IH]; simpl; [reflexivity|].
  rewrite sort_insert_perm. apply perm_skip, IH.
Qed.

Lemma sort_insert_sorted (x : A) (l : list A) :
  StronglySorted (in_order less) l ->
  StronglySorted (in_order less) (sort.insert less x l).
Proof.
  induction 1 as [|y l Hl IH Hy]; simpl.
  - repeat constructor.
  - destruct (less y x) eqn:E.
    + constructor; [exact IH|].
      rewrite sort_insert_perm. constructor; [|exact Hy].
      apply less_asym, E.
    + constructor; [constructor; assumption|].
      constructor; [exact E|].
      eapply Forall_impl; [exact Hy|]. intros z Hz.
      eapply in_order_trans; [exact E|exact Hz].
Qed.

Lemma SliceStable_sorted (l : list A) :
  StronglySorted (in_order less) (sort.SliceStable less l).
Proof.
  induction l as [|x l IH]; simpl; [constructor|].
  apply sort_insert_sorted, IH.
Qed.

Lemma sorted_perm_unique (l1 l2 : list A) :
  Permutation l1 l2 ->
  StronglySorted (in_order less) l1 -> StronglySorted (in_order less) l2 ->
  l1 = l2.
Proof.
  revert l2. induction l1 as [|a l1 IH]; intros l2 Hperm Hs1 Hs2.
  - symmetry. apply Permutation_nil. exact Hperm.
  - destruct l2 as [|b l2];
      [apply Permutation_sym, Permutation_nil in Hperm; discriminate|].
    apply StronglySorted_inv in Hs1 as [Hs1 Ha].
    apply StronglySorted_inv in Hs2 as [Hs2 Hb].
    assert (a = b) as <-.
    { assert (In a (b :: l2)) as Hina
        by (eapply Permutation_in; [exact Hperm|left; reflexivity]).
      assert (In b (a :: l1)) as Hinb
        by (eapply Permutation_in;
            [apply Permutation_sym, Hperm|left; reflexivity]).
      destruct Hina as [Hab | Hina]; [congruence|].
      destruct Hinb as [Hab | Hinb]; [congruence|].
      rewrite Forall_forall in Ha, Hb.
      pose proof (Ha b (proj2 (list_elem_of_In _ _) Hinb)) as Hab.
      pose proof (Hb a (proj2 (list_elem_of_In _ _) Hina)) as Hba.
      apply less_total; assumption. }
    f_equal. apply IH; try assumption.
    eapply Permutation_cons_inv, Hperm.
Qed.

Lemma SliceStable_of_perm (l1 l2 : list A) :
  Permutation l1 l2 -> sort.SliceStable less l1 = sort.SliceStable less l2.
Proof.
  intros Hperm. apply sorted_perm_unique; try apply SliceStable_sorted.
  rewrite !SliceStable_perm. exact Hperm.
Qed.

End SortFacts.

Lemma compare_refl (s : string) : String.compare s s = Eq.
Proof.
  pose proof (String.compare_antisym s s) as H.
  destruct (String.compare s s); try reflexivity; discriminate.
Qed.

Lemma ltb_irrefl (s : string) : String.ltb s s = false.
Proof. unfold String.ltb. rewrite compare_refl. reflexivity. Qed.

Lemma ltb_trans (a b c : string) :
  String.ltb a b = true -> String.ltb b c = true -> String.ltb a c = true.
Proof.
  unfold String.ltb.
  destruct (String.compare a b) eqn:E1; try discriminate.
  destruct (String.compare b c) eqn:E2; try discriminate.
  intros _ _.
  pose proof (StrictOrder_Transitive (R := OrdersEx.String_as_OT.lt)
                a b c E1 E2) as H.
  change (String.compare a c = Lt) in H. rewrite H. reflexivity.
Qed.

Lemma ltb_total (a b : string) :
  String.ltb a b = false -> String.ltb b a = false -> a = b.
Proof.
  unfold String.ltb. rewrite (String.compare_antisym b a).
  destruct (String.compare a b) eqn:E; try discriminate.
  intros _ _. apply String.compare_eq_iff, E.
Qed.

Lemma less_spec (a b : Server.RouteInfo) :
  Server.less a b = true <->
  String.ltb (Server.RoutePath a) (Server.RoutePath b) = true
  \/ (Server.RoutePath a = Server.RoutePath b
      /\ (Server.methodOrderOf (Server.RouteMethod a)
           < Server.methodOrderOf (Server.RouteMethod b)
          \/ (Server.methodOrderOf (Server.RouteMethod a)
               = Server.methodOrderOf (Server.RouteMethod b)
              /\ String.ltb (Server.RouteMethod a) (Server.RouteMethod b)
                 = true))).
Proof.
  unfold Server.less. cbv zeta.
  destruct (String.eqb_spec (Server.RoutePath a) (Server.RoutePath b))
    as [Hp|Hp]; simpl negb; cbv iota.
  - rewrite Hp, ltb_irrefl.
    destruct (Z.eqb_spec (Server.methodOrderOf (Server.RouteMethod a))
                         (Server.methodOrderOf (Server.RouteMethod b)))
      as [Ho|Ho]; simpl negb; cbv iota.
    + split; [intros H; right; split; [reflexivity|right; split; assumption]|].
      intros [H|[_ [H|[_ H]]]]; [discriminate|lia|exact H].
    + rewrite Z.ltb_lt.
      split; [intros H; right; split; [reflexivity|left; exact H]|].
      intros [H|[_ [H|[H _]]]]; [discriminate|exact H|contradiction].
  - split; [intros H; left; exact H|].
    intros [H|[H _]]; [exact H|contradiction].
Qed.

Lemma Server_less_irrefl (a : Server.RouteInfo) : Server.less a a = false.
Proof.
  destruct (Server.less a a) eqn:E; [|reflexivity].
  apply less_spec in E. rewrite !ltb_irrefl in E.
  destruct E as [E|[_ [E|[_ E]]]]; try discriminate. lia.
Qed.

Lemma Server_less_trans (a b c : Server.RouteInfo) :
  Server.less a b = true -> Server.less b c = true -> Server.less a c = true.
Proof.
  rewrite !less_spec.
  intros [Hab|[Hab Hab']] [Hbc|[Hbc Hbc']].
  - left. eapply ltb_trans; eassumption.
  - left. rewrite <- Hbc. exact Hab.
  - left. rewrite Hab. exact Hbc.
  - right. split; [congruence|].
    destruct Hab' as [H1|[H1 H1']], Hbc' as [H2|[H2 H2']].
    + left. lia.
    + left. lia.
    + left. lia.
    + right. split; [lia|]. eapply ltb_trans; eassumption.
Qed.

Lemma Server_less_total (a b : Server.RouteInfo) :
  Server.less a b = false -> Server.less b a = false -> a = b.
Proof.
  intros Hab Hba.
  assert (~ Server.less a b = true) as Nab by congruence.
  assert (~ Server.less b a = true) as Nba by congruence.
  rewrite less_spec in Nab, Nba.
  assert (Server.RoutePath a = Server.RoutePath b) as Hp.
  { apply ltb_total.
    - apply not_true_is_false. intros E. apply Nab. tauto.
    - apply not_true_is_false. intros E. apply Nba. tauto. }
  assert (Server.methodOrderOf (Server.RouteMethod a)
          = Server.methodOrderOf (Server.RouteMethod b)) as Ho.
  { destruct (Z.lt_trichotomy (Server.methodOrderOf (Server.RouteMethod a))
                (Server.methodOrderOf (Server.RouteMethod b))) as [H|[H|H]].
    - exfalso. apply Nab. tauto.
    - exact H.
    - exfalso. apply Nba. right. split; [congruence|]. left. lia. }
  assert (Server.RouteMethod a = Server.RouteMethod b) as Hm.
  { apply ltb_total.
    - apply not_true_is_false. intros E. apply Nab. tauto.
    - apply not_true_is_false. intros E. apply Nba.
      right. split; [congruence|]. right. split; [congruence|exact E]. }
  destruct a, b. simpl in *. congruence.
Qed.

(** X13. The route log does not depend on the order in which the engine
    reports the routes: two reports with the same routes produce the same
    lines. The comparison orders routes by path, then by the rank of the
    method, then by the method's name, and tells any two different routes
    apart. *)
Theorem route_log_ignores_report_order (routes1 routes2 : list Server.RouteInfo) :
  Permutation routes1 routes2 ->
  Server.logRegisteredRoutes routes1 = Server.logRegisteredRoutes routes2.
Proof.
  intros Hperm. unfold Server.logRegisteredRoutes. cbv zeta.
  rewrite (SliceStable_of_perm Server.less Server_less_irrefl
             Server_less_trans Server_less_total routes1 routes2 Hperm).
  reflexivity.
Qed.

Lemma route_log_ignores_report_order_witness :
  Server.logRegisteredRoutes Sample.registered
  = Server.logRegisteredRoutes (rev Sample.registered).
Proof.
  apply route_log_ignores_report_order. apply Permutation_rev.
Defined.

(** X14. The routes are logged in ascending order, none left out and none
    twice: the sorted list is a rearrangement of the reported routes in
    which no route is followed, at any distance, by one the comparison
    puts before it; and the log has one line per route between its two
    header and two footer lines. *)
Theorem route_log_is_sorted (routes : list Server.RouteInfo) :
  let sorted := sort.SliceStable Server.less routes in
  Permutation sorted routes
  /\ StronglySorted (in_order Server.less) sorted
  /\ firstn (length routes) (skipn 2 (Server.logRegisteredRoutes routes))
     = map Server.routeLine sorted
  /\ length (Server.logRegisteredRoutes routes) = (length routes + 4)%nat.
Proof.
  cbv zeta.
  pose proof (SliceStable_perm Server.less routes) as Hperm.
  split; [exact Hperm|].
  split; [apply (SliceStable_sorted Server.less Server_less_irrefl
                   Server_less_trans Server_less_total)|].
  apply Permutation_length in Hperm.
  unfold Server.logRegisteredRoutes. cbv zeta. split.
  - rewrite <- Hperm.
    rewrite <- (length_map Server.routeLine
                  (sort.SliceStable Server.less routes)).
    cbn [app skipn]. apply take_app_length.
  - rewrite !length_app, length_map, Hperm. simpl. lia.
Qed.

(** X15. A method the rank table does not know is ranked 0, as DELETE is:
    on the same path it is logged before GET, POST, PUT, PATCH, HEAD and
    OPTIONS, and before or after DELETE by name. The alphabetical
    comparison is not reserved to pairs of unknown methods. *)
Theorem unknown_method_ranks_with_DELETE (m path : string) (known : string) :
  Server.methodOrder !! m = None ->
  known ∈ ["GET"; "POST"; "PUT"; "PATCH"; "HEAD"; "OPTIONS"] ->
  Server.less (Server.mkRouteInfo m path) (Server.mkRouteInfo known path) = true
  /\ Server.less (Server.mkRouteInfo m path) (Server.mkRouteInfo "DELETE" path)
     = String.ltb m "DELETE".
Proof.
  intros Hm Hk.
  assert (Server.methodOrderOf m = 0) as H0
    by (unfold Server.methodOrderOf; rewrite Hm; reflexivity).
  assert (0 < Server.methodOrderOf known) as Hpos.
  { apply list_elem_of_In in Hk. simpl in Hk.
    destruct Hk as [<-|[<-|[<-|[<-|[<-|[<-|[]]]]]]]; vm_compute; reflexivity. }
  assert (Server.methodOrderOf "DELETE" = 0) as HD by (vm_compute; reflexivity).
  unfold Server.less. simpl Server.RoutePath. simpl Server.RouteMethod.
  rewrite String.eqb_refl. simpl negb. cbv iota zeta.
  rewrite H0, HD. split.
  - destruct (Z.eqb_spec 0 (Server.methodOrderOf known)) as [E|E]; [lia|].
    simpl negb. cbv iota. apply Z.ltb_lt, Hpos.
  - reflexivity.
Qed.

Lemma unknown_method_ranks_with_DELETE_witness :
  Server.less (Server.mkRouteInfo "CONNECT" "/ping")
              (Server.mkRouteInfo "GET" "/ping") = true
  /\ Server.less (Server.mkRouteInfo "CONNECT" "/ping")
                 (Server.mkRouteInfo "DELETE" "/ping") = true.
Proof.
  destruct (unknown_method_ranks_with_DELETE "CONNECT" "/ping" "GET")
    as [H1 H2].
  - vm_compute. reflexivity.
  - apply (bool_decide_unpack _). vm_compute. exact I.
  - split; [exact H1|]. rewrite H2. vm_compute. reflexivity.
Defined.
